(** * ai-media-studio-cli: the media download pipeline

    A shallow embedding of [ai_media_studio_cli/download.py] and of the
    status panel of [ai_media_studio_cli/ui_components.py], with the
    properties of the download specification proved about it.

    Conventions of the embedding.
    - A Python [str] is a [string] (a sequence of bytes, UTF-8 for text that
      is not ASCII).  [lower] acts on the ASCII letters only; this is
      [str.lower] on ASCII text, which is what URIs and file extensions are.
    - [pathlib.Path] is the POSIX flavour ([PurePosixPath] parsing).
    - The file system is a finite map from paths to nodes; paths are compared
      component by component (no symbolic links, permissions are not
      modelled).
    - The storage service, the HTTP session and the optional
      [google.cloud.storage] import are collaborators outside the repository:
      they are oracles whose answer may depend on everything that happened
      before (the log of the world).
    - The console is [rich]'s, a library outside the repository.  A line
      is given to it as markup, with references, paths and the texts of
      exceptions put in as they are, and the progress display of a fetch
      draws on it: each of these may raise ([MarkupError] for a text that
      does not read as markup, [LiveError] for a display started while
      another is live, an error of the output stream).  Whether it does is
      the console's answer, an oracle like the other collaborators.
    - [asyncio.gather] returns the results of its tasks in task order
      whatever the schedule; the tasks are run here in task order, and none
      after one that raises (how far the other tasks get before they are
      cancelled depends on the schedule; nothing below is stated of it). *)

From Stdlib Require Import ZArith Ascii String List Lia.
From stdpp Require Import base option list gmap strings pretty.

(** ** Python string operations used by the module *)

Module PyStr.

(** [s.startswith(pre)] *)
Definition startswith (s pre : string) : bool := String.prefix pre s.

Definition lower_char (c : ascii) : ascii :=
  let n := nat_of_ascii c in
  if (65 <=? n) && (n <=? 90) then ascii_of_nat (n + 32) else c.

(** [s.lower()] on ASCII letters *)
Fixpoint lower (s : string) : string :=
  match s with
  | "" => ""
  | String c s' => String (lower_char c) (lower s')
  end.

Fixpoint drop (n : nat) (s : string) : string :=
  match n, s with
  | 0, _ => s
  | S _, "" => ""
  | S k, String _ s' => drop k s'
  end.

Fixpoint contains (c : ascii) (s : string) : bool :=
  match s with
  | "" => false
  | String a s' => Ascii.eqb a c || contains c s'
  end.

(** [s.replace(old, new)] for a non-empty [old]: occurrences are replaced
    left to right, without overlap.  [skip] counts the characters of a
    matched occurrence that are still to be passed over. *)
Fixpoint replace_go (old new : string) (skip : nat) (s : string) : string :=
  match s with
  | "" => ""
  | String c s' =>
      match skip with
      | S k => replace_go old new k s'
      | 0 =>
          if String.prefix old s
          then new +:+ replace_go old new (String.length old - 1) s'
          else String c (replace_go old new 0 s')
      end
  end.

Definition replace (s old new : string) : string := replace_go old new 0 s.

(** [s.partition(sep)] for a one-character [sep]: [None] when [sep] does
    not occur, else the text before and after its first occurrence. *)
Fixpoint partition (sep : ascii) (s : string) : option (string * string) :=
  match s with
  | "" => None
  | String c s' =>
      if Ascii.eqb c sep then Some ("", s')
      else match partition sep s' with
           | Some (a, b) => Some (String c a, b)
           | None => None
           end
  end.

(** [s.split(sep, 1)] for a one-character [sep] *)
Definition split1 (s : string) (sep : ascii) : list string :=
  match partition sep s with
  | Some (a, b) => [a; b]
  | None => [s]
  end.

(** [s.split(sep)] for a one-character [sep] *)
Fixpoint split (sep : ascii) (s : string) : list string :=
  match s with
  | "" => [""]
  | String c s' =>
      if Ascii.eqb c sep then "" :: split sep s'
      else match split sep s' with
           | h :: t => String c h :: t
           | [] => [String c ""]
           end
  end.

(** [s.rfind(c)], [None] for -1 *)
Fixpoint rfind (c : ascii) (s : string) : option nat :=
  match s with
  | "" => None
  | String a s' =>
      match rfind c s' with
      | Some i => Some (S i)
      | None => if Ascii.eqb a c then Some 0 else None
      end
  end.

(** [sep.join(l)] *)
Definition join (sep : string) (l : list string) : string := String.concat sep l.

Fixpoint take (n : nat) (s : string) : string :=
  match n, s with
  | 0, _ => ""
  | S _, "" => ""
  | S k, String c s' => String c (take k s')
  end.

Fixpoint forallb (f : ascii → bool) (s : string) : bool :=
  match s with
  | "" => true
  | String c s' => f c && forallb f s'
  end.

(** Truthiness of a string: [if s:] *)
Definition truthy (s : string) : bool :=
  match s with "" => false | _ => true end.

End PyStr.

(** ** [pathlib.Path], POSIX flavour

    Paths as [PurePosixPath] parses them (CPython 3.8 to 3.12): a root and
    the list of components, without the empty ones and the single dots. *)

Record Path := mkPath {
  anchor : string;        (** the root: [""], ["/"] or ["//"] *)
  parts : list string     (** the components after the root *)
}.

Global Instance Path_eq_dec : EqDecision Path.
Proof. solve_decision. Defined.

Global Instance Path_countable : Countable Path.
Proof.
  apply (inj_countable' (λ p, (anchor p, parts p)) (λ x, mkPath x.1 x.2)).
  by intros [].
Defined.

Module Pathlib.

Fixpoint count_leading (c : ascii) (s : string) : nat :=
  match s with
  | String a s' => if Ascii.eqb a c then S (count_leading c s') else 0
  | "" => 0
  end.

(** The root of a POSIX path: exactly two leading slashes are kept apart,
    any other positive number is one slash. *)
Definition splitroot (s : string) : string :=
  match count_leading "/" s with
  | 0 => ""
  | 2 => "//"
  | _ => "/"
  end.

Definition keep_component (c : string) : bool :=
  negb (String.eqb c "") && negb (String.eqb c ".").

(** [Path(s)]: empty components and ["."] are dropped. *)
Definition of_string (s : string) : Path :=
  {| anchor := splitroot s;
     parts := List.filter keep_component (PyStr.split "/" s) |}.

(** [p / s] *)
Definition joinpath (p : Path) (s : string) : Path :=
  let q := of_string s in
  if PyStr.truthy (anchor q) then q
  else {| anchor := anchor p; parts := parts p ++ parts q |}.

(** [p.name] *)
Definition name (p : Path) : string := List.last (parts p) "".

(** [p.suffix]: from the last dot of the name, unless the name starts with
    that dot or ends with it. *)
Definition suffix (p : Path) : string :=
  let n := name p in
  match PyStr.rfind "." n with
  | Some i =>
      if (0 <? i) && (i <? String.length n - 1) then PyStr.drop i n else ""
  | None => ""
  end.

(** [p.parent] *)
Definition parent (p : Path) : Path :=
  {| anchor := anchor p; parts := List.removelast (parts p) |}.

(** [str(p)] *)
Definition to_string (p : Path) : string :=
  match anchor p, parts p with
  | "", [] => "."
  | a, l => a +:+ PyStr.join "/" l
  end.

End Pathlib.

Notation "p // s" := (Pathlib.joinpath p s) (at level 40, left associativity).

(** ** Media classifier *)

(** Media type mappings based on file extensions ([MEDIA_TYPES]): a dict,
    iterated in insertion order, from media type to a set of extensions. *)
Definition MEDIA_TYPES : list (string * gset string) :=
  [ ("videos", {[ ".mp4"; ".avi"; ".mov"; ".mkv"; ".wmv"; ".flv"; ".webm"; ".m4v"; ".3gp" ]});
    ("images", {[ ".jpg"; ".jpeg"; ".png"; ".gif"; ".bmp"; ".tiff"; ".svg"; ".webp"; ".ico" ]});
    ("audios", {[ ".mp3"; ".wav"; ".flac"; ".aac"; ".ogg"; ".wma"; ".m4a"; ".opus" ]}) ].

(** The loop [for media_type, extensions in table: if ext in extensions:
    return media_type], falling through to ['unknown']. *)
Fixpoint media_type_scan (table : list (string * gset string)) (ext : string) : string :=
  match table with
  | [] => "unknown"
  | (media_type, extensions) :: rest =>
      if bool_decide (ext ∈ extensions) then media_type
      else media_type_scan rest ext
  end.

Definition get_media_type (file_extension : string) : string :=
  let file_extension := PyStr.lower file_extension in
  media_type_scan MEDIA_TYPES file_extension.

(** ** Download status panel ([ui_components.create_download_status_panel]) *)

Record Panel := {
  panel_content : string;
  panel_title : string;
  panel_title_align : string;
  panel_style : string
}.

(** The three branches on the counts: icon, status text and style. *)
Definition download_status (success_count total_count : Z) : string * string * string :=
  if (success_count =? total_count)%Z then
    ("✅", "All downloads successful", "green")
  else if (success_count >? 0)%Z then
    ("⚠️",
     "Partial success: " +:+ pretty success_count +:+ "/" +:+ pretty total_count +:+ " downloaded",
     "yellow")
  else
    ("❌", "All downloads failed", "red").

Definition create_download_status_panel
    (success_count total_count : Z) (download_folder : string) : Panel :=
  let '(status_icon, status_text, style) := download_status success_count total_count in
  let content := "[bold]" +:+ status_icon +:+ " " +:+ status_text +:+ "[/bold]" +:+ "

" in
  let content := content +:+ "📂 Download location: [cyan]" +:+ download_folder +:+ "[/cyan]" in
  {| panel_content := content;
     panel_title := "[bold]Download Status[/bold]";
     panel_title_align := "left";
     panel_style := style |}.

(** ** [urllib.parse.urlparse]

    The generic URL syntax as [urlsplit] and [urlparse] of CPython 3.11
    implement it: leading control characters and spaces are stripped, tabs
    and newlines removed, then scheme, network location, fragment, query and
    parameters are cut off in this order.  A network location with an
    unmatched square bracket is a [ValueError]; the validation of what stands
    between matched brackets and the NFKC check of the network location (which
    concerns text outside ASCII) are not part of the model. *)

Inductive exn :=
  | FileExistsError
  | FileNotFoundError
  | NotADirectoryError
  | IsADirectoryError
  | ValueError
  | KeyError
  | ClientError
  | MarkupError
  | LiveError.

Inductive result (A : Type) :=
  | Ok (a : A)
  | Raise (e : exn).
Arguments Ok {A} a.
Arguments Raise {A} e.

Global Instance exn_eq_dec : EqDecision exn.
Proof. solve_decision. Defined.

Module Urllib.

Record ParseResult := {
  scheme : string;
  netloc : string;
  path : string;
  params : string;
  query : string;
  fragment : string
}.

Definition in_range (lo hi : nat) (c : ascii) : bool :=
  let n := nat_of_ascii c in (lo <=? n) && (n <=? hi).

Definition is_alpha (c : ascii) : bool := in_range 65 90 c || in_range 97 122 c.

(** [scheme_chars]: letters, digits and ["+-."] *)
Definition is_scheme_char (c : ascii) : bool :=
  is_alpha c || in_range 48 57 c || PyStr.contains c "+-.".

(** [url.lstrip(_WHATWG_C0_CONTROL_OR_SPACE)] *)
Fixpoint lstrip_c0 (s : string) : string :=
  match s with
  | String c s' => if in_range 0 32 c then lstrip_c0 s' else s
  | "" => ""
  end.

(** Removal of the [_UNSAFE_URL_BYTES_TO_REMOVE]: tab, carriage return and
    line feed. *)
Fixpoint remove_unsafe (s : string) : string :=
  match s with
  | "" => ""
  | String c s' =>
      let n := nat_of_ascii c in
      if (n =? 9) || (n =? 10) || (n =? 13) then remove_unsafe s'
      else String c (remove_unsafe s')
  end.

Definition split_scheme (url : string) : string * string :=
  match PyStr.partition ":" url with
  | Some (String c0 pre, rest) =>
      if is_alpha c0 && PyStr.forallb is_scheme_char (String c0 pre)
      then (PyStr.lower (String c0 pre), rest)
      else ("", url)
  | _ => ("", url)
  end.

(** [_splitnetloc(url, 2)] applied to the text after the two slashes: the
    network location runs up to the first of ["/?#"]. *)
Fixpoint splitnetloc (s : string) : string * string :=
  match s with
  | "" => ("", "")
  | String c s' =>
      if PyStr.contains c "/?#" then ("", s)
      else let '(n, r) := splitnetloc s' in (String c n, r)
  end.

Definition split_at (sep : ascii) (s : string) : string * string :=
  match PyStr.partition sep s with
  | Some (a, b) => (a, b)
  | None => (s, "")
  end.

Definition uses_params : list string :=
  [""; "ftp"; "hdl"; "prospero"; "http"; "imap"; "https"; "shttp"; "rtsp";
   "rtspu"; "sip"; "sips"; "mms"; "sftp"; "tel"].

(** [_splitparams(url)], called when [";"] occurs in [url] *)
Definition splitparams (url : string) : string * string :=
  match PyStr.rfind "/" url with
  | Some i =>
      match PyStr.partition ";" (PyStr.drop i url) with
      | Some (a, b) => (PyStr.take i url +:+ a, b)
      | None => (url, "")
      end
  | None => split_at ";" url
  end.

Definition urlparse (url : string) : result ParseResult :=
  let url := remove_unsafe (lstrip_c0 url) in
  let '(scheme, url) := split_scheme url in
  let '(netloc, url) :=
    if PyStr.startswith url "//" then splitnetloc (PyStr.drop 2 url)
    else ("", url) in
  if xorb (PyStr.contains "[" netloc) (PyStr.contains "]" netloc)
  then Raise ValueError
  else
    let '(url, fragment) := split_at "#" url in
    let '(url, query) := split_at "?" url in
    let '(url, params) :=
      if bool_decide (scheme ∈ uses_params) && PyStr.contains ";" url
      then splitparams url else (url, "") in
    Ok {| scheme := scheme; netloc := netloc; path := url;
          params := params; query := query; fragment := fragment |}.

End Urllib.

(** ** The world: file system and log of interactions *)

Inductive node :=
  | Dir
  | File (content : string).

(** The progress label [f"Media {i}/{len(media_uris)}: {filename}"], kept as
    its three fields. *)
Record Description := {
  desc_index : nat;
  desc_total : nat;
  desc_filename : string
}.

Definition Description_render (d : Description) : string :=
  "Media " +:+ pretty (desc_index d) +:+ "/" +:+ pretty (desc_total d)
    +:+ ": " +:+ desc_filename d.

(** What [console.print] is called with, and the two points at which the
    progress display of a fetch ([rich.progress.Progress]) draws on the
    console: when it starts, with the task added, and when it stops.  A line
    is kept by its kind and by the reference, path or name put into it; the
    text of the exception that a handler adds to its line is the
    collaborator's and is not kept, and whether the line renders is the
    console's answer in any case. *)
Inductive console_msg :=
  | MsgGcsUnavailable
  | MsgInvalidGcsUri (gcs_uri : string)
  | MsgSignedUrlGenerated (blob_path : string)
  | MsgSignedUrlFailed (gcs_uri : string)
  | MsgDeleted (blob_path : string)
  | MsgDeleteFailed (gcs_uri : string)
  | MsgDownloadFailed (name : string)
  | MsgBanner (organized : bool) (download_dir : Path)
  | MsgConverting
  | MsgConvertFailed (uri : string)
  | MsgCleaningUp
  | MsgCleanedUp (cleanup_count : nat)
  | MsgProgressStart (description : Description)
  | MsgProgressStop (description : Description).

Inductive event :=
  | EvConsole (m : console_msg)
      (** the console has rendered a line or a progress display *)
  | EvSignedUrl (bucket_name blob_path : string)
      (** the storage service is asked for a signed URL *)
  | EvDelete (gcs_uri bucket_name blob_path : string)
      (** the storage service is asked to delete an object *)
  | EvDownload (url : string) (filepath : Path) (description : Description)
      (** a fetch starts: [download_media_file] runs *).

Record World := {
  fs : gmap Path node;
  log : list event
}.

(** Computations: state passing over the world, with exceptions. *)
Definition M (A : Type) : Type := World → result A * World.

Definition ret {A} (a : A) : M A := λ w, (Ok a, w).

Definition raise {A} (e : exn) : M A := λ w, (Raise e, w).

Definition bind {A B} (m : M A) (k : A → M B) : M B :=
  λ w, match m w with
       | (Ok a, w') => k a w'
       | (Raise e, w') => (Raise e, w')
       end.

Notation "'do' x <- m ; k" := (bind m (λ x, k))
  (at level 10, x name, m at level 100, k at level 200, only parsing).

(** [try: body except Exception as e: handler(e)]; what the body did before
    it raised stays done. *)
Definition try_except {A} (body : M A) (handler : exn → M A) : M A :=
  λ w, match body w with
       | (Ok a, w') => (Ok a, w')
       | (Raise e, w') => handler e w'
       end.

Definition emit (e : event) : M unit :=
  λ w, (Ok tt, {| fs := fs w; log := log w ++ [e] |}).

Definition lift_result {A} (r : result A) : M A := λ w, (r, w).

(** *** File system operations *)

(** The current directory and the root always exist. *)
Definition fs_lookup (f : gmap Path node) (p : Path) : option node :=
  match parts p with
  | [] => Some Dir
  | _ => f !! p
  end.

(** [p.mkdir(exist_ok=True)], without [parents] *)
Definition mkdir_exist_ok (p : Path) : M unit :=
  λ w, match fs_lookup (fs w) p with
       | Some Dir => (Ok tt, w)
       | Some (File _) => (Raise FileExistsError, w)
       | None =>
           match fs_lookup (fs w) (Pathlib.parent p) with
           | Some Dir => (Ok tt, {| fs := <[p := Dir]> (fs w); log := log w |})
           | Some (File _) => (Raise NotADirectoryError, w)
           | None => (Raise FileNotFoundError, w)
           end
       end.

(** [open(p, 'wb')]: creates or truncates the file.  A path whose last
    component is [".."] names a directory when it names anything. *)
Definition open_wb (p : Path) : M unit :=
  λ w, if String.eqb (Pathlib.name p) ".." then (Raise IsADirectoryError, w)
       else match fs_lookup (fs w) p with
       | Some Dir => (Raise IsADirectoryError, w)
       | Some (File _) => (Ok tt, {| fs := <[p := File ""]> (fs w); log := log w |})
       | None =>
           match fs_lookup (fs w) (Pathlib.parent p) with
           | Some Dir => (Ok tt, {| fs := <[p := File ""]> (fs w); log := log w |})
           | Some (File _) => (Raise NotADirectoryError, w)
           | None => (Raise FileNotFoundError, w)
           end
       end.

(** [file.write(chunk)] on the file opened at [p] *)
Definition file_write (p : Path) (chunk : string) : M unit :=
  λ w, match fs w !! p with
       | Some (File c) => (Ok tt, {| fs := <[p := File (c +:+ chunk)]> (fs w); log := log w |})
       | _ => (Ok tt, w)
       end.

(** *** Collaborators *)

(** What [session.get(url)] leads to: the request, the status check or the
    reading of the [content-length] header raises, or a body arrives in
    chunks, and the stream either ends or raises after them. *)
Inductive response :=
  | ResponseError
  | ResponseBody (chunks : list string) (complete : bool).

Record Collaborators := {
  (** whether [from google.cloud import storage] succeeded *)
  GCS_AVAILABLE : bool;
  (** [storage.Client().bucket(b).blob(p).generate_signed_url(...)]:
      [None] when any step of it raises *)
  generate_signed_url : list event → string → string → option string;
  (** [storage.Client().bucket(b).blob(p).delete()]: [false] when any step
      of it raises *)
  blob_delete : list event → string → string → bool;
  (** the HTTP request of a URL *)
  session_get : list event → string → response;
  (** the console: [None] when it renders what it is given, the exception
      that rendering raises otherwise *)
  console_error : list event → console_msg → option exn
}.

(** ** The download module *)

(** A coroutine [download_media_file(session, url, filepath, description)]
    that has been created and not yet run. *)
Record Task := {
  task_url : string;
  task_filepath : Path;
  task_description : Description
}.

(** What a call of [download_media_async] goes through: the two lists built
    by the loop, the results of the gathered tasks, and the list returned. *)
Record Run := {
  run_download_tasks : list Task;
  run_file_mapping : list (string * Path);
  run_results : list bool;
  run_successful_downloads : list (string * Path)
}.

Section Download.

Variable env : Collaborators.

(** [console.print(...)]: what the console renders is on the log; what it
    cannot render raises and leaves no line. *)
Definition console_print (m : console_msg) : M unit :=
  λ w, match console_error env (log w) m with
       | None => emit (EvConsole m) w
       | Some e => (Raise e, w)
       end.

(** [with Progress(...) as progress:] around a body, [add_task] included:
    the display starts, the body runs, and the display stops whatever the
    body did; an exception of the stop replaces that of the body. *)
Definition with_progress {A} (description : Description) (body : M A) : M A :=
  do _ <- console_print (MsgProgressStart description);
  λ w, let '(r, w1) := body w in
       match console_print (MsgProgressStop description) w1 with
       | (Ok _, w2) => (r, w2)
       | (Raise e, w2) => (Raise e, w2)
       end.

(** The storage calls, as the world sees them. *)
Definition storage_signed_url (bucket_name blob_path : string) : M string :=
  λ w, let w' := {| fs := fs w; log := log w ++ [EvSignedUrl bucket_name blob_path] |} in
       match generate_signed_url env (log w) bucket_name blob_path with
       | Some signed_url => (Ok signed_url, w')
       | None => (Raise ClientError, w')
       end.

Definition storage_delete (gcs_uri bucket_name blob_path : string) : M unit :=
  λ w, let w' := {| fs := fs w; log := log w ++ [EvDelete gcs_uri bucket_name blob_path] |} in
       if blob_delete env (log w) bucket_name blob_path then (Ok tt, w')
       else (Raise ClientError, w').

Definition http_get (url : string) : M response :=
  λ w, (Ok (session_get env (log w) url), w).

(** [gcs_uri.replace("gs://", "").split("/", 1)] *)
Definition gcs_path_parts (gcs_uri : string) : list string :=
  PyStr.split1 (PyStr.replace gcs_uri "gs://" "") "/".

(** The loop over [MEDIA_TYPES.keys()] of [create_media_folders] *)
Fixpoint create_type_folders
    (base_dir : Path) (media_types : list string) (folders : gmap string Path)
    : M (gmap string Path) :=
  match media_types with
  | [] => ret folders
  | media_type :: rest =>
      let folder_path := base_dir // media_type in
      do _ <- mkdir_exist_ok folder_path;
      create_type_folders base_dir rest (<[media_type := folder_path]> folders)
  end.

Definition create_media_folders (base_dir : Path) : M (gmap string Path) :=
  do folders <- create_type_folders base_dir (MEDIA_TYPES.*1) ∅;
  let unknown_folder := base_dir // "unknown" in
  do _ <- mkdir_exist_ok unknown_folder;
  ret (<["unknown" := unknown_folder]> folders).

Definition delete_gcs_file (gcs_uri : string) : M bool :=
  if negb (GCS_AVAILABLE env) then
    do _ <- console_print MsgGcsUnavailable;
    ret false
  else
    try_except
      (if negb (PyStr.startswith gcs_uri "gs://") then ret false
       else
         match gcs_path_parts gcs_uri with
         | [bucket_name; blob_path] =>
             do _ <- storage_delete gcs_uri bucket_name blob_path;
             do _ <- console_print (MsgDeleted blob_path);
             ret true
         | _ =>
             do _ <- console_print (MsgInvalidGcsUri gcs_uri);
             ret false
         end)
      (λ _, do _ <- console_print (MsgDeleteFailed gcs_uri);
            ret false).

(** [Optional[str]]: [None] is Python's [None]. *)
Definition convert_gcs_uri_to_signed_url (gcs_uri : string) : M (option string) :=
  if negb (GCS_AVAILABLE env) then
    do _ <- console_print MsgGcsUnavailable;
    ret None
  else
    try_except
      (if negb (PyStr.startswith gcs_uri "gs://") then ret (Some gcs_uri)
       else
         match gcs_path_parts gcs_uri with
         | [bucket_name; blob_path] =>
             do signed_url <- storage_signed_url bucket_name blob_path;
             do _ <- console_print (MsgSignedUrlGenerated blob_path);
             ret (Some signed_url)
         | _ =>
             do _ <- console_print (MsgInvalidGcsUri gcs_uri);
             ret None
         end)
      (λ _, do _ <- console_print (MsgSignedUrlFailed gcs_uri);
            ret None).

Fixpoint write_chunks (filepath : Path) (chunks : list string) : M unit :=
  match chunks with
  | [] => ret tt
  | chunk :: rest =>
      do _ <- file_write filepath chunk;
      write_chunks filepath rest
  end.

Definition download_media_file
    (url : string) (filepath : Path) (description : Description) : M bool :=
  do _ <- emit (EvDownload url filepath description);
  try_except
    (do response <- http_get url;
     match response with
     | ResponseError => raise ClientError
     | ResponseBody chunks complete =>
         do _ <- with_progress description
                   (do _ <- open_wb filepath;
                    do _ <- write_chunks filepath chunks;
                    if complete then ret tt else raise ClientError);
         ret true
     end)
    (λ _, do _ <- console_print (MsgDownloadFailed (Pathlib.name filepath));
          ret false).

(** The target filename of the reference at position [i] (from 1). *)
Definition derive_filename (i : nat) (uri : string) : result string :=
  if PyStr.startswith uri "gs://" then
    let path_parts := gcs_path_parts uri in
    if 1 <? length path_parts
    then Ok (Pathlib.name (Pathlib.of_string (nth 1 path_parts "")))
    else Ok ("media_" +:+ pretty i)
  else
    match Urllib.urlparse uri with
    | Raise e => Raise e
    | Ok parsed =>
        let filename := Pathlib.name (Pathlib.of_string (Urllib.path parsed)) in
        if negb (PyStr.truthy filename) then Ok ("media_" +:+ pretty i)
        else Ok filename
    end.

(** Media type and target folder of a filename.  [media_folders] is only
    read when [organize_by_type] holds. *)
Definition target_filepath
    (organize_by_type : bool) (media_folders : gmap string Path)
    (download_dir : Path) (filename : string) : result Path :=
  let file_extension := PyStr.lower (Pathlib.suffix (Pathlib.of_string filename)) in
  if organize_by_type then
    let media_type := get_media_type file_extension in
    match media_folders !! "unknown" with
    | None => Raise KeyError
    | Some unknown_folder =>
        let target_folder := default unknown_folder (media_folders !! media_type) in
        Ok (target_folder // filename)
    end
  else Ok (download_dir // filename).

(** The body of the loop over [enumerate(media_uris, 1)]: [None] is
    [continue], otherwise the task and the pair appended to
    [download_tasks] and [file_mapping]. *)
Definition prepare_item
    (total : nat) (organize_by_type : bool) (media_folders : gmap string Path)
    (download_dir : Path) (i : nat) (uri : string)
    : M (option (Task * (string * Path))) :=
  do filename <- lift_result (derive_filename i uri);
  do filepath <- lift_result
    (target_filepath organize_by_type media_folders download_dir filename);
  let description :=
    {| desc_index := i; desc_total := total; desc_filename := filename |} in
  if PyStr.startswith uri "gs://" then
    do _ <- console_print MsgConverting;
    do signed_url <- convert_gcs_uri_to_signed_url uri;
    if from_option PyStr.truthy false signed_url then
      let download_url := default "" signed_url in
      ret (Some ({| task_url := download_url; task_filepath := filepath;
                    task_description := description |}, (uri, filepath)))
    else
      do _ <- console_print (MsgConvertFailed uri);
      ret None
  else
    ret (Some ({| task_url := uri; task_filepath := filepath;
                  task_description := description |}, (uri, filepath))).

Fixpoint prepare_loop
    (total : nat) (organize_by_type : bool) (media_folders : gmap string Path)
    (download_dir : Path) (i : nat) (media_uris : list string)
    (download_tasks : list Task) (file_mapping : list (string * Path))
    : M (list Task * list (string * Path)) :=
  match media_uris with
  | [] => ret (download_tasks, file_mapping)
  | uri :: rest =>
      do item <- prepare_item total organize_by_type media_folders download_dir i uri;
      match item with
      | None =>
          prepare_loop total organize_by_type media_folders download_dir
            (S i) rest download_tasks file_mapping
      | Some (task, mapping) =>
          prepare_loop total organize_by_type media_folders download_dir
            (S i) rest (download_tasks ++ [task]) (file_mapping ++ [mapping])
      end
  end.

(** [asyncio.gather] of the download tasks, awaited *)
Fixpoint gather (download_tasks : list Task) : M (list bool) :=
  match download_tasks with
  | [] => ret []
  | task :: rest =>
      do success <- download_media_file
        (task_url task) (task_filepath task) (task_description task);
      do results <- gather rest;
      ret (success :: results)
  end.

(** [[mapping for mapping, success in zip(file_mapping, results) if success]] *)
Definition filter_successful
    (file_mapping : list (string * Path)) (results : list bool)
    : list (string * Path) :=
  (List.filter snd (zip file_mapping results)).*1.

Fixpoint cleanup_loop
    (successful_downloads : list (string * Path)) (cleanup_count : nat) : M nat :=
  match successful_downloads with
  | [] => ret cleanup_count
  | (original_uri, _) :: rest =>
      if PyStr.startswith original_uri "gs://" then
        do deleted <- delete_gcs_file original_uri;
        cleanup_loop rest (if deleted then S cleanup_count else cleanup_count)
      else cleanup_loop rest cleanup_count
  end.

Definition download_dir_of (output_dir : option string) : Path :=
  if from_option PyStr.truthy false output_dir
  then Pathlib.of_string (default "" output_dir)
  else Pathlib.of_string "downloaded_media".

Definition download_media_async_run
    (media_uris : list string) (output_dir : option string)
    (cleanup_gcs organize_by_type : bool) : M Run :=
  let download_dir := download_dir_of output_dir in
  do _ <- mkdir_exist_ok download_dir;
  do media_folders <-
    (if organize_by_type then
       do media_folders <- create_media_folders download_dir;
       do _ <- console_print (MsgBanner true download_dir);
       ret media_folders
     else
       do _ <- console_print (MsgBanner false download_dir);
       ret ∅);
  do prepared <- prepare_loop (length media_uris) organize_by_type media_folders
                   download_dir 1 media_uris [] [];
  let '(download_tasks, file_mapping) := prepared in
  do results <- gather download_tasks;
  let successful_downloads := filter_successful file_mapping results in
  do _ <-
    (if cleanup_gcs && negb (bool_decide (successful_downloads = [])) then
       do _ <- console_print MsgCleaningUp;
       do cleanup_count <- cleanup_loop successful_downloads 0;
       if 0 <? cleanup_count then console_print (MsgCleanedUp cleanup_count)
       else ret tt
     else ret tt);
  ret {| run_download_tasks := download_tasks;
         run_file_mapping := file_mapping;
         run_results := results;
         run_successful_downloads := successful_downloads |}.

Definition download_media_async
    (media_uris : list string) (output_dir : option string)
    (cleanup_gcs organize_by_type : bool) : M (list (string * Path)) :=
  do r <- download_media_async_run media_uris output_dir cleanup_gcs organize_by_type;
  ret (run_successful_downloads r).

(** [asyncio.run] of the above *)
Definition download_media
    (media_uris : list string) (output_dir : option string)
    (cleanup_gcs organize_by_type : bool) : M (list (string * Path)) :=
  download_media_async media_uris output_dir cleanup_gcs organize_by_type.

Definition download_videos
    (video_uris : list string) (output_dir : option string)
    (cleanup_gcs : bool) : M (list (string * Path)) :=
  download_media video_uris output_dir cleanup_gcs false.

End Download.

(** The status panel of [print_download_summary]: the success count is the
    number of downloads. *)
Definition print_download_summary_panel
    (downloads : list (string * Path)) (total_media : Z) (download_folder : string)
    : Panel :=
  let success_count := Z.of_nat (length downloads) in
  create_download_status_panel success_count total_media download_folder.

(** ** What the properties are stated with *)

(** The fetches started, the deletions asked for and the references reported
    as not converted, in the order of the log. *)
Definition download_of (e : event) : option Task :=
  match e with
  | EvDownload url filepath description =>
      Some {| task_url := url; task_filepath := filepath; task_description := description |}
  | _ => None
  end.

Definition delete_of (e : event) : option (string * list string) :=
  match e with
  | EvDelete gcs_uri bucket_name blob_path => Some (gcs_uri, [bucket_name; blob_path])
  | _ => None
  end.

Definition convert_failure_of (e : event) : option string :=
  match e with
  | EvConsole (MsgConvertFailed uri) => Some uri
  | _ => None
  end.

Definition log_downloads (l : list event) : list Task := omap download_of l.
Definition log_deletes (l : list event) : list (string * list string) := omap delete_of l.
Definition log_convert_failures (l : list event) : list string := omap convert_failure_of l.

(** There is a regular file at [p]. *)
Definition is_file (f : gmap Path node) (p : Path) : Prop := ∃ c, f !! p = Some (File c).

(** The deletion that [delete_gcs_file] asks the storage service for. *)
Definition issued_delete (env : Collaborators) (gcs_uri : string)
    : option (string * list string) :=
  if GCS_AVAILABLE env && PyStr.startswith gcs_uri "gs://"
     && (length (gcs_path_parts gcs_uri) =? 2)
  then Some (gcs_uri, gcs_path_parts gcs_uri) else None.

(** The reference [uri] at position [i] went through the body of the loop and
    came out as the task [t] and the pair [m]. *)
Definition prepared (env : Collaborators) (total : nat) (organize_by_type : bool)
    (media_folders : gmap string Path) (download_dir : Path)
    (i : nat) (uri : string) (t : Task) (m : string * Path) : Prop :=
  ∃ filename,
    derive_filename i uri = Ok filename
    ∧ target_filepath organize_by_type media_folders download_dir filename = Ok m.2
    ∧ m.1 = uri
    ∧ task_filepath t = m.2
    ∧ task_description t
      = {| desc_index := i; desc_total := total; desc_filename := filename |}
    ∧ if PyStr.startswith uri "gs://"
      then GCS_AVAILABLE env = true
           ∧ PyStr.truthy (task_url t) = true
           ∧ ∃ bucket_name blob_path h,
               gcs_path_parts uri = [bucket_name; blob_path]
               ∧ generate_signed_url env h bucket_name blob_path = Some (task_url t)
      else task_url t = uri.

(** The course of the loop from position [i] over the references: each one
    is skipped, and reported, or yields a task and a pair. *)
Inductive loop_trace (env : Collaborators) (total : nat) (organize_by_type : bool)
    (media_folders : gmap string Path) (download_dir : Path)
    : nat → list string → list (Task * (string * Path)) → list string → Prop :=
  | loop_trace_nil i :
      loop_trace env total organize_by_type media_folders download_dir i [] [] []
  | loop_trace_skip i uri rest items failures :
      PyStr.startswith uri "gs://" = true →
      loop_trace env total organize_by_type media_folders download_dir
        (S i) rest items failures →
      loop_trace env total organize_by_type media_folders download_dir
        i (uri :: rest) items (uri :: failures)
  | loop_trace_take i uri rest t m items failures :
      prepared env total organize_by_type media_folders download_dir i uri t m →
      loop_trace env total organize_by_type media_folders download_dir
        (S i) rest items failures →
      loop_trace env total organize_by_type media_folders download_dir
        i (uri :: rest) ((t, m) :: items) failures.

(** Whatever is at [p], if anything, is not a regular file. *)
Definition not_a_file (f : gmap Path node) (p : Path) : Prop :=
  ∀ c, fs_lookup f p ≠ Some (File c).

(** The dict that [create_media_folders] returns. *)
Definition media_folders_of (base_dir : Path) : gmap string Path :=
  <["unknown" := base_dir // "unknown"]>
    (<["audios" := base_dir // "audios"]>
       (<["images" := base_dir // "images"]>
          (<["videos" := base_dir // "videos"]> ∅))).

(** The exchange of the storage reference [uri] for a signed URL fails,
    whenever it is tried: the storage client is not there, the reference does
    not split into bucket and object, or the storage service gives no URL
    (or an empty one). *)
Definition resolution_fails (env : Collaborators) (uri : string) : Prop :=
  GCS_AVAILABLE env = false
  ∨ length (gcs_path_parts uri) ≠ 2
  ∨ ∃ bucket_name blob_path,
      gcs_path_parts uri = [bucket_name; blob_path]
      ∧ ∀ h, from_option PyStr.truthy false
               (generate_signed_url env h bucket_name blob_path) = false.


Definition empty_world : World := {| fs := ∅; log := [] |}.

(** The outcomes that a call has: the pairs of [zip(file_mapping, results)],
    a reference and its target path with the result of its fetch. *)
Definition run_outcomes (run : Run) : list ((string * Path) * bool) :=
  zip (run_file_mapping run) (run_results run).

(** The console renders [m] whenever it is given it. *)
Definition console_renders (env : Collaborators) (m : console_msg) : Prop :=
  ∀ h, console_error env h m = None.

(** The console renders whatever it is given. *)
Definition console_works (env : Collaborators) : Prop :=
  ∀ m, console_renders env m.

(** Collaborators for the examples: the storage client is, or is not,
    installed; the storage service signs every object outside the bucket
    [locked] and deletes whatever it is asked to; a fetch succeeds unless the
    URL contains ["broken"]; the console renders everything. *)
Definition demo_session_get (url : string) : response :=
  match String.index 0 "broken" url with
  | Some _ => ResponseError
  | None => ResponseBody ["chunk1"; "chunk2"] true
  end.

Definition demo_env (gcs_available : bool) : Collaborators := {|
  GCS_AVAILABLE := gcs_available;
  generate_signed_url := λ _ bucket_name blob_path,
    if String.eqb bucket_name "locked" then None
    else Some ("https://storage.example/" +:+ bucket_name +:+ "/" +:+ blob_path +:+ "?sig=1");
  blob_delete := λ _ _ _, true;
  session_get := λ _ url, demo_session_get url;
  console_error := λ _ _, None
|}.


Definition is_ok {A} (r : result A) : bool :=
  match r with Ok _ => true | Raise _ => false end.

(** Batches for the examples. *)
Definition demo_three : list string :=
  ["https://example.com/one.mp4"; "https://example.com/broken.png";
   "https://example.com/three.mp3"].

Definition demo_mixed : list string :=
  ["https://example.com/clip.mp4"; "gs://locked/a/b.png"; "gs://open/v/x.MP3";
   "https://example.com/broken.wav"].

(** A world in which the default download directory exists. *)
Definition demo_world : World :=
  {| fs := {[ Pathlib.of_string "downloaded_media" := Dir ]}; log := [] |}.

(** ** More of the module, and what its properties are stated with *)

(** A string that [Path] reads as one component: no slash, not empty, not
    a single dot. *)
Definition single_component (s : string) : Prop :=
  PyStr.contains "/" s = false ∧ Pathlib.keep_component s = true.

(** The signed URLs asked of the storage service, in the order of the log. *)
Definition signed_url_of (e : event) : option (string * string) :=
  match e with
  | EvSignedUrl bucket_name blob_path => Some (bucket_name, blob_path)
  | _ => None
  end.

Definition log_signed_urls (l : list event) : list (string * string) :=
  omap signed_url_of l.

(** [old] occurs somewhere in [s]. *)
Fixpoint occurs (old s : string) : bool :=
  match s with
  | "" => String.prefix old ""
  | String _ s' => String.prefix old s || occurs old s'
  end.

(** There is a directory at [p]. *)
Definition is_dir (f : gmap Path node) (p : Path) : Prop := fs_lookup f p = Some Dir.

(** The kinds of events of the three phases of a call: preparing the tasks
    (console and signed URL requests), fetching (console and fetches),
    cleaning up (console and deletions). *)
Definition preparing_event (e : event) : Prop :=
  match e with EvConsole _ | EvSignedUrl _ _ => True | _ => False end.

Definition fetching_event (e : event) : Prop :=
  match e with EvConsole _ | EvDownload _ _ _ => True | _ => False end.

Definition cleaning_event (e : event) : Prop :=
  match e with EvConsole _ | EvDelete _ _ _ => True | _ => False end.

Definition console_event (e : event) : Prop :=
  match e with EvConsole _ => True | _ => False end.

(** ** The download summary ([print_download_summary]) *)

Definition upper_char (c : ascii) : ascii :=
  let n := nat_of_ascii c in
  if (97 <=? n) && (n <=? 122) then ascii_of_nat (n - 32) else c.

(** [s.title()] on ASCII letters: a letter after a letter is lower-cased,
    every other letter is upper-cased. *)
Fixpoint title_go (previous_is_cased : bool) (s : string) : string :=
  match s with
  | "" => ""
  | String c s' =>
      String (if previous_is_cased then PyStr.lower_char c else upper_char c)
        (title_go (Urllib.is_alpha c) s')
  end.

Definition str_title (s : string) : string := title_go false s.

(** What the summary gives to the console, the status panel first: one
    item for each call of [console.print], in the order of the calls.  The
    summary is the list of these calls; a call at which the console raises
    would end it there. *)
Inductive summary_item :=
  | SummaryPanel (panel : Panel)
  | SummaryByTypeHeading                   (** "Downloaded files by type:" *)
  | SummaryTypeHeading (title : string)    (** the title of a media type *)
  | SummaryTypeFile (filename : string)    (** a file under its media type *)
  | SummaryFilesHeading                    (** "Downloaded files:" *)
  | SummaryFile (filename : string)
  | SummaryReady.                          (** "Files are ready to use!" *)

(** The dict [by_type]: its keys in the order of insertion, each with the
    list of filenames appended so far. *)
Definition by_type_initial : list (string * list string) :=
  [("videos", []); ("images", []); ("audios", []); ("unknown", [])].

(** [parent_name in by_type] *)
Definition by_type_mem (by_type : list (string * list string)) (key : string) : bool :=
  existsb (λ entry, String.eqb entry.1 key) by_type.

(** [by_type[key].append(filename)] *)
Fixpoint by_type_append
    (by_type : list (string * list string)) (key filename : string)
    : list (string * list string) :=
  match by_type with
  | [] => []
  | (media_type, files) :: rest =>
      if String.eqb media_type key then (media_type, files ++ [filename]) :: rest
      else (media_type, files) :: by_type_append rest key filename
  end.

(** The loop [for _, local_path in downloads] that fills [by_type]. *)
Fixpoint group_downloads
    (downloads : list (string * Path)) (by_type : list (string * list string))
    : list (string * list string) :=
  match downloads with
  | [] => by_type
  | (_, local_path) :: rest =>
      let parent_name := Pathlib.name (Pathlib.parent local_path) in
      group_downloads rest
        (if by_type_mem by_type parent_name
         then by_type_append by_type parent_name (Pathlib.name local_path)
         else by_type_append by_type "unknown" (Pathlib.name local_path))
  end.

(** The loop [for media_type, files in by_type.items()]. *)
Definition print_by_type (by_type : list (string * list string)) : list summary_item :=
  flat_map
    (λ entry, if bool_decide (entry.2 = []) then []
              else SummaryTypeHeading (str_title entry.1) :: map SummaryTypeFile entry.2)
    by_type.

Definition print_download_summary
    (downloads : list (string * Path)) (total_media : Z) (download_folder : string)
    (organized : bool) : list summary_item :=
  SummaryPanel (print_download_summary_panel downloads total_media download_folder)
  :: (if bool_decide (downloads = []) then []
      else
        (if organized then
           SummaryByTypeHeading :: print_by_type (group_downloads downloads by_type_initial)
         else
           SummaryFilesHeading :: map (λ d, SummaryFile (Pathlib.name d.2)) downloads)
        ++ [SummaryReady]).

Definition print_video_download_summary
    (downloads : list (string * Path)) (total_videos : Z) (download_folder : string)
    : list summary_item :=
  print_download_summary downloads total_videos download_folder false.

(** The media type under which the summary lists a download: the name of
    its folder when that is one of the four, [unknown] otherwise. *)
Definition summary_group (local_path : Path) : string :=
  let parent_name := Pathlib.name (Pathlib.parent local_path) in
  if bool_decide (parent_name ∈ ["videos"; "images"; "audios"; "unknown"])
  then parent_name else "unknown".

(** The filenames that a summary lists, in the order of printing. *)
Definition listed_file (item : summary_item) : option string :=
  match item with
  | SummaryTypeFile filename | SummaryFile filename => Some filename
  | _ => None
  end.

Definition listed_files (summary : list summary_item) : list string :=
  omap listed_file summary.

(** The names of the downloads that the summary lists under [key], in the
    order of the downloads. *)
Definition group_names (key : string) (downloads : list (string * Path)) : list string :=
  (λ d, Pathlib.name d.2) <$> filter (λ d, summary_group d.2 = key) downloads.

(** A heading and its files; nothing for an empty list of files. *)
Definition summary_section (title : string) (files : list string) : list summary_item :=
  if bool_decide (files = []) then []
  else SummaryTypeHeading title :: map SummaryTypeFile files.

(** More collaborators and worlds for the examples: a server whose stream
    breaks after one chunk, and a world in which the name of the default
    download directory is taken by a regular file. *)
Definition demo_broken_env : Collaborators := {|
  GCS_AVAILABLE := true;
  generate_signed_url := λ _ _ _, None;
  blob_delete := λ _ _ _, false;
  session_get := λ _ _, ResponseBody ["part"] false;
  console_error := λ _ _, None
|}.

(** The text that a line takes from outside the source: a reference, the
    path of an object, the name of a file, a directory. *)
Definition interpolated_text (m : console_msg) : string :=
  match m with
  | MsgInvalidGcsUri gcs_uri | MsgSignedUrlFailed gcs_uri | MsgDeleteFailed gcs_uri
  | MsgConvertFailed gcs_uri => gcs_uri
  | MsgSignedUrlGenerated blob_path | MsgDeleted blob_path => blob_path
  | MsgDownloadFailed name => name
  | MsgBanner _ download_dir => Pathlib.to_string download_dir
  | MsgProgressStart description | MsgProgressStop description =>
      desc_filename description
  | MsgGcsUnavailable | MsgConverting | MsgCleaningUp | MsgCleanedUp _ => ""
  end.

(** A console for the examples that, like [rich], takes a closing tag in
    such a text for markup and finds no tag that it closes. *)
Definition demo_rich_env (gcs_available : bool) : Collaborators := {|
  GCS_AVAILABLE := gcs_available;
  generate_signed_url := generate_signed_url (demo_env gcs_available);
  blob_delete := blob_delete (demo_env gcs_available);
  session_get := session_get (demo_env gcs_available);
  console_error := λ _ m,
    if occurs "[/" (interpolated_text m) then Some MarkupError else None
|}.

Definition demo_taken_world : World :=
  {| fs := {[ Pathlib.of_string "downloaded_media" := File "notes" ]}; log := [] |}.

Definition demo_description : Description :=
  {| desc_index := 1; desc_total := 1; desc_filename := "one.mp4" |}.

(** * Properties *)

(** [run_demo c H] evaluates the closed computation [c] and records its
    result as [H]; the world it ends in stays [c.2]. *)
Ltac run_demo c H :=
  let r := eval vm_compute in (fst c) in
  let Hfst := fresh in
  assert (Hfst : fst c = r) by (vm_compute; reflexivity);
  assert (H : c = (r, snd c)) by (rewrite <- Hfst; apply surjective_pairing);
  clear Hfst.

(** [step] unfolds the monad in the hypotheses and splits on every test and
    match it meets there. *)
Ltac step :=
  repeat first
    [ progress simplify_eq/=
    | progress unfold bind, ret, raise, try_except, emit, console_print, lift_result in *
    | match goal with
      | H : context [match ?x with _ => _ end] |- _ => destruct x eqn:?
      | H : context [if ?x then _ else _] |- _ => destruct x eqn:?
      end ].

(** ** The models of the library functions on examples *)

Example urlparse_clip :
  Urllib.path <$> (match Urllib.urlparse "https://example.com/a/clip.mp4;v=1?sig=abc#frag" with
                   | Ok r => Some r | Raise _ => None end)
  = Some "/a/clip.mp4".
Proof. vm_compute. reflexivity. Qed.

Example get_media_type_mp4 : get_media_type ".MP4" = "videos".
Proof. vm_compute. reflexivity. Qed.

Example suffix_clip : Pathlib.suffix (Pathlib.of_string "a/b/clip.tar.mp4") = ".mp4".
Proof. vm_compute. reflexivity. Qed.

(** ** Media classifier *)

Lemma media_type_scan_in table ext :
  media_type_scan table ext ∈ "unknown" :: table.*1.
Proof.
  induction table as [|[mt exts] rest IH]; simpl.
  - apply list_elem_of_here.
  - case_bool_decide.
    + apply list_elem_of_further, list_elem_of_here.
    + apply elem_of_cons in IH as [->|IH]; [apply list_elem_of_here|].
      by do 2 apply list_elem_of_further.
Qed.

Lemma MEDIA_TYPES_disjoint i j mt1 e1 mt2 e2 :
  MEDIA_TYPES !! i = Some (mt1, e1) → MEDIA_TYPES !! j = Some (mt2, e2) → i ≠ j → e1 ## e2.
Proof.
  intros Hi Hj Hij.
  destruct i as [|[|[|i]]], j as [|[|[|j]]]; simplify_eq/=; try done.
  all: apply (bool_decide_unpack _); vm_compute; exact I.
Qed.

Lemma media_type_scan_hit table ext i mt exts :
  table !! i = Some (mt, exts) → ext ∈ exts →
  (∀ j mt' exts', j < i → table !! j = Some (mt', exts') → ext ∉ exts') →
  media_type_scan table ext = mt.
Proof.
  revert i. induction table as [|[mt0 e0] rest IH]; intros [|i] Hi Hin Hbefore; simplify_eq/=.
  - by rewrite bool_decide_eq_true_2.
  - rewrite bool_decide_eq_false_2.
    + apply (IH i); [done..|]. intros j mt' exts' Hj. apply (Hbefore (S j)). lia.
    + apply (Hbefore 0 mt0 e0); [lia|done].
Qed.

Lemma media_type_scan_miss table ext :
  (∀ mt exts, (mt, exts) ∈ table → ext ∉ exts) → media_type_scan table ext = "unknown".
Proof.
  induction table as [|[mt0 e0] rest IH]; intros Hall; simpl; [done|].
  rewrite bool_decide_eq_false_2.
  - apply IH. intros mt exts Hin. apply (Hall mt). by apply list_elem_of_further.
  - apply (Hall mt0). apply list_elem_of_here.
Qed.

(** C3: [get_media_type] is a function of the extension alone, defined on
    every string.  An extension whose lower-case form is listed under a media
    type in [MEDIA_TYPES] is given that media type, an extension whose
    lower-case form is listed nowhere is given [unknown], and no other answer
    exists. *)
Theorem get_media_type_table (file_extension : string) :
  (∀ media_type extensions,
     (media_type, extensions) ∈ MEDIA_TYPES →
     PyStr.lower file_extension ∈ extensions →
     get_media_type file_extension = media_type)
  ∧ ((∀ media_type extensions,
        (media_type, extensions) ∈ MEDIA_TYPES →
        PyStr.lower file_extension ∉ extensions) →
     get_media_type file_extension = "unknown")
  ∧ get_media_type file_extension ∈ ["videos"; "images"; "audios"; "unknown"].
Proof.
  unfold get_media_type. set (ext := PyStr.lower file_extension). clearbody ext.
  split; [|split].
  - intros mt exts Hin Hext.
    apply list_elem_of_lookup in Hin as [i Hi].
    apply (media_type_scan_hit _ _ i mt exts); [done..|].
    intros j mt' exts' Hlt Hj Hext'.
    assert (i ≠ j) as Hne by lia.
    pose proof (MEDIA_TYPES_disjoint i j _ _ _ _ Hi Hj Hne) as Hd.
    by apply (Hd ext).
  - apply media_type_scan_miss.
  - pose proof (media_type_scan_in MEDIA_TYPES ext) as H.
    simpl in H. rewrite !elem_of_cons in H. rewrite !elem_of_cons. tauto.
Qed.

Lemma get_media_type_table_witness :
  get_media_type ".MkV" = "videos" ∧ get_media_type ".Jpeg" = "images"
  ∧ get_media_type ".OPUS" = "audios" ∧ get_media_type ".exe" = "unknown".
Proof.
  split; [|split; [|split]].
  - eapply (proj1 (get_media_type_table ".MkV")).
    + apply list_elem_of_here.
    + apply (bool_decide_unpack _). vm_compute. exact I.
  - eapply (proj1 (get_media_type_table ".Jpeg")).
    + apply list_elem_of_further, list_elem_of_here.
    + apply (bool_decide_unpack _). vm_compute. exact I.
  - eapply (proj1 (get_media_type_table ".OPUS")).
    + do 2 apply list_elem_of_further. apply list_elem_of_here.
    + apply (bool_decide_unpack _). vm_compute. exact I.
  - apply (proj1 (proj2 (get_media_type_table ".exe"))).
    intros mt exts Hin. unfold MEDIA_TYPES in Hin.
    rewrite !elem_of_cons, elem_of_nil in Hin.
    destruct Hin as [Hin|[Hin|[Hin|[]]]]; injection Hin as -> ->;
      apply (bool_decide_unpack _); vm_compute; exact I.
Defined.

(** ** Download status *)

(** C8: with a positive total, the status is "all successful" when the
    success count equals the total, "partial success" when it lies strictly
    between zero and the total, and "all failed" when it is zero; the panel
    takes its style from that status, and [print_download_summary] counts the
    downloads it is given. *)
Theorem download_status_by_counts
    (success_count total_count : Z) (download_folder : string) :
  (0 < total_count)%Z →
  (success_count = total_count →
     download_status success_count total_count
     = ("✅", "All downloads successful", "green"))
  ∧ ((0 < success_count < total_count)%Z →
     download_status success_count total_count
     = ("⚠️",
        "Partial success: " +:+ pretty success_count +:+ "/" +:+ pretty total_count
          +:+ " downloaded",
        "yellow"))
  ∧ (success_count = 0%Z →
     download_status success_count total_count
     = ("❌", "All downloads failed", "red"))
  ∧ panel_style (create_download_status_panel success_count total_count download_folder)
    = (download_status success_count total_count).2
  ∧ (∀ downloads : list (string * Path),
       success_count = Z.of_nat (length downloads) →
       print_download_summary_panel downloads total_count download_folder
       = create_download_status_panel success_count total_count download_folder).
Proof.
  intros Htotal. unfold download_status. repeat apply conj.
  - intros ->. by rewrite Z.eqb_refl.
  - intros [Hpos Hlt].
    destruct (Z.eqb_spec success_count total_count) as [->|_]; [lia|].
    destruct (Z.gtb_spec success_count 0); [done|lia].
  - intros ->.
    destruct (Z.eqb_spec 0 total_count) as [<-|_]; [lia|done].
  - unfold create_download_status_panel, download_status.
    destruct (success_count =? total_count)%Z; [done|].
    by destruct (success_count >? 0)%Z.
  - intros downloads ->. done.
Qed.

Lemma download_status_by_counts_witness :
  (download_status 3 3).2 = "green"
  ∧ (download_status 2 3).1.2 = "Partial success: 2/3 downloaded"
  ∧ (download_status 0 3).1.2 = "All downloads failed".
Proof.
  pose proof (download_status_by_counts 3 3 "downloaded_media" eq_refl) as (H33 & _).
  pose proof (download_status_by_counts 2 3 "downloaded_media" eq_refl) as (_ & H23 & _).
  pose proof (download_status_by_counts 0 3 "downloaded_media" eq_refl) as (_ & _ & H03 & _).
  rewrite (H33 eq_refl), (H23 (conj eq_refl eq_refl)), (H03 eq_refl).
  repeat split.
Defined.

(** C10: whenever the success count equals the total, the status is "all
    successful"; so it is for an empty batch, zero out of zero. *)
Theorem download_status_equal_counts (count : Z) (download_folder : string) :
  download_status count count = ("✅", "All downloads successful", "green")
  ∧ panel_style (create_download_status_panel count count download_folder) = "green"
  ∧ download_status 0 0 = ("✅", "All downloads successful", "green")
  ∧ panel_style (print_download_summary_panel [] 0 download_folder) = "green".
Proof.
  assert (download_status count count = ("✅", "All downloads successful", "green")) as H.
  { unfold download_status. by rewrite Z.eqb_refl. }
  repeat apply conj; [done| |done..].
  unfold create_download_status_panel. by rewrite H.
Qed.

(** ** The resolver *)


Lemma console_print_renders env m w :
  console_error env (log w) m = None →
  console_print env m w = (Ok tt, {| fs := fs w; log := log w ++ [EvConsole m] |}).
Proof. unfold console_print. by intros ->. Qed.

Lemma console_print_works env m w :
  console_works env →
  console_print env m w = (Ok tt, {| fs := fs w; log := log w ++ [EvConsole m] |}).
Proof. intros Hworks. apply console_print_renders, Hworks. Qed.




(** ** The target filename *)

Lemma derive_filename_plain_nonempty i uri filename :
  PyStr.startswith uri "gs://" = false →
  derive_filename i uri = Ok filename → filename ≠ "".
Proof.
  unfold derive_filename. intros ->.
  destruct (Urllib.urlparse uri) as [parsed|]; [|done].
  destruct (Pathlib.name _) as [|c s] eqn:Hname; simpl; by intros [= <-].
Qed.

Lemma split1_no_sep s sep :
  PyStr.contains sep s = false → PyStr.split1 s sep = [s].
Proof.
  intros Hc. unfold PyStr.split1.
  assert (PyStr.partition sep s = None) as ->; [|done].
  induction s as [|c s IH]; simpl in *; [done|].
  apply orb_false_iff in Hc as [-> Hc]. by rewrite IH.
Qed.

Lemma derive_filename_gs_no_slash i uri :
  PyStr.startswith uri "gs://" = true →
  PyStr.contains "/" (PyStr.replace uri "gs://" "") = false →
  derive_filename i uri = Ok ("media_" +:+ pretty i).
Proof.
  intros Hgs Hslash. unfold derive_filename. rewrite Hgs.
  unfold gcs_path_parts. by rewrite split1_no_sep.
Qed.

(** C6: at every position the storage reference [gs://bucket/] is given the
    empty filename: its object path is empty, the list of parts has two
    elements, and no [media_{i}] is synthesized on this branch. *)
Theorem derive_filename_gs_trailing_slash (i : nat) :
  PyStr.startswith "gs://bucket/" "gs://" = true
  ∧ derive_filename i "gs://bucket/" = Ok "".
Proof. split; reflexivity. Qed.


(** ** Folder preparation is idempotent *)

Lemma fs_lookup_insert_dir (f : gmap Path node) p q :
  fs_lookup f q = Some Dir → fs_lookup (<[p := Dir]> f) q = Some Dir.
Proof.
  unfold fs_lookup. destruct (parts q); [done|].
  rewrite lookup_insert. by case_decide.
Qed.

Lemma mkdir_exist_ok_dir p w w1 :
  mkdir_exist_ok p w = (Ok tt, w1) → fs_lookup (fs w1) p = Some Dir.
Proof.
  unfold mkdir_exist_ok. intros H.
  destruct (fs_lookup (fs w) p) as [[|c]|] eqn:Hp; simplify_eq; [done|].
  destruct (fs_lookup (fs w) (Pathlib.parent p)) as [[|c]|]; simplify_eq. simpl.
  unfold fs_lookup in *. destruct (parts p); [done|]. apply lookup_insert_eq.
Qed.

Lemma mkdir_exist_ok_noop p w :
  fs_lookup (fs w) p = Some Dir → mkdir_exist_ok p w = (Ok tt, w).
Proof. unfold mkdir_exist_ok. by intros ->. Qed.

Lemma mkdir_exist_ok_keeps_dir p q w r w1 :
  mkdir_exist_ok p w = (r, w1) →
  fs_lookup (fs w) q = Some Dir → fs_lookup (fs w1) q = Some Dir.
Proof.
  unfold mkdir_exist_ok. intros H Hq.
  destruct (fs_lookup (fs w) p) as [[|c]|]; simplify_eq; [done..|].
  destruct (fs_lookup (fs w) (Pathlib.parent p)) as [[|c]|]; simplify_eq; [|done..].
  by apply fs_lookup_insert_dir.
Qed.

Lemma mkdir_exist_ok_raise p w e w1 :
  mkdir_exist_ok p w = (Raise e, w1) → w1 = w.
Proof.
  unfold mkdir_exist_ok. intros H.
  destruct (fs_lookup (fs w) p) as [[|c]|]; simplify_eq; [done|].
  by destruct (fs_lookup (fs w) (Pathlib.parent p)) as [[|c]|]; simplify_eq.
Qed.

Lemma create_type_folders_keeps_dir base_dir media_types q :
  ∀ folders w r w1,
  create_type_folders base_dir media_types folders w = (r, w1) →
  fs_lookup (fs w) q = Some Dir → fs_lookup (fs w1) q = Some Dir.
Proof.
  induction media_types as [|media_type rest IH]; intros folders w r w1 H Hq; simpl in H.
  - unfold ret in H. by simplify_eq.
  - unfold bind in H. destruct (mkdir_exist_ok _ w) as [[[]|e] wa] eqn:Ha.
    + eapply IH; [exact H|]. by eapply mkdir_exist_ok_keeps_dir.
    + simplify_eq. by eapply mkdir_exist_ok_keeps_dir.
Qed.

Lemma create_type_folders_dirs base_dir media_types :
  ∀ folders w folders' w1,
  create_type_folders base_dir media_types folders w = (Ok folders', w1) →
  Forall (λ media_type, fs_lookup (fs w1) (base_dir // media_type) = Some Dir) media_types.
Proof.
  induction media_types as [|media_type rest IH]; intros folders w folders' w1 H;
    simpl in H; [done|].
  unfold bind in H. destruct (mkdir_exist_ok _ w) as [[[]|e] wa] eqn:Ha; [|done].
  constructor; [|by eapply IH].
  eapply create_type_folders_keeps_dir; [exact H|]. by eapply mkdir_exist_ok_dir.
Qed.

Lemma create_type_folders_noop base_dir media_types :
  ∀ folders w,
  Forall (λ media_type, fs_lookup (fs w) (base_dir // media_type) = Some Dir) media_types →
  create_type_folders base_dir media_types folders w
  = (Ok (foldl (λ acc media_type, <[media_type := base_dir // media_type]> acc)
           folders media_types), w).
Proof.
  induction media_types as [|media_type rest IH]; intros folders w Hall; simpl; [done|].
  apply Forall_cons in Hall as [Hdir Hall].
  unfold bind. rewrite (mkdir_exist_ok_noop _ _ Hdir). by apply IH.
Qed.

Lemma create_type_folders_result base_dir media_types :
  ∀ folders w folders' w1,
  create_type_folders base_dir media_types folders w = (Ok folders', w1) →
  folders' = foldl (λ acc media_type, <[media_type := base_dir // media_type]> acc)
               folders media_types.
Proof.
  induction media_types as [|media_type rest IH]; intros folders w folders' w1 H; simpl in H.
  - unfold ret in H. by simplify_eq.
  - unfold bind in H. destruct (mkdir_exist_ok _ w) as [[[]|e] wa] eqn:Ha; [|done].
    by apply IH in H.
Qed.

Lemma create_type_folders_twice base_dir media_types :
  ∀ folders w r w1,
  create_type_folders base_dir media_types folders w = (r, w1) →
  create_type_folders base_dir media_types folders w1 = (r, w1).
Proof.
  induction media_types as [|media_type rest IH]; intros folders w r w1 H; simpl in H |- *.
  - unfold ret in *. by simplify_eq.
  - unfold bind in H |- *. destruct (mkdir_exist_ok _ w) as [[[]|e] wa] eqn:Ha.
    + rewrite mkdir_exist_ok_noop.
      * by eapply IH.
      * eapply create_type_folders_keeps_dir; [exact H|]. by eapply mkdir_exist_ok_dir.
    + simplify_eq. pose proof (mkdir_exist_ok_raise _ _ _ _ Ha) as ->. by rewrite Ha.
Qed.

Lemma create_media_folders_twice base_dir w r w1 :
  create_media_folders base_dir w = (r, w1) →
  create_media_folders base_dir w1 = (r, w1).
Proof.
  unfold create_media_folders, bind. intros H.
  destruct (create_type_folders _ _ _ w) as [[folders|e] wa] eqn:Ha.
  - pose proof (create_type_folders_result _ _ _ _ _ _ Ha) as Hfolders.
    pose proof (create_type_folders_dirs _ _ _ _ _ _ Ha) as Hdirs.
    destruct (mkdir_exist_ok _ wa) as [[[]|e] wb] eqn:Hb; unfold ret in H; simplify_eq.
    + rewrite create_type_folders_noop.
      * cbv beta iota zeta. rewrite (mkdir_exist_ok_noop _ w1); [done|].
        exact (mkdir_exist_ok_dir _ _ _ Hb).
      * eapply Forall_impl; [exact Hdirs|]. intros media_type Hdir.
        by eapply mkdir_exist_ok_keeps_dir.
    + pose proof (mkdir_exist_ok_raise _ _ _ _ Hb) as ->.
      rewrite create_type_folders_noop by done. cbv beta iota zeta. by rewrite Hb.
  - simplify_eq. by rewrite (create_type_folders_twice _ _ _ _ _ _ Ha).
Qed.

Lemma mkdir_exist_ok_keeps_not_a_file p q w r w1 :
  mkdir_exist_ok p w = (r, w1) → not_a_file (fs w) q → not_a_file (fs w1) q.
Proof.
  unfold mkdir_exist_ok. intros H Hq.
  destruct (fs_lookup (fs w) p) as [[|c]|]; simplify_eq; [done..|].
  destruct (fs_lookup (fs w) (Pathlib.parent p)) as [[|c]|]; simplify_eq; [|done..].
  simpl. intros c. unfold fs_lookup. destruct (parts q) eqn:Hparts; [done|].
  rewrite lookup_insert. case_decide; [done|].
  specialize (Hq c). unfold fs_lookup in Hq. by rewrite Hparts in Hq.
Qed.

Lemma create_type_folders_keeps_not_a_file base_dir media_types q :
  ∀ folders w r w1,
  create_type_folders base_dir media_types folders w = (r, w1) →
  not_a_file (fs w) q → not_a_file (fs w1) q.
Proof.
  induction media_types as [|media_type rest IH]; intros folders w r w1 H Hq; simpl in H.
  - unfold ret in H. by simplify_eq.
  - unfold bind in H. destruct (mkdir_exist_ok _ w) as [[[]|e] wa] eqn:Ha.
    + eapply IH; [exact H|]. by eapply mkdir_exist_ok_keeps_not_a_file.
    + simplify_eq. by eapply mkdir_exist_ok_keeps_not_a_file.
Qed.

Lemma mkdir_exist_ok_succeeds p w :
  not_a_file (fs w) p → fs_lookup (fs w) (Pathlib.parent p) = Some Dir →
  ∃ w1, mkdir_exist_ok p w = (Ok tt, w1).
Proof.
  intros Hp Hparent. unfold mkdir_exist_ok.
  destruct (fs_lookup (fs w) p) as [[|c]|] eqn:Hlookup; [by eauto| |].
  - by destruct (Hp c).
  - rewrite Hparent. eauto.
Qed.

Lemma parent_joinpath_component p (name : string) :
  Pathlib.of_string name = {| anchor := ""; parts := [name] |} →
  Pathlib.parent (p // name) = p.
Proof.
  intros Hname. unfold Pathlib.joinpath, Pathlib.parent. rewrite Hname. simpl.
  rewrite removelast_last. by destruct p.
Qed.

Lemma create_type_folders_succeeds base_dir media_types :
  Forall (λ name, Pathlib.of_string name = {| anchor := ""; parts := [name] |}) media_types →
  ∀ folders w,
  fs_lookup (fs w) base_dir = Some Dir →
  Forall (λ name, not_a_file (fs w) (base_dir // name)) media_types →
  ∃ folders' w1, create_type_folders base_dir media_types folders w = (Ok folders', w1).
Proof.
  induction 1 as [|name rest Hname _ IH]; intros folders w Hbase Hfree; simpl.
  - unfold ret. eauto.
  - apply Forall_cons in Hfree as [Hfree1 Hfree].
    destruct (mkdir_exist_ok_succeeds (base_dir // name) w) as [wa Ha]; [done| |].
    { by rewrite parent_joinpath_component. }
    unfold bind. rewrite Ha. apply IH.
    + by eapply mkdir_exist_ok_keeps_dir.
    + eapply Forall_impl; [exact Hfree|]. intros q Hq.
      by eapply mkdir_exist_ok_keeps_not_a_file.
Qed.

(** The first call succeeds when the base directory is there and none of the
    four names is taken by a regular file. *)
Lemma create_media_folders_succeeds base_dir w :
  fs_lookup (fs w) base_dir = Some Dir →
  Forall (λ name, not_a_file (fs w) (base_dir // name))
    ["videos"; "images"; "audios"; "unknown"] →
  ∃ w1, create_media_folders base_dir w = (Ok (media_folders_of base_dir), w1).
Proof.
  intros Hbase Hfree. rewrite Forall_forall in Hfree.
  unfold create_media_folders, bind.
  destruct (create_type_folders_succeeds base_dir (MEDIA_TYPES.*1))
    with (folders := (∅ : gmap string Path)) (w := w)
    as (folders & wa & Ha); [by repeat constructor|done| |].
  { apply Forall_forall. intros name Hin. apply Hfree.
    simpl in Hin. rewrite !elem_of_cons in Hin. rewrite !elem_of_cons. tauto. }
  rewrite Ha. pose proof (create_type_folders_result _ _ _ _ _ _ Ha) as ->.
  destruct (mkdir_exist_ok_succeeds (base_dir // "unknown") wa) as [wb Hb].
  - eapply create_type_folders_keeps_not_a_file; [exact Ha|].
    apply Hfree. rewrite !elem_of_cons. tauto.
  - rewrite parent_joinpath_component by done.
    by eapply create_type_folders_keeps_dir.
  - rewrite Hb. unfold ret. by exists wb.
Qed.

(** C7: when [create_media_folders] has returned, calling it again on the
    same base directory returns the same dict without raising and leaves the
    world as it is.  The dict maps each of the four folder names to that
    folder under the base directory, and each is a directory. *)
Theorem create_media_folders_idempotent
    (base_dir : Path) (w : World) (folders : gmap string Path) (w1 : World) :
  create_media_folders base_dir w = (Ok folders, w1) →
  create_media_folders base_dir w1 = (Ok folders, w1)
  ∧ folders = media_folders_of base_dir
  ∧ ∀ media_type, media_type ∈ ["videos"; "images"; "audios"; "unknown"] →
      folders !! media_type = Some (base_dir // media_type)
      ∧ fs_lookup (fs w1) (base_dir // media_type) = Some Dir.
Proof.
  intros H. split; [by apply (create_media_folders_twice _ w)|].
  unfold create_media_folders, bind in H.
  destruct (create_type_folders _ _ _ w) as [[folders0|e] wa] eqn:Ha; [|done].
  pose proof (create_type_folders_result _ _ _ _ _ _ Ha) as ->.
  pose proof (create_type_folders_dirs _ _ _ _ _ _ Ha) as Hdirs.
  destruct (mkdir_exist_ok _ wa) as [[[]|e] wb] eqn:Hb; unfold ret in H; simplify_eq.
  split; [done|].
  intros media_type Hin. rewrite !elem_of_cons, elem_of_nil in Hin.
  assert (Forall (λ media_type, fs_lookup (fs w1) (base_dir // media_type) = Some Dir)
            ["videos"; "images"; "audios"; "unknown"]) as Hall.
  { repeat constructor; try exact (mkdir_exist_ok_dir _ _ _ Hb).
    all: eapply mkdir_exist_ok_keeps_dir; [exact Hb|].
    all: eapply (proj1 (Forall_forall _ _) Hdirs); simpl.
    all: rewrite !elem_of_cons; auto. }
  rewrite Forall_forall in Hall.
  destruct Hin as [->|[->|[->|[->|[]]]]]; (split; [by simplify_map_eq|]).
  all: apply Hall; rewrite !elem_of_cons; auto.
Qed.

Lemma create_media_folders_idempotent_witness :
  ∃ folders w1,
    create_media_folders (Pathlib.of_string "downloaded_media") demo_world = (Ok folders, w1)
    ∧ create_media_folders (Pathlib.of_string "downloaded_media") w1 = (Ok folders, w1)
    ∧ folders !! "videos" = Some (Pathlib.of_string "downloaded_media/videos").
Proof.
  assert (is_ok (create_media_folders (Pathlib.of_string "downloaded_media") demo_world).1
          = true) as Hok by (vm_compute; reflexivity).
  destruct (create_media_folders (Pathlib.of_string "downloaded_media") demo_world)
    as [[folders|e] w1] eqn:Hfirst; [|discriminate Hok].
  exists folders, w1.
  pose proof (create_media_folders_idempotent _ _ _ _ Hfirst) as (Hagain & _ & Hfolders).
  split; [reflexivity|]. split; [exact Hagain|].
  apply (Hfolders "videos"), list_elem_of_here.
Defined.

(** ** The download pipeline *)

Section Effects.
Variable env : Collaborators.

Lemma convert_gcs_uri_to_signed_url_effect gcs_uri w r w' :
  convert_gcs_uri_to_signed_url env gcs_uri w = (r, w') →
  fs w' = fs w
  ∧ log_downloads (log w') = log_downloads (log w)
  ∧ log_deletes (log w') = log_deletes (log w)
  ∧ log_convert_failures (log w') = log_convert_failures (log w).
Proof.
  unfold convert_gcs_uri_to_signed_url, storage_signed_url.
  unfold log_downloads, log_deletes, log_convert_failures.
  intros H. step; rewrite ?omap_app, ?app_nil_r; eauto 10.
Qed.

Lemma delete_gcs_file_effect gcs_uri w r w' :
  delete_gcs_file env gcs_uri w = (r, w') →
  fs w' = fs w
  ∧ log_downloads (log w') = log_downloads (log w)
  ∧ log_deletes (log w')
    = log_deletes (log w) ++ option_list (issued_delete env gcs_uri)
  ∧ log_convert_failures (log w') = log_convert_failures (log w).
Proof.
  unfold delete_gcs_file, storage_delete, issued_delete.
  unfold log_downloads, log_deletes, log_convert_failures.
  destruct (GCS_AVAILABLE env), (PyStr.startswith gcs_uri "gs://"); simpl.
  all: intros H; step; rewrite ?omap_app, ?app_nil_r; simpl; eauto 10.
Qed.

Lemma convert_gcs_uri_to_signed_url_some gcs_uri w signed_url w' :
  convert_gcs_uri_to_signed_url env gcs_uri w = (Ok (Some signed_url), w') →
  PyStr.startswith gcs_uri "gs://" = true →
  GCS_AVAILABLE env = true
  ∧ ∃ bucket_name blob_path,
      gcs_path_parts gcs_uri = [bucket_name; blob_path]
      ∧ generate_signed_url env (log w) bucket_name blob_path = Some signed_url.
Proof.
  unfold convert_gcs_uri_to_signed_url, storage_signed_url. intros H Hgs.
  rewrite Hgs in H. destruct (GCS_AVAILABLE env); simpl in H; step; eauto.
Qed.

Lemma prepare_item_spec total organize_by_type media_folders download_dir i uri w r w' :
  prepare_item env total organize_by_type media_folders download_dir i uri w = (r, w') →
  fs w' = fs w
  ∧ log_downloads (log w') = log_downloads (log w)
  ∧ log_deletes (log w') = log_deletes (log w)
  ∧ match r with
    | Raise _ => log_convert_failures (log w') = log_convert_failures (log w)
    | Ok None =>
        PyStr.startswith uri "gs://" = true
        ∧ log_convert_failures (log w') = log_convert_failures (log w) ++ [uri]
    | Ok (Some (t, m)) =>
        prepared env total organize_by_type media_folders download_dir i uri t m
        ∧ log_convert_failures (log w') = log_convert_failures (log w)
    end.
Proof.
  unfold prepare_item, lift_result, bind. intros H.
  destruct (derive_filename i uri) as [filename|e] eqn:Hname; [|by simplify_eq].
  destruct (target_filepath _ _ _ filename) as [filepath|e] eqn:Hpath; [|by simplify_eq].
  destruct (PyStr.startswith uri "gs://") eqn:Hgs.
  - unfold console_print at 1 in H.
    destruct (console_error env (log w) MsgConverting) as [e|]; [by simplify_eq|].
    unfold emit in H. simpl in H.
    destruct (convert_gcs_uri_to_signed_url env uri _) as [rc wc] eqn:Hconv.
    pose proof (convert_gcs_uri_to_signed_url_effect _ _ _ _ Hconv) as (Hfs & Hd & Hx & Hf).
    simpl in Hfs, Hd, Hx, Hf.
    unfold log_downloads, log_deletes, log_convert_failures in *.
    rewrite omap_app in Hd. rewrite omap_app in Hx. rewrite omap_app in Hf.
    simpl in Hd, Hx, Hf. rewrite app_nil_r in Hd, Hx, Hf.
    destruct rc as [[signed_url|]|e]; simpl in H; [| |by simplify_eq].
    + destruct (PyStr.truthy signed_url) eqn:Htruthy.
      * unfold ret in H; simplify_eq/=.
        apply convert_gcs_uri_to_signed_url_some in Hconv as (Hav & b & p & Hparts & Hgen);
          [|done].
        repeat split; try done.
        exists filename. rewrite Hgs. simpl. repeat split; eauto 10.
      * unfold console_print in H.
        destruct (console_error env (log wc) (MsgConvertFailed uri)) as [e|];
          unfold emit, ret in H; simplify_eq/=; [done|].
        rewrite !omap_app, Hd, Hx, Hf. simpl. by rewrite !app_nil_r.
    + unfold console_print in H.
      destruct (console_error env (log wc) (MsgConvertFailed uri)) as [e|];
        unfold emit, ret in H; simplify_eq/=; [done|].
      rewrite !omap_app, Hd, Hx, Hf. simpl. by rewrite !app_nil_r.
  - unfold ret in H. simplify_eq/=. repeat split; try done.
    exists filename. rewrite Hgs. simpl. repeat split; eauto.
Qed.

Lemma prepare_loop_spec total organize_by_type media_folders download_dir media_uris :
  ∀ i download_tasks file_mapping w r w',
  prepare_loop env total organize_by_type media_folders download_dir i media_uris
    download_tasks file_mapping w = (r, w') →
  fs w' = fs w
  ∧ log_downloads (log w') = log_downloads (log w)
  ∧ log_deletes (log w') = log_deletes (log w)
  ∧ match r with
    | Raise _ => True
    | Ok (download_tasks', file_mapping') =>
        ∃ items failures,
          loop_trace env total organize_by_type media_folders download_dir
            i media_uris items failures
          ∧ download_tasks' = download_tasks ++ items.*1
          ∧ file_mapping' = file_mapping ++ items.*2
          ∧ log_convert_failures (log w') = log_convert_failures (log w) ++ failures
    end.
Proof.
  induction media_uris as [|uri rest IH]; intros i tasks fm w r w' H; simpl in H.
  - unfold ret in H. simplify_eq. repeat split; try done.
    exists [], []. rewrite !app_nil_r. repeat split; try done. constructor.
  - unfold bind in H.
    destruct (prepare_item env _ _ _ _ i uri w) as [ri wi] eqn:Hitem.
    apply prepare_item_spec in Hitem as (Hfs & Hd & Hx & Hitem).
    destruct ri as [[[t m]|]|e].
    + destruct Hitem as [Hprep Hf].
      apply IH in H as (Hfs' & Hd' & Hx' & H).
      repeat split; try congruence.
      destruct r as [[tasks' fm']|]; [|done].
      destruct H as (items & failures & Htrace & -> & -> & Hf').
      exists ((t, m) :: items), failures. simpl.
      rewrite <- !app_assoc. simpl. repeat split; try congruence.
      by constructor.
    + destruct Hitem as [Hgs Hf].
      apply IH in H as (Hfs' & Hd' & Hx' & H).
      repeat split; try congruence.
      destruct r as [[tasks' fm']|]; [|done].
      destruct H as (items & failures & Htrace & -> & -> & Hf').
      exists items, (uri :: failures). repeat split; try done.
      * by constructor.
      * rewrite Hf', Hf, <- app_assoc. done.
    + simplify_eq. repeat split; done.
Qed.

(** *** Facts on the course of the loop *)

Lemma loop_trace_length total organize_by_type media_folders download_dir
    i media_uris items failures :
  loop_trace env total organize_by_type media_folders download_dir
    i media_uris items failures →
  length items + length failures = length media_uris.
Proof. induction 1; simpl; lia. Qed.

Lemma prepared_uri total organize_by_type media_folders download_dir i uri t m :
  prepared env total organize_by_type media_folders download_dir i uri t m → m.1 = uri.
Proof. by intros (? & ? & ? & ? & ?). Qed.

Lemma loop_trace_sublist total organize_by_type media_folders download_dir
    i media_uris items failures :
  loop_trace env total organize_by_type media_folders download_dir
    i media_uris items failures →
  items.*2.*1 `sublist_of` media_uris.
Proof.
  induction 1 as [|? ? ? ? ? ? ? IH|? ? ? ? ? ? ? Hprep ? IH]; simpl.
  - constructor.
  - by constructor.
  - apply prepared_uri in Hprep as ->. by constructor.
Qed.

Lemma loop_trace_all total organize_by_type media_folders download_dir
    i media_uris items :
  loop_trace env total organize_by_type media_folders download_dir
    i media_uris items [] →
  items.*2.*1 = media_uris.
Proof.
  remember [] as failures eqn:Hnil. 
  induction 1 as [|? ? ? ? ? ? ? IH|? ? ? ? ? ? ? Hprep ? IH]; simpl; [done|done|].
  apply prepared_uri in Hprep as ->. f_equal. by apply IH.
Qed.

Lemma loop_trace_lookup total organize_by_type media_folders download_dir
    i media_uris items failures t m :
  loop_trace env total organize_by_type media_folders download_dir
    i media_uris items failures →
  (t, m) ∈ items →
  ∃ k, media_uris !! k = Some m.1
       ∧ prepared env total organize_by_type media_folders download_dir (i + k) m.1 t m.
Proof.
  induction 1 as [|? ? ? ? ? ? ? IH|? ? ? t0 m0 ? ? Hprep ? IH]; intros Hin.
  - by apply elem_of_nil in Hin.
  - destruct (IH Hin) as (k & Hk & Hp). exists (S k). split; [done|].
    by replace (i + S k) with (S i + k) by lia.
  - apply elem_of_cons in Hin as [[= -> ->]|Hin].
    + exists 0. pose proof (prepared_uri _ _ _ _ _ _ _ _ Hprep) as ->.
      split; [done|]. by rewrite Nat.add_0_r.
    + destruct (IH Hin) as (k & Hk & Hp). exists (S k). split; [done|].
      by replace (i + S k) with (S i + k) by lia.
Qed.

(** *** The fetch phase *)

Lemma is_file_insert_file (f : gmap Path node) p c q :
  is_file f q → is_file (<[p := File c]> f) q.
Proof.
  intros [c' Hq]. unfold is_file. rewrite lookup_insert.
  case_decide; eauto.
Qed.

Lemma is_file_insert_dir (f : gmap Path node) p q :
  f !! p = None → is_file f q → is_file (<[p := Dir]> f) q.
Proof.
  intros Hp [c' Hq]. unfold is_file. rewrite lookup_insert.
  case_decide; simplify_eq; eauto.
Qed.

Lemma open_wb_effect p w r w' :
  open_wb p w = (r, w') →
  log w' = log w
  ∧ (∀ q, is_file (fs w) q → is_file (fs w') q)
  ∧ (r = Ok tt → is_file (fs w') p).
Proof.
  unfold open_wb. intros H. step; repeat split; try done.
  all: try (intros q Hq; by apply is_file_insert_file).
  all: intros _; eexists; apply lookup_insert_eq.
Qed.

Lemma file_write_effect p chunk w r w' :
  file_write p chunk w = (r, w') →
  r = Ok tt ∧ log w' = log w ∧ (∀ q, is_file (fs w) q → is_file (fs w') q).
Proof.
  unfold file_write. intros H. step; repeat split; try done.
  intros q Hq; by apply is_file_insert_file.
Qed.

Lemma write_chunks_effect p chunks :
  ∀ w r w', write_chunks p chunks w = (r, w') →
  r = Ok tt ∧ log w' = log w ∧ (∀ q, is_file (fs w) q → is_file (fs w') q).
Proof.
  induction chunks as [|chunk rest IH]; intros w r w' H; simpl in H.
  - unfold ret in H. by simplify_eq.
  - unfold bind in H. destruct (file_write p chunk w) as [r1 w1] eqn:H1.
    apply file_write_effect in H1 as (-> & Hlog & Hfiles).
    apply IH in H as (-> & Hlog' & Hfiles').
    repeat split; [congruence|]. eauto.
Qed.

Lemma string_app_empty_r (s : string) : s +:+ "" = s.
Proof.
  induction s as [|c s IH]; [done|].
  change (String c (s +:+ "") = String c s). by rewrite IH.
Qed.

Lemma string_app_assoc (s1 s2 s3 : string) : (s1 +:+ s2) +:+ s3 = s1 +:+ (s2 +:+ s3).
Proof.
  induction s1 as [|c s1 IH]; [done|].
  change (String c ((s1 +:+ s2) +:+ s3) = String c (s1 +:+ (s2 +:+ s3))). by rewrite IH.
Qed.

Lemma concat_empty_cons (chunk : string) (rest : list string) :
  String.concat "" (chunk :: rest) = chunk +:+ String.concat "" rest.
Proof. destruct rest; simpl; [|done]. by rewrite string_app_empty_r. Qed.

Lemma write_chunks_content filepath chunks :
  ∀ w content,
  fs w !! filepath = Some (File content) →
  ∃ w', write_chunks filepath chunks w = (Ok tt, w')
        ∧ log w' = log w
        ∧ fs w' = <[filepath := File (content +:+ String.concat "" chunks)]> (fs w).
Proof.
  induction chunks as [|chunk rest IH]; intros w content Hfile.
  - exists w. split; [done|]. split; [done|]. symmetry. apply insert_id.
    simpl. by rewrite string_app_empty_r.
  - cbn [write_chunks]. unfold bind, file_write. rewrite Hfile.
    destruct (IH {| fs := <[filepath := File (content +:+ chunk)]> (fs w); log := log w |}
                (content +:+ chunk)) as (w' & Hw & Hlog & Hfs).
    { apply lookup_insert_eq. }
    exists w'. rewrite Hw. split; [done|]. split; [done|]. rewrite Hfs.
    cbn [fs]. rewrite insert_insert_eq. by rewrite concat_empty_cons, string_app_assoc.
Qed.

(** What [open_wb] does when it returns. *)
Lemma open_wb_ok p w w1 :
  open_wb p w = (Ok tt, w1) →
  fs w1 = <[p := File ""]> (fs w) ∧ log w1 = log w
  ∧ Pathlib.name p ≠ ".." ∧ fs_lookup (fs w) p ≠ Some Dir.
Proof.
  unfold open_wb. intros H.
  destruct (String.eqb (Pathlib.name p) "..") eqn:Hdots; [done|].
  apply String.eqb_neq in Hdots.
  destruct (fs_lookup (fs w) p) as [[|content]|] eqn:Hlookup; simplify_eq; [done|].
  by destruct (fs_lookup (fs w) (Pathlib.parent p)) as [[|content]|]; simplify_eq.
Qed.

Lemma open_wb_raise p w e w1 : open_wb p w = (Raise e, w1) → w1 = w.
Proof.
  unfold open_wb. intros H.
  destruct (String.eqb (Pathlib.name p) ".."); [by simplify_eq|].
  destruct (fs_lookup (fs w) p) as [[|content]|]; simplify_eq; [done|].
  by destruct (fs_lookup (fs w) (Pathlib.parent p)) as [[|content]|]; simplify_eq.
Qed.

(** The line that reports a failed fetch, and [False] after it. *)
Lemma report_failure_effect name w r w' :
  bind (console_print env (MsgDownloadFailed name)) (λ _, ret false) w = (r, w') →
  fs w' = fs w
  ∧ (∃ evs, log w' = log w ++ evs ∧ Forall console_event evs)
  ∧ match r with
    | Ok success =>
        success = false ∧ log w' = log w ++ [EvConsole (MsgDownloadFailed name)]
    | Raise e => console_error env (log w) (MsgDownloadFailed name) = Some e ∧ w' = w
    end.
Proof.
  unfold bind, console_print, emit, ret. intros H.
  destruct (console_error env (log w) (MsgDownloadFailed name)) as [e|];
    simplify_eq/=.
  - split; [done|]. split; [|done]. exists []. by rewrite app_nil_r.
  - split; [done|]. split; [|done]. eexists. split; [done|]. by repeat constructor.
Qed.

(** The world after the progress display has stopped, or has failed to. *)
Lemma progress_stop_effect description w :
  ∃ w1, (console_print env (MsgProgressStop description) w).2 = w1
        ∧ fs w1 = fs w
        ∧ (∃ evs, log w1 = log w ++ evs ∧ Forall console_event evs).
Proof.
  unfold console_print, emit.
  destruct (console_error env (log w) (MsgProgressStop description)) as [e|]; simpl.
  - exists w. split; [done|]. split; [done|]. exists []. by rewrite app_nil_r.
  - eexists. split; [done|]. split; [done|]. eexists. split; [done|].
    by repeat constructor.
Qed.

(** The courses of [download_media_file]: the request fails; the progress
    display does not start; the file cannot be opened; or the chunks are
    written, and the call returns [True] when the stream was complete and the
    display could be stopped. *)
Lemma download_media_file_cases url filepath description w :
  let w0 := {| fs := fs w; log := log w ++ [EvDownload url filepath description] |} in
  let failed :=
    bind (console_print env (MsgDownloadFailed (Pathlib.name filepath)))
      (λ _, ret false) in
  let stopped wx := (console_print env (MsgProgressStop description) wx).2 in
  match session_get env (log w0) url with
  | ResponseError =>
      download_media_file env url filepath description w = failed w0
  | ResponseBody chunks complete =>
      match console_error env (log w0) (MsgProgressStart description) with
      | Some _ => download_media_file env url filepath description w = failed w0
      | None =>
          let w1 := {| fs := fs w;
                       log := log w0 ++ [EvConsole (MsgProgressStart description)] |} in
          match open_wb filepath w1 with
          | (Raise _, _) =>
              download_media_file env url filepath description w = failed (stopped w1)
          | (Ok _, _) =>
              let w2 := {| fs := <[filepath := File (String.concat "" chunks)]> (fs w);
                           log := log w1 |} in
              download_media_file env url filepath description w
              = match console_error env (log w2) (MsgProgressStop description) with
                | None => if complete then (Ok true, stopped w2) else failed (stopped w2)
                | Some _ => failed (stopped w2)
                end
          end
      end
  end.
Proof.
  cbv zeta. cbn [log fs].
  destruct (session_get env _ url) as [|chunks complete] eqn:Hget.
  { unfold download_media_file, http_get, with_progress, try_except, bind, console_print,
      emit, raise, ret.
    cbn [log fs]. by rewrite Hget. }
  destruct (console_error env _ (MsgProgressStart description)) as [e|] eqn:Hstart.
  { unfold download_media_file, http_get, with_progress, try_except, bind, console_print,
      emit, raise, ret.
    cbn [log fs]. rewrite Hget. cbn [log fs]. by rewrite Hstart. }
  destruct (open_wb filepath _) as [[[]|e] wo] eqn:Hopen.
  - pose proof Hopen as Hopen'. apply open_wb_ok in Hopen' as (Hfs & Hlog & _).
    destruct (write_chunks_content filepath chunks wo "") as (w2 & Hwrite & Hlog2 & Hfs2).
    { rewrite Hfs. apply lookup_insert_eq. }
    rewrite Hfs, insert_insert_eq in Hfs2. simpl in Hfs2, Hlog.
    assert (w2 = {| fs := <[filepath := File (String.concat "" chunks)]> (fs w);
                    log := (log w ++ [EvDownload url filepath description])
                           ++ [EvConsole (MsgProgressStart description)] |}) as ->.
    { destruct w2. simpl in *. by rewrite Hfs2, Hlog2, Hlog. }
    unfold download_media_file, http_get, with_progress, try_except, bind, console_print,
      emit, raise, ret.
    cbn [log fs]. rewrite Hget. cbn [log fs]. rewrite Hstart. cbn [log fs].
    rewrite Hopen, Hwrite. cbn [log fs].
    destruct complete; cbn [log fs];
      by destruct (console_error env _ (MsgProgressStop description)) as [e|].
  - pose proof Hopen as Hopen'. apply open_wb_raise in Hopen' as ->.
    unfold download_media_file, http_get, with_progress, try_except, bind, console_print,
      emit, raise, ret.
    cbn [log fs]. rewrite Hget. cbn [log fs]. rewrite Hstart. cbn [log fs].
    rewrite Hopen. cbn [log fs].
    by destruct (console_error env _ (MsgProgressStop description)) as [e'|].
Qed.

Lemma download_media_file_effect url filepath description w r w' :
  download_media_file env url filepath description w = (r, w') →
  log_downloads (log w')
  = log_downloads (log w)
    ++ [ {| task_url := url; task_filepath := filepath;
            task_description := description |} ]
  ∧ log_deletes (log w') = log_deletes (log w)
  ∧ log_convert_failures (log w') = log_convert_failures (log w)
  ∧ (∀ q, is_file (fs w) q → is_file (fs w') q)
  ∧ (r = Ok true → is_file (fs w') filepath).
Proof.
  intros H.
  assert (∀ name wx ry wy,
            bind (console_print env (MsgDownloadFailed name)) (λ _, ret false) wx = (ry, wy) →
            fs wy = fs wx ∧ ry ≠ Ok true
            ∧ log_downloads (log wy) = log_downloads (log wx)
            ∧ log_deletes (log wy) = log_deletes (log wx)
            ∧ log_convert_failures (log wy) = log_convert_failures (log wx)) as Hfailed.
  { intros name wx ry wy Hf. unfold bind, console_print, emit, ret in Hf.
    unfold log_downloads, log_deletes, log_convert_failures.
    destruct (console_error env (log wx) (MsgDownloadFailed name)); simplify_eq/=;
      rewrite ?omap_app, ?app_nil_r; done. }
  assert (∀ wx, fs (console_print env (MsgProgressStop description) wx).2 = fs wx
            ∧ log_downloads (log (console_print env (MsgProgressStop description) wx).2)
              = log_downloads (log wx)
            ∧ log_deletes (log (console_print env (MsgProgressStop description) wx).2)
              = log_deletes (log wx)
            ∧ log_convert_failures
                (log (console_print env (MsgProgressStop description) wx).2)
              = log_convert_failures (log wx)) as Hstopped.
  { intros wx. unfold console_print, emit.
    unfold log_downloads, log_deletes, log_convert_failures.
    destruct (console_error env (log wx) (MsgProgressStop description)); simpl;
      rewrite ?omap_app, ?app_nil_r; done. }
  assert (∀ l : list event,
            log_downloads (l ++ [EvDownload url filepath description])
            = log_downloads l
              ++ [ {| task_url := url; task_filepath := filepath;
                      task_description := description |} ]
            ∧ log_deletes (l ++ [EvDownload url filepath description]) = log_deletes l
            ∧ log_convert_failures (l ++ [EvDownload url filepath description])
              = log_convert_failures l) as Hfetch.
  { intros l. unfold log_downloads, log_deletes, log_convert_failures.
    rewrite !omap_app. simpl. by rewrite !app_nil_r. }
  assert (∀ l : list event,
            log_downloads (l ++ [EvConsole (MsgProgressStart description)])
            = log_downloads l
            ∧ log_deletes (l ++ [EvConsole (MsgProgressStart description)]) = log_deletes l
            ∧ log_convert_failures (l ++ [EvConsole (MsgProgressStart description)])
              = log_convert_failures l) as Hstart.
  { intros l. unfold log_downloads, log_deletes, log_convert_failures.
    rewrite !omap_app. simpl. by rewrite !app_nil_r. }
  destruct (Hfetch (log w)) as (Hd0 & Hx0 & Hf0).
  destruct (Hstart (log w ++ [EvDownload url filepath description])) as (Hd1 & Hx1 & Hf1).
  pose proof (download_media_file_cases url filepath description w) as Hcases.
  cbv zeta in Hcases. cbn [log] in Hcases.
  destruct (session_get env _ url) as [|chunks complete].
  { rewrite Hcases in H. apply Hfailed in H as (Hfs & Hr & Hd & Hx & Hf).
    cbn [log fs] in *. rewrite Hd, Hx, Hf, Hfs, Hd0, Hx0, Hf0. done. }
  destruct (console_error env _ (MsgProgressStart description)) as [e|].
  { rewrite Hcases in H. apply Hfailed in H as (Hfs & Hr & Hd & Hx & Hf).
    cbn [log fs] in *. rewrite Hd, Hx, Hf, Hfs, Hd0, Hx0, Hf0. done. }
  destruct (open_wb filepath _) as [[[]|e] wo] eqn:Hopen.
  - match type of Hcases with
    | context [console_print env (MsgProgressStop description) ?wx] =>
        destruct (Hstopped wx) as (Hfs2 & Hd2 & Hx2 & Hf2)
    end.
    cbn [log fs] in Hfs2, Hd2, Hx2, Hf2.
    assert (∀ q, is_file (fs w) q
                 → is_file (<[filepath := File (String.concat "" chunks)]> (fs w)) q)
      as Hkept.
    { intros q Hq. by apply is_file_insert_file. }
    assert (is_file (<[filepath := File (String.concat "" chunks)]> (fs w)) filepath)
      as Hfile.
    { eexists. apply lookup_insert_eq. }
    destruct (console_error env _ (MsgProgressStop description)) as [e|].
    + rewrite Hcases in H. apply Hfailed in H as (Hfs & Hr & Hd & Hx & Hf).
      rewrite Hd, Hx, Hf, Hfs, Hd2, Hx2, Hf2, Hfs2, Hd1, Hx1, Hf1, Hd0, Hx0, Hf0. done.
    + destruct complete.
      * rewrite Hcases in H. simplify_eq.
        rewrite Hd2, Hx2, Hf2, Hfs2, Hd1, Hx1, Hf1, Hd0, Hx0, Hf0. done.
      * rewrite Hcases in H. apply Hfailed in H as (Hfs & Hr & Hd & Hx & Hf).
        rewrite Hd, Hx, Hf, Hfs, Hd2, Hx2, Hf2, Hfs2, Hd1, Hx1, Hf1, Hd0, Hx0, Hf0. done.
  - match type of Hcases with
    | context [console_print env (MsgProgressStop description) ?wx] =>
        destruct (Hstopped wx) as (Hfs2 & Hd2 & Hx2 & Hf2)
    end.
    cbn [log fs] in Hfs2, Hd2, Hx2, Hf2.
    rewrite Hcases in H. apply Hfailed in H as (Hfs & Hr & Hd & Hx & Hf).
    rewrite Hd, Hx, Hf, Hfs, Hd2, Hx2, Hf2, Hfs2, Hd1, Hx1, Hf1, Hd0, Hx0, Hf0. done.
Qed.

Lemma gather_spec download_tasks :
  ∀ w r w', gather env download_tasks w = (r, w') →
  log_deletes (log w') = log_deletes (log w)
  ∧ log_convert_failures (log w') = log_convert_failures (log w)
  ∧ (∀ q, is_file (fs w) q → is_file (fs w') q)
  ∧ ∀ results, r = Ok results →
      length results = length download_tasks
      ∧ log_downloads (log w') = log_downloads (log w) ++ download_tasks
      ∧ (∀ j t, download_tasks !! j = Some t → results !! j = Some true →
           is_file (fs w') (task_filepath t)).
Proof.
  induction download_tasks as [|task rest IH]; intros w r w' H; simpl in H.
  - unfold ret in H. simplify_eq. split; [done|]. split; [done|]. split; [done|].
    intros results [= <-]. rewrite app_nil_r. split; [done|]. split; [done|].
    by intros j t Hj.
  - unfold bind in H.
    destruct (download_media_file env _ _ _ w) as [r1 w1] eqn:H1.
    apply download_media_file_effect in H1 as (Hd & Hx & Hf & Hfiles & Hfile).
    destruct r1 as [success|e]; [|by simplify_eq].
    destruct (gather env rest w1) as [r2 w2] eqn:H2.
    apply IH in H2 as (Hx' & Hf' & Hfiles' & Hok).
    destruct r2 as [results|e]; unfold ret in H; simplify_eq.
    2:{ split; [congruence|]. split; [congruence|]. split; [eauto|]. done. }
    destruct (Hok results eq_refl) as (Hlen & Hd' & Hfile').
    split; [congruence|]. split; [congruence|]. split; [eauto|].
    intros ? [= <-]. split; [simpl; congruence|]. split.
    + rewrite Hd', Hd, <- app_assoc. by destruct task.
    + intros [|j] t Hj Hr; simplify_eq/=; eauto.
Qed.

(** *** The cleanup phase *)

(** On a console that renders what it is given, the deletions return. *)
Lemma delete_gcs_file_returns gcs_uri w :
  console_works env →
  ∃ deleted w', delete_gcs_file env gcs_uri w = (Ok deleted, w').
Proof.
  intros Hworks.
  unfold delete_gcs_file, storage_delete, try_except, bind, ret.
  destruct (GCS_AVAILABLE env); simpl; [|rewrite console_print_works by done; eauto].
  destruct (PyStr.startswith gcs_uri "gs://"); simpl; [|eauto].
  destruct (gcs_path_parts gcs_uri) as [|bucket_name [|blob_path [|x rest]]];
    try (rewrite console_print_works by done; eauto).
  destruct (blob_delete env (log w) bucket_name blob_path);
    unfold emit, raise; simpl; rewrite console_print_works by done; eauto.
Qed.

Lemma cleanup_loop_returns successful_downloads :
  console_works env →
  ∀ cleanup_count w,
  ∃ n w', cleanup_loop env successful_downloads cleanup_count w = (Ok n, w').
Proof.
  intros Hworks.
  induction successful_downloads as [|[original_uri local_path] rest IH];
    intros n w; simpl.
  - unfold ret. eauto.
  - destruct (PyStr.startswith original_uri "gs://"); [|apply IH].
    unfold bind.
    destruct (delete_gcs_file_returns original_uri w Hworks) as (deleted & w1 & ->).
    apply IH.
Qed.

Lemma cleanup_loop_spec successful_downloads :
  ∀ cleanup_count w r w',
  cleanup_loop env successful_downloads cleanup_count w = (r, w') →
  fs w' = fs w
  ∧ log_downloads (log w') = log_downloads (log w)
  ∧ log_convert_failures (log w') = log_convert_failures (log w)
  ∧ ∃ deleted_for,
      deleted_for `prefix_of` successful_downloads
      ∧ log_deletes (log w')
        = log_deletes (log w) ++ omap (issued_delete env) deleted_for.*1
      ∧ (is_ok r = true → deleted_for = successful_downloads).
Proof.
  induction successful_downloads as [|[original_uri local_path] rest IH];
    intros n w r w' H; simpl in H.
  - unfold ret in H. simplify_eq. split; [done|]. split; [done|]. split; [done|].
    exists []. rewrite app_nil_r. done.
  - destruct (PyStr.startswith original_uri "gs://") eqn:Hgs.
    + unfold bind in H.
      destruct (delete_gcs_file env original_uri w) as [r1 w1] eqn:H1.
      apply delete_gcs_file_effect in H1 as (Hfs & Hd & Hx & Hf).
      assert (omap (issued_delete env) [original_uri]
              = option_list (issued_delete env original_uri)) as Hone.
      { simpl. by destruct (issued_delete env original_uri). }
      destruct r1 as [deleted|e].
      * apply IH in H as (Hfs' & Hd' & Hf' & deleted_for & Hprefix & Hx' & Hall).
        split; [congruence|]. split; [congruence|]. split; [congruence|].
        exists ((original_uri, local_path) :: deleted_for).
        split; [by apply prefix_cons|]. split.
        -- rewrite Hx', Hx, <- app_assoc. f_equal.
           change (((original_uri, local_path) :: deleted_for).*1)
             with ([original_uri] ++ deleted_for.*1).
           by rewrite omap_app, Hone.
        -- intros Hok. by rewrite (Hall Hok).
      * simplify_eq. split; [done|]. split; [done|]. split; [done|].
        exists [(original_uri, local_path)].
        split; [apply prefix_cons, prefix_nil|]. split; [|done].
        change ([(original_uri, local_path)].*1) with [original_uri].
        by rewrite Hx, Hone.
    + apply IH in H as (Hfs' & Hd' & Hf' & deleted_for & Hprefix & Hx' & Hall).
      split; [done|]. split; [done|]. split; [done|].
      exists ((original_uri, local_path) :: deleted_for).
      split; [by apply prefix_cons|]. split.
      * rewrite Hx'. simpl. unfold issued_delete at 2.
        by rewrite Hgs, andb_false_r.
      * intros Hok. by rewrite (Hall Hok).
Qed.

(** *** Folder preparation *)

Lemma mkdir_exist_ok_effect p w r w' :
  mkdir_exist_ok p w = (r, w') →
  log w' = log w ∧ (∀ q, is_file (fs w) q → is_file (fs w') q).
Proof.
  unfold mkdir_exist_ok, fs_lookup. intros H.
  destruct (parts p) eqn:Hparts; step; repeat split; try done.
  all: intros q Hq; by apply is_file_insert_dir.
Qed.

Lemma create_type_folders_spec base_dir media_types :
  ∀ folders w r w',
  create_type_folders base_dir media_types folders w = (r, w') →
  log w' = log w
  ∧ (∀ q, is_file (fs w) q → is_file (fs w') q)
  ∧ ∀ folders', r = Ok folders' →
      folders' = foldl (λ acc media_type, <[media_type := base_dir // media_type]> acc)
                   folders media_types.
Proof.
  induction media_types as [|media_type rest IH]; intros folders w r w' H; simpl in H.
  - unfold ret in H. simplify_eq. repeat split; try done. by intros ? [= <-].
  - unfold bind in H.
    destruct (mkdir_exist_ok _ w) as [r1 w1] eqn:H1.
    apply mkdir_exist_ok_effect in H1 as (Hlog & Hfiles).
    destruct r1 as [[]|e].
    + apply IH in H as (Hlog' & Hfiles' & Hr).
      repeat split; [congruence|eauto|]. intros folders' ->. by apply Hr.
    + simplify_eq. repeat split; done.
Qed.

Lemma create_media_folders_spec base_dir w r w' :
  create_media_folders base_dir w = (r, w') →
  log w' = log w
  ∧ (∀ q, is_file (fs w) q → is_file (fs w') q)
  ∧ ∀ folders, r = Ok folders → folders = media_folders_of base_dir.
Proof.
  unfold create_media_folders, bind. intros H.
  destruct (create_type_folders _ _ _ w) as [r1 w1] eqn:H1.
  apply create_type_folders_spec in H1 as (Hlog & Hfiles & Hr).
  destruct r1 as [folders1|e].
  - destruct (mkdir_exist_ok _ w1) as [r2 w2] eqn:H2.
    apply mkdir_exist_ok_effect in H2 as (Hlog' & Hfiles').
    destruct r2 as [[]|e]; unfold ret in H; simplify_eq.
    + repeat split; [congruence|eauto|]. intros folders [= <-].
      by rewrite (Hr folders1 eq_refl).
    + repeat split; [congruence|eauto|done].
  - simplify_eq. repeat split; done.
Qed.

(** *** The selection of the successful downloads *)

Lemma filter_successful_cons (m : string * Path) file_mapping (success : bool) results :
  filter_successful (m :: file_mapping) (success :: results)
  = if success then m :: filter_successful file_mapping results
    else filter_successful file_mapping results.
Proof. unfold filter_successful. simpl. by destruct success. Qed.

Lemma filter_successful_sublist file_mapping :
  ∀ results, filter_successful file_mapping results `sublist_of` file_mapping.
Proof.
  induction file_mapping as [|m rest IH]; intros [|success results];
    try (by apply sublist_nil_l).
  rewrite filter_successful_cons. destruct success; by constructor.
Qed.

Lemma filter_successful_lookup file_mapping :
  ∀ results m,
  m ∈ filter_successful file_mapping results ↔
  ∃ j, file_mapping !! j = Some m ∧ results !! j = Some true.
Proof.
  induction file_mapping as [|m0 rest IH]; intros [|success results] m.
  - split; [by intros ?%elem_of_nil|by intros (j & ? & ?)].
  - split; [by intros ?%elem_of_nil|by intros (j & ? & ?)].
  - split; [by intros ?%elem_of_nil|by intros (j & ? & ?)].
  - rewrite filter_successful_cons. destruct success.
    + rewrite elem_of_cons, IH. split.
      * intros [->|(j & ? & ?)]; [by exists 0|by exists (S j)].
      * intros ([|j] & ? & ?); simplify_eq/=; eauto.
    + rewrite IH. split.
      * intros (j & ? & ?). by exists (S j).
      * intros ([|j] & ? & ?); simplify_eq/=; eauto.
Qed.

Lemma filter_successful_all file_mapping results :
  length results = length file_mapping →
  Forall (λ success, success = true) results →
  filter_successful file_mapping results = file_mapping.
Proof.
  revert results. induction file_mapping as [|m rest IH];
    intros [|success results] Hlen Hall; simplify_eq/=; [done|].
  apply Forall_cons in Hall as [-> Hall].
  rewrite filter_successful_cons. f_equal. by apply IH.
Qed.

(** *** The whole call *)

Lemma successful_prepared total organize_by_type media_folders download_dir
    i media_uris items failures results m :
  loop_trace env total organize_by_type media_folders download_dir
    i media_uris items failures →
  m ∈ filter_successful items.*2 results →
  ∃ j k t, items !! j = Some (t, m) ∧ results !! j = Some true
           ∧ media_uris !! k = Some m.1
           ∧ prepared env total organize_by_type media_folders download_dir (i + k) m.1 t m.
Proof.
  intros Htrace Hin.
  apply filter_successful_lookup in Hin as (j & Hj & Hr).
  rewrite list_lookup_fmap in Hj.
  destruct (items !! j) as [[t m']|] eqn:Hitem; simplify_eq/=.
  destruct (loop_trace_lookup _ _ _ _ _ _ _ _ t m Htrace) as (k & Hk & Hp).
  { by eapply list_elem_of_lookup_2. }
  eauto 10.
Qed.

Lemma download_media_async_run_spec
    media_uris output_dir cleanup_gcs organize_by_type w r w' :
  download_media_async_run env media_uris output_dir cleanup_gcs organize_by_type w
  = (r, w') →
  let download_dir := download_dir_of output_dir in
  let media_folders :=
    if organize_by_type then media_folders_of download_dir else ∅ in
  (∀ q, is_file (fs w) q → is_file (fs w') q)
  ∧ match r with
    | Raise _ =>
        ∃ deleted_for : list (string * Path),
          deleted_for.*1 `sublist_of` media_uris
          ∧ Forall (λ d, is_file (fs w') d.2
                         ∧ ∃ k t,
                             media_uris !! k = Some d.1
                             ∧ prepared env (length media_uris) organize_by_type
                                 media_folders download_dir (1 + k) d.1 t d)
              deleted_for
          ∧ log_deletes (log w')
            = log_deletes (log w)
              ++ (if cleanup_gcs
                  then omap (issued_delete env) deleted_for.*1
                  else [])
          ∧ (console_works env → deleted_for = [])
    | Ok run =>
        ∃ items failures,
          loop_trace env (length media_uris) organize_by_type media_folders
            download_dir 1 media_uris items failures
          ∧ run_download_tasks run = items.*1
          ∧ run_file_mapping run = items.*2
          ∧ length (run_results run) = length items
          ∧ run_successful_downloads run
            = filter_successful (run_file_mapping run) (run_results run)
          ∧ log_downloads (log w') = log_downloads (log w) ++ run_download_tasks run
          ∧ log_convert_failures (log w') = log_convert_failures (log w) ++ failures
          ∧ log_deletes (log w')
            = log_deletes (log w)
              ++ (if cleanup_gcs
                  then omap (issued_delete env) (run_successful_downloads run).*1
                  else [])
          ∧ (∀ j t, run_download_tasks run !! j = Some t →
               run_results run !! j = Some true →
               is_file (fs w') (task_filepath t))
    end.
Proof.
  intros H download_dir media_folders. unfold download_media_async_run in H.
  change (download_dir_of output_dir) with download_dir in H.
  assert (∀ wx : World,
            log_deletes (log wx) = log_deletes (log w) →
            ∃ deleted_for : list (string * Path),
              deleted_for.*1 `sublist_of` media_uris
              ∧ Forall (λ d, is_file (fs wx) d.2
                             ∧ ∃ k t,
                                 media_uris !! k = Some d.1
                                 ∧ prepared env (length media_uris) organize_by_type
                                     media_folders download_dir (1 + k) d.1 t d)
                  deleted_for
              ∧ log_deletes (log wx)
                = log_deletes (log w)
                  ++ (if cleanup_gcs
                      then omap (issued_delete env) deleted_for.*1
                      else [])
              ∧ (console_works env → deleted_for = [])) as Hnone.
  { intros wx Hx. exists []. split; [apply sublist_nil_l|]. split; [constructor|].
    split; [|done]. rewrite Hx. simpl. by destruct cleanup_gcs; rewrite app_nil_r. }
  unfold bind at 1 in H.
  destruct (mkdir_exist_ok download_dir w) as [r0 w0] eqn:H0.
  apply mkdir_exist_ok_effect in H0 as (Hlog0 & Hfiles0).
  destruct r0 as [[]|e].
  2:{ simplify_eq. split; [done|]. apply Hnone. by rewrite Hlog0. }
  unfold bind at 1 in H.
  match type of H with
  | (match ?x with pair _ _ => _ end) = _ => destruct x as [r1 w1] eqn:H1
  end.
  assert (log_downloads (log w1) = log_downloads (log w)
          ∧ log_deletes (log w1) = log_deletes (log w)
          ∧ log_convert_failures (log w1) = log_convert_failures (log w)
          ∧ (∀ q, is_file (fs w) q → is_file (fs w1) q)
          ∧ ∀ folders, r1 = Ok folders → folders = media_folders)
    as (Hd1 & Hx1 & Hf1 & Hfiles1 & Hr1).
  { subst media_folders. destruct organize_by_type.
    - unfold bind in H1.
      destruct (create_media_folders download_dir w0) as [rc wc] eqn:Hc.
      apply create_media_folders_spec in Hc as (Hlogc & Hfilesc & Hrc).
      destruct rc as [folders|e]; unfold console_print, emit, ret in H1.
      + destruct (console_error env (log wc) _) as [e|]; simplify_eq/=.
        * rewrite Hlogc, Hlog0. split; [done|]. split; [done|]. split; [done|].
          split; [eauto|done].
        * unfold log_downloads, log_deletes, log_convert_failures.
          rewrite !omap_app, Hlogc, Hlog0. simpl. rewrite !app_nil_r.
          split; [done|]. split; [done|]. split; [done|]. split; [eauto|].
          intros ? [= <-]. by apply Hrc.
      + simplify_eq. rewrite Hlogc, Hlog0. split; [done|]. split; [done|].
        split; [done|]. split; [eauto|done].
    - unfold bind, console_print, emit, ret in H1.
      destruct (console_error env (log w0) _) as [e|]; simplify_eq/=.
      + rewrite Hlog0. split; [done|]. split; [done|]. split; [done|].
        split; [eauto|done].
      + unfold log_downloads, log_deletes, log_convert_failures.
        rewrite !omap_app, Hlog0. simpl. rewrite !app_nil_r.
        split; [done|]. split; [done|]. split; [done|]. split; [eauto|].
        by intros ? [= <-]. }
  destruct r1 as [folders|e]; [|simplify_eq; split; [done|]; by apply Hnone].
  rewrite (Hr1 folders eq_refl) in H. clear Hr1 H1.
  unfold bind at 1 in H.
  destruct (prepare_loop env _ _ _ _ 1 media_uris [] [] w1) as [r2 w2] eqn:H2.
  apply prepare_loop_spec in H2 as (Hfs2 & Hd2 & Hx2 & Hr2).
  assert (∀ q, is_file (fs w) q → is_file (fs w2) q) as Hfiles2.
  { intros q Hq. rewrite Hfs2. eauto. }
  destruct r2 as [[download_tasks file_mapping]|e].
  2:{ simplify_eq. split; [done|]. apply Hnone. congruence. }
  destruct Hr2 as (items & failures & Htrace & Htasks & Hmapping & Hf2).
  simpl in Htasks, Hmapping. subst download_tasks file_mapping.
  unfold bind at 1 in H.
  destruct (gather env items.*1 w2) as [r3 w3] eqn:H3.
  apply gather_spec in H3 as (Hx3 & Hf3 & Hfiles3 & Hok3).
  destruct r3 as [results|e].
  2:{ simplify_eq. split; [eauto|]. apply Hnone. congruence. }
  destruct (Hok3 results eq_refl) as (Hlen & Hd3 & Hfile3). clear Hok3.
  set (successful_downloads := filter_successful items.*2 results) in *.
  unfold bind at 1 in H.
  match type of H with
  | (match ?x with pair _ _ => _ end) = _ => destruct x as [r4 w4] eqn:H4
  end.
  assert (fs w4 = fs w3
          ∧ log_downloads (log w4) = log_downloads (log w3)
          ∧ log_convert_failures (log w4) = log_convert_failures (log w3)
          ∧ (∃ deleted_for,
               deleted_for `prefix_of` successful_downloads
               ∧ log_deletes (log w4)
                 = log_deletes (log w3)
                   ++ (if cleanup_gcs
                       then omap (issued_delete env) deleted_for.*1 else [])
               ∧ (is_ok r4 = true → deleted_for = successful_downloads))
          ∧ (console_works env → is_ok r4 = true))
    as (Hfs4 & Hd4 & Hf4 & (deleted_for & Hprefix & Hx4 & Hall) & Hreturns).
  { destruct cleanup_gcs; simpl in H4.
    - case_bool_decide as Hnil; simpl in H4.
      + unfold ret in H4. simplify_eq. split; [done|]. split; [done|]. split; [done|].
        split; [|done]. exists []. rewrite Hnil. simpl. by rewrite app_nil_r.
      + unfold bind at 1 in H4. unfold console_print at 1 in H4.
        destruct (console_error env (log w3) MsgCleaningUp) as [e|] eqn:Hup.
        { simplify_eq. split; [done|]. split; [done|]. split; [done|]. split.
          - exists []. split; [apply prefix_nil|]. simpl. by rewrite app_nil_r.
          - intros Hworks. by rewrite Hworks in Hup. }
        unfold emit in H4. unfold bind at 1 in H4.
        destruct (cleanup_loop env successful_downloads 0 _) as [rc wc] eqn:Hc.
        pose proof Hc as Hc'.
        apply cleanup_loop_spec in Hc
          as (Hfsc & Hdc & Hfc & deleted_for & Hprefix & Hxc & Hall).
        simpl in Hfsc, Hdc, Hxc, Hfc.
        unfold log_downloads, log_deletes, log_convert_failures in Hdc, Hxc, Hfc.
        rewrite omap_app in Hdc. rewrite omap_app in Hxc. rewrite omap_app in Hfc.
        simpl in Hdc, Hxc, Hfc. rewrite app_nil_r in Hdc, Hxc, Hfc.
        destruct rc as [n|e].
        2:{ simplify_eq. split; [done|]. split; [done|]. split; [done|]. split.
            - exists deleted_for. done.
            - intros Hworks.
              destruct (cleanup_loop_returns successful_downloads Hworks 0
                          {| fs := fs w3; log := log w3 ++ [EvConsole MsgCleaningUp] |})
                as (n & wn & Hn).
              rewrite Hn in Hc'. done. }
        specialize (Hall eq_refl). subst deleted_for.
        destruct (0 <? n).
        * unfold console_print, emit in H4.
          destruct (console_error env (log wc) (MsgCleanedUp n)) as [e|] eqn:Hdone;
            simplify_eq/=.
          -- split; [done|]. split; [done|]. split; [done|]. split.
             ++ exists successful_downloads. done.
             ++ intros Hworks. by rewrite Hworks in Hdone.
          -- unfold log_downloads, log_deletes, log_convert_failures.
             rewrite !omap_app, Hdc, Hxc, Hfc. simpl. rewrite !app_nil_r.
             split; [done|]. split; [done|]. split; [done|]. split; [|done].
             exists successful_downloads. done.
        * unfold ret in H4. simplify_eq. split; [done|]. split; [done|]. split; [done|].
          split; [|done]. exists successful_downloads. done.
    - unfold ret in H4. simplify_eq. split; [done|]. split; [done|]. split; [done|].
      split; [|done]. exists successful_downloads. by rewrite app_nil_r. }
  assert (∀ q, is_file (fs w) q → is_file (fs w4) q) as Hfiles4.
  { intros q Hq. rewrite Hfs4. eauto. }
  destruct r4 as [[]|e]; unfold ret in H; simplify_eq; simpl.
  - split; [done|]. rewrite (Hall eq_refl) in Hx4.
    exists items, failures. rewrite length_fmap in Hlen.
    split; [done|]. split; [done|]. split; [done|]. split; [done|]. split; [done|].
    split; [congruence|]. split; [congruence|]. split; [rewrite Hx4; congruence|].
    intros j t Hj Hr. rewrite Hfs4. eauto.
  - split; [done|]. exists deleted_for.
    assert (deleted_for `sublist_of` successful_downloads) as Hsub.
    { destruct Hprefix as [k ->]. by apply sublist_inserts_r. }
    split.
    { etrans; [by apply fmap_sublist|]. etrans; [|by eapply loop_trace_sublist].
      apply fmap_sublist, filter_successful_sublist. }
    split; [|split; [rewrite Hx4; congruence|]].
    2:{ intros Hworks. by specialize (Hreturns Hworks). }
    apply Forall_forall. intros d Hin.
    assert (d ∈ successful_downloads) as Hin'.
    { eapply sublist_subseteq; [exact Hsub|exact Hin]. }
    destruct (successful_prepared _ _ _ _ _ _ _ _ _ _ Htrace Hin')
      as (j & k & t & Hj & Hr & Hk & Hp).
    split; [|by eauto].
    destruct Hp as (filename & _ & _ & _ & Htask & _). rewrite <- Htask, Hfs4.
    apply (Hfile3 j); [|done]. by rewrite list_lookup_fmap, Hj.
Qed.

End Effects.

(** C4: in a call in which no reference is reported as not converted, every
    reference reaches the fetch phase: the gathered results are as many as
    the references, whatever the fetches returned, and the list returned is
    the references whose fetch succeeded, in the order of the input. *)
Theorem outcomes_cover_batch_in_order
    (env : Collaborators) (media_uris : list string) (output_dir : option string)
    (cleanup_gcs organize_by_type : bool) (w : World) (run : Run) (w' : World) :
  download_media_async_run env media_uris output_dir cleanup_gcs organize_by_type w
  = (Ok run, w') →
  log_convert_failures (log w') = log_convert_failures (log w) →
  length (run_download_tasks run) = length media_uris
  ∧ length (run_results run) = length media_uris
  ∧ (run_file_mapping run).*1 = media_uris
  ∧ run_successful_downloads run
    = filter_successful (run_file_mapping run) (run_results run)
  ∧ run_successful_downloads run `sublist_of` run_file_mapping run
  ∧ (run_successful_downloads run).*1 `sublist_of` media_uris
  ∧ download_media_async env media_uris output_dir cleanup_gcs organize_by_type w
    = (Ok (run_successful_downloads run), w').
Proof.
  intros Hrun Hnone.
  pose proof (download_media_async_run_spec env _ _ _ _ _ _ _ Hrun)
    as (_ & items & failures & Htrace & Htasks & Hmap & Hlen & Hsucc & _ & Hf & _).
  assert (failures = []) as ->.
  { apply (app_inv_head (log_convert_failures (log w))). rewrite app_nil_r. congruence. }
  pose proof (loop_trace_length _ _ _ _ _ _ _ _ _ Htrace) as Hcount. simpl in Hcount.
  pose proof (loop_trace_all _ _ _ _ _ _ _ _ Htrace) as Hall.
  assert (run_successful_downloads run `sublist_of` run_file_mapping run) as Hsub.
  { rewrite Hsucc. apply filter_successful_sublist. }
  repeat split.
  - rewrite Htasks, length_fmap. lia.
  - lia.
  - by rewrite Hmap.
  - done.
  - done.
  - rewrite <- Hall, <- Hmap. by apply fmap_sublist.
  - unfold download_media_async, bind. by rewrite Hrun.
Qed.

Lemma outcomes_cover_batch_in_order_witness :
  ∃ run w',
    download_media_async_run (demo_env true) demo_three (Some "out") true true empty_world
    = (Ok run, w')
    ∧ length (run_results run) = 3
    ∧ run_results run = [true; false; true]
    ∧ (run_successful_downloads run).*1
      = ["https://example.com/one.mp4"; "https://example.com/three.mp3"].
Proof.
  run_demo (download_media_async_run (demo_env true) demo_three (Some "out") true true
              empty_world) Hrun.
  match type of Hrun with
  | _ = (Ok ?run, ?w') =>
      exists run, w';
      assert (log_convert_failures (log w') = log_convert_failures (log empty_world))
        as Hnone by (vm_compute; reflexivity);
      pose proof (outcomes_cover_batch_in_order _ _ _ _ _ _ _ _ Hrun Hnone)
        as (_ & Hresults & _)
  end.
  split; [exact Hrun|]. split; [exact Hresults|]. split; reflexivity.
Defined.

Lemma prepared_issued_delete env total organize_by_type media_folders download_dir i uri t m :
  prepared env total organize_by_type media_folders download_dir i uri t m →
  PyStr.startswith uri "gs://" = true →
  issued_delete env uri = Some (uri, gcs_path_parts uri).
Proof.
  intros (filename & _ & _ & _ & _ & _ & Hgs) Hstarts. rewrite Hstarts in Hgs.
  destruct Hgs as (Hav & _ & b & p & h & Hparts & _).
  unfold issued_delete. by rewrite Hav, Hstarts, Hparts.
Qed.

Lemma issued_delete_filter env (uris : list string) :
  Forall (λ uri, PyStr.startswith uri "gs://" = true →
                 issued_delete env uri = Some (uri, gcs_path_parts uri)) uris →
  omap (issued_delete env) uris
  = (λ uri, (uri, gcs_path_parts uri))
      <$> filter (λ uri, PyStr.startswith uri "gs://" = true) uris.
Proof.
  induction 1 as [|uri rest Huri _ IH]; [done|].
  rewrite filter_cons. simpl. destruct (decide _) as [Hgs|Hgs].
  - rewrite (Huri Hgs). simpl. f_equal. exact IH.
  - replace (issued_delete env uri) with (@None (string * list string)); [exact IH|].
    unfold issued_delete. apply not_true_is_false in Hgs.
    by rewrite Hgs, andb_false_r.
Qed.

(** C5: the deletions asked of the storage service during a call that
    returns are, in order, one for each successful download whose reference
    starts with [gs://], for the bucket and object of that reference, and
    none when cleanup is off.  So a successful download of a plain URL asks
    for no deletion, and nothing is deleted that is not in the list of
    successful downloads.  When the call raises, what was deleted until then
    is of the same kind: the storage references among some references of the
    batch, in their order, each with its download in place; and nothing was
    deleted when the console renders what it is given, for then the call
    raises before it fetches. *)
Theorem cleanup_deletes_successful_storage_uris
    (env : Collaborators) (media_uris : list string) (output_dir : option string)
    (cleanup_gcs organize_by_type : bool) (w : World) :
  let '(r, w') :=
    download_media_async_run env media_uris output_dir cleanup_gcs organize_by_type w in
  match r with
  | Ok run =>
      log_deletes (log w')
      = log_deletes (log w)
        ++ (if cleanup_gcs
            then (λ uri, (uri, gcs_path_parts uri))
                   <$> filter (λ uri, PyStr.startswith uri "gs://" = true)
                         (run_successful_downloads run).*1
            else [])
      ∧ Forall (λ uri, PyStr.startswith uri "gs://" = true →
                       length (gcs_path_parts uri) = 2)
          (run_successful_downloads run).*1
  | Raise _ =>
      ∃ deleted_for : list (string * Path),
        deleted_for.*1 `sublist_of` media_uris
        ∧ Forall (λ d, is_file (fs w') d.2) deleted_for
        ∧ log_deletes (log w')
          = log_deletes (log w)
            ++ (if cleanup_gcs
                then (λ uri, (uri, gcs_path_parts uri))
                       <$> filter (λ uri, PyStr.startswith uri "gs://" = true)
                             deleted_for.*1
                else [])
        ∧ (console_works env → log_deletes (log w') = log_deletes (log w))
  end.
Proof.
  destruct (download_media_async_run env _ _ _ _ w) as [r w'] eqn:Hrun.
  pose proof (download_media_async_run_spec env _ _ _ _ _ _ _ Hrun) as [_ Hspec].
  destruct r as [run|e].
  2:{ destruct Hspec as (deleted_for & Hsub & Hall & Hx & Hearly).
      exists deleted_for. split; [done|]. split.
      { eapply Forall_impl; [exact Hall|]. by intros d [Hfile _]. }
      split.
      - rewrite Hx. destruct cleanup_gcs; [|done]. rewrite issued_delete_filter; [done|].
        apply Forall_fmap. eapply Forall_impl; [exact Hall|].
        intros d (_ & k & t & _ & Hp) Hgs. by eapply prepared_issued_delete.
      - intros Hworks. rewrite Hx, (Hearly Hworks). simpl.
        by destruct cleanup_gcs; rewrite app_nil_r. }
  destruct Hspec as (items & failures & Htrace & _ & Hmap & _ & Hsucc & _ & _ & Hx & _).
  assert (Forall (λ uri, PyStr.startswith uri "gs://" = true →
                         issued_delete env uri = Some (uri, gcs_path_parts uri))
            (run_successful_downloads run).*1) as Hissued.
  { apply Forall_forall. intros uri Hin Hgs.
    apply list_elem_of_fmap in Hin as (m & -> & Hin).
    rewrite Hsucc, Hmap in Hin.
    destruct (successful_prepared env _ _ _ _ _ _ _ _ _ _ Htrace Hin)
      as (j & k & t & _ & _ & _ & Hp).
    by eapply prepared_issued_delete. }
  split.
  - rewrite Hx. destruct cleanup_gcs; [|done]. by rewrite issued_delete_filter.
  - eapply Forall_impl; [exact Hissued|]. intros uri Huri Hgs.
    specialize (Huri Hgs). unfold issued_delete in Huri.
    destruct (GCS_AVAILABLE env && _ && (_ =? 2)) eqn:Hb; [|done].
    apply andb_true_iff in Hb as [_ Hb]. by apply Nat.eqb_eq in Hb.
Qed.

Lemma cleanup_deletes_successful_storage_uris_witness :
  log_deletes
    (log (download_media_async_run (demo_env true) demo_mixed (Some "out") true true
            empty_world).2)
  = [("gs://open/v/x.MP3", ["open"; "v/x.MP3"])].
Proof.
  pose proof (cleanup_deletes_successful_storage_uris (demo_env true) demo_mixed
                (Some "out") true true empty_world) as H.
  run_demo (download_media_async_run (demo_env true) demo_mixed (Some "out") true true
              empty_world) Hrun.
  rewrite Hrun in H. destruct H as [H _]. exact H.
Defined.

Lemma derive_filename_gcs i uri :
  PyStr.startswith uri "gs://" = true → ∃ filename, derive_filename i uri = Ok filename.
Proof.
  intros Hgs. unfold derive_filename. rewrite Hgs.
  destruct (1 <? _); eauto.
Qed.

Lemma target_filepath_ok organize_by_type (media_folders : gmap string Path)
    download_dir filename :
  (organize_by_type = true → is_Some (media_folders !! "unknown")) →
  ∃ filepath,
    target_filepath organize_by_type media_folders download_dir filename = Ok filepath.
Proof.
  intros Hunknown. unfold target_filepath. destruct organize_by_type; [|eauto].
  destruct (Hunknown eq_refl) as [unknown_folder ->]. eauto.
Qed.

Lemma prepared_resolves env total organize_by_type media_folders download_dir i uri t m :
  prepared env total organize_by_type media_folders download_dir i uri t m →
  PyStr.startswith uri "gs://" = true →
  ¬ resolution_fails env uri.
Proof.
  intros (filename & _ & _ & _ & _ & _ & Hgs) Hstarts. rewrite Hstarts in Hgs.
  destruct Hgs as (Hav & Htruthy & b & p & h & Hparts & Hgen).
  intros [Hno|[Hlen|(b' & p' & Hparts' & Hnone)]].
  - congruence.
  - by rewrite Hparts in Hlen.
  - rewrite Hparts in Hparts'. simplify_eq.
    specialize (Hnone h). rewrite Hgen in Hnone. simpl in Hnone. congruence.
Qed.

Lemma prepare_item_convert_fails
    env total organize_by_type (media_folders : gmap string Path) download_dir i uri w o wc :
  PyStr.startswith uri "gs://" = true →
  (organize_by_type = true → is_Some (media_folders !! "unknown")) →
  console_error env (log w) MsgConverting = None →
  convert_gcs_uri_to_signed_url env uri
    {| fs := fs w; log := log w ++ [EvConsole MsgConverting] |} = (Ok o, wc) →
  from_option PyStr.truthy false o = false →
  console_error env (log wc) (MsgConvertFailed uri) = None →
  prepare_item env total organize_by_type media_folders download_dir i uri w
  = (Ok None, {| fs := fs wc; log := log wc ++ [EvConsole (MsgConvertFailed uri)] |}).
Proof.
  intros Hgs Hunknown Hconverting Hconv Hfalse Hreport.
  unfold prepare_item, lift_result, bind.
  destruct (derive_filename_gcs i uri Hgs) as [filename ->].
  destruct (target_filepath_ok organize_by_type media_folders download_dir filename Hunknown)
    as [filepath ->].
  rewrite Hgs. unfold console_print, emit. rewrite Hconverting. simpl.
  rewrite Hconv, Hfalse, Hreport. done.
Qed.

Lemma resolution_fails_convert env uri w o wc :
  PyStr.startswith uri "gs://" = true →
  resolution_fails env uri →
  convert_gcs_uri_to_signed_url env uri w = (Ok o, wc) →
  from_option PyStr.truthy false o = false.
Proof.
  intros Hgs Hfails Hconv.
  destruct o as [signed_url|]; [|done]. simpl.
  apply convert_gcs_uri_to_signed_url_some in Hconv as (Hav & b & p & Hparts & Hgen); [|done].
  destruct Hfails as [Hno|[Hlen|(b' & p' & Hparts' & Hnone)]].
  - congruence.
  - by rewrite Hparts in Hlen.
  - rewrite Hparts in Hparts'. simplify_eq.
    specialize (Hnone (log w)). by rewrite Hgen in Hnone.
Qed.

Lemma loop_trace_reports env total organize_by_type media_folders download_dir
    i media_uris items failures uri :
  loop_trace env total organize_by_type media_folders download_dir
    i media_uris items failures →
  PyStr.startswith uri "gs://" = true →
  resolution_fails env uri →
  uri ∈ media_uris → uri ∈ failures.
Proof.
  intros Htrace Hgs Hfails.
  induction Htrace as [|? ? ? ? ? ? ? IH|? ? ? ? ? ? ? Hprep ? IH]; intros Hin.
  - by apply elem_of_nil in Hin.
  - apply elem_of_cons in Hin as [->|Hin]; [apply list_elem_of_here|].
    apply list_elem_of_further. auto.
  - apply elem_of_cons in Hin as [->|Hin]; [|auto].
    by destruct (prepared_resolves _ _ _ _ _ _ _ _ _ Hprep Hgs).
Qed.

Lemma issued_delete_uri env uri x : issued_delete env uri = Some x → x.1 = uri.
Proof. unfold issued_delete. destruct (_ && _); by intros [= <-]. Qed.

(** On a console that renders what it is given, the resolver returns. *)
Lemma convert_gcs_uri_to_signed_url_returns env gcs_uri w :
  console_works env →
  ∃ o wc, convert_gcs_uri_to_signed_url env gcs_uri w = (Ok o, wc).
Proof.
  intros Hworks.
  unfold convert_gcs_uri_to_signed_url, storage_signed_url, try_except, bind, ret.
  destruct (GCS_AVAILABLE env); simpl; [|rewrite console_print_works by done; eauto].
  destruct (PyStr.startswith gcs_uri "gs://"); simpl; [|eauto].
  destruct (gcs_path_parts gcs_uri) as [|bucket_name [|blob_path [|x rest]]];
    try (rewrite console_print_works by done; eauto).
  destruct (generate_signed_url env (log w) bucket_name blob_path);
    rewrite console_print_works by done; eauto.
Qed.

(** A reference at which the body of the loop raises makes the loop raise. *)
Lemma prepare_loop_raises env total organize_by_type media_folders download_dir uri :
  (∀ i w r w',
     prepare_item env total organize_by_type media_folders download_dir i uri w = (r, w') →
     is_ok r = false) →
  ∀ media_uris, uri ∈ media_uris →
  ∀ i download_tasks file_mapping w r w',
  prepare_loop env total organize_by_type media_folders download_dir i media_uris
    download_tasks file_mapping w = (r, w') →
  is_ok r = false.
Proof.
  intros Hitem media_uris. induction media_uris as [|uri' rest IH]; intros Hin.
  { by apply elem_of_nil in Hin. }
  intros i tasks fm w r w' H. simpl in H. unfold bind in H.
  destruct (prepare_item env _ _ _ _ i uri' w) as [ri wi] eqn:Hi.
  apply elem_of_cons in Hin as [<-|Hin].
  - apply Hitem in Hi. destruct ri as [item|e]; [done|]. by simplify_eq.
  - destruct ri as [[[t m]|]|e]; [by eapply IH..|by simplify_eq].
Qed.

(** A call whose loop over the references raises: it raises, and nothing was
    fetched or deleted. *)
Lemma download_media_async_run_aborts
    env media_uris output_dir cleanup_gcs organize_by_type w :
  (∀ media_folders wx r wy,
     prepare_loop env (length media_uris) organize_by_type media_folders
       (download_dir_of output_dir) 1 media_uris [] [] wx = (r, wy) →
     is_ok r = false) →
  ∃ e w',
    download_media_async_run env media_uris output_dir cleanup_gcs organize_by_type w
    = (Raise e, w')
    ∧ log_downloads (log w') = log_downloads (log w)
    ∧ log_deletes (log w') = log_deletes (log w).
Proof.
  intros Hloop. unfold download_media_async_run.
  unfold bind at 1.
  destruct (mkdir_exist_ok (download_dir_of output_dir) w) as [r0 w0] eqn:H0.
  apply mkdir_exist_ok_effect in H0 as (Hlog0 & _).
  destruct r0 as [[]|e]; [|exists e, w0; by rewrite Hlog0].
  unfold bind at 1.
  match goal with
  | |- ∃ e w', (match ?x with pair _ _ => _ end) = _ ∧ _ =>
      destruct x as [r1 w1] eqn:H1
  end.
  assert (log_downloads (log w1) = log_downloads (log w)
          ∧ log_deletes (log w1) = log_deletes (log w)) as (Hd1 & Hx1).
  { destruct organize_by_type.
    - unfold bind in H1.
      destruct (create_media_folders (download_dir_of output_dir) w0) as [rc wc] eqn:Hc.
      apply create_media_folders_spec in Hc as (Hlogc & _).
      destruct rc as [folders|e]; unfold console_print, emit, ret in H1.
      + destruct (console_error env (log wc) _) as [e|]; simplify_eq/=.
        * by rewrite Hlogc, Hlog0.
        * unfold log_downloads, log_deletes.
          rewrite !omap_app, Hlogc, Hlog0. simpl. by rewrite !app_nil_r.
      + simplify_eq. by rewrite Hlogc, Hlog0.
    - unfold bind, console_print, emit, ret in H1.
      destruct (console_error env (log w0) _) as [e|]; simplify_eq/=.
      + by rewrite Hlog0.
      + unfold log_downloads, log_deletes.
        rewrite !omap_app, Hlog0. simpl. by rewrite !app_nil_r. }
  destruct r1 as [media_folders|e]; [|by exists e, w1].
  unfold bind at 1.
  destruct (prepare_loop env _ _ media_folders _ 1 media_uris [] [] w1) as [r2 w2] eqn:H2.
  pose proof (Hloop _ _ _ _ H2) as Hr2.
  apply prepare_loop_spec in H2 as (_ & Hd2 & Hx2 & _).
  destruct r2 as [prepared|e]; [done|].
  exists e, w2. split; [done|]. split; congruence.
Qed.

(** X18: a storage reference whose exchange for a signed URL fails, and
    whose report the console cannot render (the reference is put into the
    line as markup, so this is what happens when it has a closing tag in
    it).  The call raises, and no reference of the batch is fetched, the ones
    after it and the ones before it included: the batch is aborted. *)
Theorem failed_resolution_report_aborts_batch
    (env : Collaborators) (uri : string) (media_uris : list string)
    (output_dir : option string) (cleanup_gcs organize_by_type : bool) (w : World) :
  PyStr.startswith uri "gs://" = true →
  resolution_fails env uri →
  (∀ h, console_error env h (MsgConvertFailed uri) ≠ None) →
  uri ∈ media_uris →
  ∃ e w',
    download_media_async_run env media_uris output_dir cleanup_gcs organize_by_type w
    = (Raise e, w')
    ∧ log_downloads (log w') = log_downloads (log w)
    ∧ log_deletes (log w') = log_deletes (log w).
Proof.
  intros Hgs Hfails Hreject Hin.
  apply download_media_async_run_aborts.
  intros media_folders wx r wy. apply prepare_loop_raises with (uri := uri); [|done].
  intros i w0 r0 w1 Hitem.
  unfold prepare_item, lift_result, bind in Hitem.
  destruct (derive_filename i uri) as [filename|e]; [|by simplify_eq].
  destruct (target_filepath _ _ _ filename) as [filepath|e]; [|by simplify_eq].
  rewrite Hgs in Hitem. unfold console_print at 1 in Hitem.
  destruct (console_error env (log w0) MsgConverting) as [e|]; [by simplify_eq|].
  unfold emit in Hitem.
  destruct (convert_gcs_uri_to_signed_url env uri _) as [[o|e] wc] eqn:Hconv;
    [|by simplify_eq].
  rewrite (resolution_fails_convert _ _ _ _ _ Hgs Hfails Hconv) in Hitem.
  unfold console_print in Hitem.
  destruct (console_error env (log wc) (MsgConvertFailed uri)) as [e|] eqn:Hreport;
    [by simplify_eq|].
  by destruct (Hreject (log wc)).
Qed.

Lemma failed_resolution_report_aborts_batch_witness :
  ∃ e w',
    download_media_async_run (demo_rich_env true)
      ["https://example.com/one.mp4"; "gs://locked/a[/b].mp4";
       "https://example.com/clip.mp4"] None true true empty_world
    = (Raise e, w')
    ∧ log_downloads (log w') = log_downloads (log empty_world)
    ∧ log_deletes (log w') = log_deletes (log empty_world).
Proof.
  apply (failed_resolution_report_aborts_batch (demo_rich_env true)
           "gs://locked/a[/b].mp4").
  - reflexivity.
  - right. right. exists "locked", "a[/b].mp4". split; [reflexivity|].
    intros h. reflexivity.
  - intros h. discriminate.
  - apply list_elem_of_further, list_elem_of_here.
Defined.

(** C1, as the code has it: a storage reference whose exchange for a signed
    URL fails gets no outcome; its failure is a line on the console.  When
    the exchange fails at its turn in the loop and the lines about it are
    rendered, the reference appends no task and no pair, no fetch and no
    deletion happen, the failure is reported on the console, and the loop
    goes on with the references after it.  When the exchange fails whenever
    it is tried, then in a call that returns the reference is not among the
    pairs to fetch, has no outcome among the pairs of references and
    results, and is not among the downloads returned; no fetch carries the
    label of a position at which it stands, no deletion is asked for it,
    every occurrence of it is reported, and every reference of the batch has
    either reached the fetch phase or been reported. *)
Theorem failed_resolution_skips_reference (env : Collaborators) (uri : string) :
  PyStr.startswith uri "gs://" = true →
  (∀ total organize_by_type media_folders download_dir i rest download_tasks file_mapping
     w o wc,
     (organize_by_type = true → is_Some (media_folders !! "unknown")) →
     console_error env (log w) MsgConverting = None →
     convert_gcs_uri_to_signed_url env uri
       {| fs := fs w; log := log w ++ [EvConsole MsgConverting] |} = (Ok o, wc) →
     from_option PyStr.truthy false o = false →
     console_error env (log wc) (MsgConvertFailed uri) = None →
     prepare_loop env total organize_by_type media_folders download_dir
       i (uri :: rest) download_tasks file_mapping w
     = prepare_loop env total organize_by_type media_folders download_dir
         (S i) rest download_tasks file_mapping
         {| fs := fs wc; log := log wc ++ [EvConsole (MsgConvertFailed uri)] |}
     ∧ fs wc = fs w
     ∧ log_downloads (log wc) = log_downloads (log w)
     ∧ log_deletes (log wc) = log_deletes (log w))
  ∧ (resolution_fails env uri →
     (console_works env →
      ∀ w, ∃ o wc,
        convert_gcs_uri_to_signed_url env uri w = (Ok o, wc)
        ∧ from_option PyStr.truthy false o = false)
     ∧ ∀ media_uris output_dir cleanup_gcs organize_by_type w run w',
       download_media_async_run env media_uris output_dir cleanup_gcs organize_by_type w
       = (Ok run, w') →
       (uri ∉ (run_file_mapping run).*1)
       ∧ (∀ local_path success, ((uri, local_path), success) ∉ run_outcomes run)
       ∧ (uri ∉ (run_successful_downloads run).*1)
       ∧ length (run_download_tasks run) = length (run_file_mapping run)
       ∧ log_downloads (log w') = log_downloads (log w) ++ run_download_tasks run
       ∧ Forall (λ t, media_uris !! (desc_index (task_description t) - 1) ≠ Some uri)
           (run_download_tasks run)
       ∧ (∀ x, x ∈ log_deletes (log w') → x.1 = uri → x ∈ log_deletes (log w))
       ∧ ∃ failures,
           log_convert_failures (log w') = log_convert_failures (log w) ++ failures
           ∧ (uri ∈ media_uris → uri ∈ failures)
           ∧ length (run_download_tasks run) + length failures = length media_uris).
Proof.
  intros Hgs. split.
  - intros total organize_by_type media_folders download_dir i rest tasks fm w o wc
      Hunknown Hconverting Hconv Hfalse Hreport.
    pose proof (prepare_item_convert_fails env total organize_by_type media_folders
                  download_dir i uri w o wc Hgs Hunknown Hconverting Hconv Hfalse Hreport)
      as Hitem.
    apply convert_gcs_uri_to_signed_url_effect in Hconv as (Hfs & Hd & Hx & _).
    simpl in Hfs, Hd, Hx. unfold log_downloads, log_deletes in *.
    rewrite omap_app in Hd. rewrite omap_app in Hx. simpl in Hd, Hx.
    rewrite app_nil_r in Hd, Hx.
    split; [|done]. simpl. unfold bind at 1. by rewrite Hitem.
  - intros Hfails. split.
    { intros Hworks w.
      destruct (convert_gcs_uri_to_signed_url_returns env uri w Hworks) as (o & wc & Hconv).
      exists o, wc. split; [done|]. by eapply resolution_fails_convert. }
    intros media_uris output_dir cleanup_gcs organize_by_type w run w' Hrun.
    pose proof (download_media_async_run_spec env _ _ _ _ _ _ _ Hrun)
      as (_ & items & failures & Htrace & Htasks & Hmap & Hlen & Hsucc & Hd & Hf & Hx & _).
    assert (∀ t m, (t, m) ∈ items →
              m.1 ≠ uri
              ∧ media_uris !! (desc_index (task_description t) - 1) = Some m.1) as Hitems.
    { intros t m Hin.
      destruct (loop_trace_lookup env _ _ _ _ _ _ _ _ t m Htrace Hin) as (k & Hk & Hp).
      split.
      - intros Heq. rewrite Heq in Hp. by destruct (prepared_resolves _ _ _ _ _ _ _ _ _ Hp Hgs).
      - destruct Hp as (filename & _ & _ & _ & _ & -> & _). simpl.
        by rewrite Nat.sub_0_r. }
    assert (uri ∉ (run_file_mapping run).*1) as Hnot.
    { rewrite Hmap. intros Hin.
      apply list_elem_of_fmap in Hin as (m & -> & Hin).
      apply list_elem_of_fmap in Hin as ([t m'] & -> & Hin).
      by destruct (Hitems t m' Hin) as [Hne _]. }
    assert (uri ∉ (run_successful_downloads run).*1) as Hnot'.
    { intros Hin. apply Hnot. rewrite Hsucc in Hin.
      eapply sublist_subseteq; [|exact Hin].
      apply fmap_sublist, filter_successful_sublist. }
    split; [done|]. split.
    { intros local_path success Hin. apply Hnot.
      apply elem_of_zip_l in Hin.
      apply list_elem_of_fmap. by exists (uri, local_path). }
    repeat split; try done.
    + by rewrite Htasks, Hmap, !length_fmap.
    + rewrite Htasks. apply Forall_forall. intros t Hin.
      apply list_elem_of_fmap in Hin as ([t' m] & -> & Hin).
      destruct (Hitems t' m Hin) as [Hne Hpos]. simpl. rewrite Hpos. congruence.
    + intros x Hin Hx1. rewrite Hx in Hin.
      apply elem_of_app in Hin as [Hin|Hin]; [done|].
      destruct cleanup_gcs; [|by apply elem_of_nil in Hin].
      apply list_elem_of_omap in Hin as (uri' & Hin & Hissued).
      apply issued_delete_uri in Hissued. congruence.
    + exists failures. repeat split; [done| |].
      * by eapply loop_trace_reports.
      * rewrite Htasks, length_fmap. by eapply loop_trace_length.
Qed.

Lemma failed_resolution_skips_reference_witness :
  (prepare_loop (demo_env true) 2 false ∅ (Pathlib.of_string "out") 1
     ["gs://locked/a/b.png"; "https://example.com/clip.mp4"] [] [] empty_world).1
  = Ok ([ {| task_url := "https://example.com/clip.mp4";
             task_filepath := Pathlib.of_string "out/clip.mp4";
             task_description :=
               {| desc_index := 2; desc_total := 2; desc_filename := "clip.mp4" |} |} ],
        [ ("https://example.com/clip.mp4", Pathlib.of_string "out/clip.mp4") ])
  ∧ ∃ run w',
      download_media_async_run (demo_env true) demo_mixed (Some "out") true true empty_world
      = (Ok run, w')
      ∧ ("gs://locked/a/b.png" ∉ (run_successful_downloads run).*1)
      ∧ log_convert_failures (log w') = ["gs://locked/a/b.png"]
      ∧ length (run_download_tasks run) = 3.
Proof.
  pose proof (failed_resolution_skips_reference (demo_env true) "gs://locked/a/b.png"
                eq_refl) as [Hloop Hcall].
  split.
  - destruct (Hloop 2 false ∅ (Pathlib.of_string "out") 1
                ["https://example.com/clip.mp4"] [] [] empty_world
                None
                {| fs := ∅;
                   log := [EvConsole MsgConverting; EvSignedUrl "locked" "a/b.png";
                           EvConsole (MsgSignedUrlFailed "gs://locked/a/b.png")] |})
      as [-> _]; [discriminate|reflexivity|reflexivity|reflexivity|reflexivity|].
    reflexivity.
  - assert (resolution_fails (demo_env true) "gs://locked/a/b.png") as Hfails.
    { right. right. exists "locked", "a/b.png". split; [reflexivity|].
      intros h. reflexivity. }
    run_demo (download_media_async_run (demo_env true) demo_mixed (Some "out") true true
                empty_world) Hrun.
    match type of Hrun with
    | _ = (Ok ?run, ?w') =>
        exists run, w';
        pose proof (proj2 (Hcall Hfails) _ _ _ _ _ _ _ Hrun) as (_ & _ & Hnot & _)
    end.
    split; [exact Hrun|]. split; [exact Hnot|]. split; [vm_compute|]; reflexivity.
Defined.

(** The call records no outcome for a reference whose exchange fails.  Of
    the four references of this batch the second is refused a signed URL;
    the call returns, the outcomes are three, and none of them, failed or
    successful, is for that reference. *)
Lemma failed_resolution_leaves_no_outcome :
  "gs://locked/a/b.png" ∈ demo_mixed
  ∧ resolution_fails (demo_env true) "gs://locked/a/b.png"
  ∧ ∃ run w',
      download_media_async_run (demo_env true) demo_mixed (Some "out") true true empty_world
      = (Ok run, w')
      ∧ length demo_mixed = 4
      ∧ length (run_outcomes run) = 3
      ∧ ¬ ∃ local_path success,
            (("gs://locked/a/b.png", local_path), success) ∈ run_outcomes run.
Proof.
  split; [apply list_elem_of_further, list_elem_of_here|]. split.
  { right. right. exists "locked", "a/b.png". split; [reflexivity|].
    intros h. reflexivity. }
  run_demo (download_media_async_run (demo_env true) demo_mixed (Some "out") true true
              empty_world) Hrun.
  match type of Hrun with
  | _ = (Ok ?run, ?w') => exists run, w'
  end.
  split; [exact Hrun|]. split; [reflexivity|]. split; [reflexivity|].
  intros (local_path & success & Hin). unfold run_outcomes in Hin. simpl in Hin.
  repeat (apply elem_of_cons in Hin as [Hin|Hin]; [discriminate Hin|]).
  by apply elem_of_nil in Hin.
Qed.

Lemma get_media_type_range file_extension :
  get_media_type file_extension ∈ ["videos"; "images"; "audios"; "unknown"].
Proof.
  pose proof (media_type_scan_in MEDIA_TYPES (PyStr.lower file_extension)) as H.
  unfold get_media_type. simpl in H.
  rewrite !elem_of_cons in H. rewrite !elem_of_cons. tauto.
Qed.

Lemma target_filepath_organized download_dir filename :
  target_filepath true (media_folders_of download_dir) download_dir filename
  = Ok (download_dir
          // get_media_type (PyStr.lower (Pathlib.suffix (Pathlib.of_string filename)))
          // filename).
Proof.
  unfold target_filepath.
  pose proof (get_media_type_range
                (PyStr.lower (Pathlib.suffix (Pathlib.of_string filename)))) as Hrange.
  set (media_type := get_media_type _) in *. clearbody media_type.
  rewrite !elem_of_cons, elem_of_nil in Hrange.
  unfold media_folders_of.
  destruct Hrange as [->|[->|[->|[->|[]]]]]; by simplify_map_eq.
Qed.

Lemma prepared_filepath env total organize_by_type download_dir i uri t m :
  prepared env total organize_by_type
    (if organize_by_type then media_folders_of download_dir else ∅) download_dir i uri t m →
  ∃ filename,
    derive_filename i uri = Ok filename
    ∧ task_filepath t = m.2
    ∧ m.2 = if organize_by_type
            then download_dir
                   // get_media_type
                        (PyStr.lower (Pathlib.suffix (Pathlib.of_string filename)))
                   // filename
            else download_dir // filename.
Proof.
  intros (filename & Hname & Hpath & _ & Htask & _). exists filename.
  repeat split; [done..|]. destruct organize_by_type.
  - rewrite target_filepath_organized in Hpath. by injection Hpath.
  - unfold target_filepath in Hpath. by injection Hpath.
Qed.

Lemma derive_filename_url i uri parsed :
  PyStr.startswith uri "gs://" = false →
  Urllib.urlparse uri = Ok parsed →
  PyStr.truthy (Pathlib.name (Pathlib.of_string (Urllib.path parsed))) = true →
  derive_filename i uri = Ok (Pathlib.name (Pathlib.of_string (Urllib.path parsed))).
Proof.
  intros Hgs Hparse Htruthy. unfold derive_filename. by rewrite Hgs, Hparse, Htruthy.
Qed.

(** C2, as the code has it: the folders are named [videos], [images],
    [audios] and [unknown].  Every download returned is a file at
    [<output_dir>/<media type>/<filename>] when the call organizes by type,
    the media type being that of the extension of the filename, and at
    [<output_dir>/<filename>] when it does not; a plain URL whose path ends
    in [clip.mp4] is at [<output_dir>/videos/clip.mp4]. *)
Theorem downloads_land_by_media_type
    (env : Collaborators) (media_uris : list string) (output_dir : option string)
    (cleanup_gcs organize_by_type : bool) (w : World) (run : Run) (w' : World) :
  download_media_async_run env media_uris output_dir cleanup_gcs organize_by_type w
  = (Ok run, w') →
  ∀ uri local_path, (uri, local_path) ∈ run_successful_downloads run →
    is_file (fs w') local_path
    ∧ (∃ k filename,
         media_uris !! k = Some uri
         ∧ derive_filename (S k) uri = Ok filename
         ∧ get_media_type (PyStr.lower (Pathlib.suffix (Pathlib.of_string filename)))
             ∈ ["videos"; "images"; "audios"; "unknown"]
         ∧ local_path
           = if organize_by_type
             then download_dir_of output_dir
                    // get_media_type
                         (PyStr.lower (Pathlib.suffix (Pathlib.of_string filename)))
                    // filename
             else download_dir_of output_dir // filename)
    ∧ (∀ parsed,
         PyStr.startswith uri "gs://" = false →
         Urllib.urlparse uri = Ok parsed →
         Pathlib.name (Pathlib.of_string (Urllib.path parsed)) = "clip.mp4" →
         local_path
         = if organize_by_type
           then download_dir_of output_dir // "videos" // "clip.mp4"
           else download_dir_of output_dir // "clip.mp4").
Proof.
  intros Hrun uri local_path Hin.
  pose proof (download_media_async_run_spec env _ _ _ _ _ _ _ Hrun)
    as (_ & items & failures & Htrace & Htasks & Hmap & Hlen & Hsucc & _ & _ & _ & Hfile).
  rewrite Hsucc, Hmap in Hin.
  destruct (successful_prepared env _ _ _ _ _ _ _ _ _ _ Htrace Hin)
    as (j & k & t & Hj & Hr & Hk & Hp).
  simpl in Hk, Hp.
  apply prepared_filepath in Hp as (filename & Hname & Htask & Hpath). simpl in Htask, Hpath.
  repeat split.
  - rewrite <- Htask. apply (Hfile j); [|done].
    by rewrite Htasks, list_lookup_fmap, Hj.
  - exists k, filename. repeat split; [done..|apply get_media_type_range|done].
  - intros parsed Hgs Hparse Hclip.
    rewrite (derive_filename_url _ _ parsed Hgs Hparse) in Hname by (by rewrite Hclip).
    rewrite Hclip in Hname. injection Hname as <-. exact Hpath.
Qed.

Lemma downloads_land_by_media_type_witness :
  ∃ run w',
    download_media_async_run (demo_env true) ["https://example.com/clip.mp4"]
      (Some "base") true true empty_world
    = (Ok run, w')
    ∧ run_successful_downloads run
      = [("https://example.com/clip.mp4", Pathlib.of_string "base/videos/clip.mp4")]
    ∧ is_file (fs w') (Pathlib.of_string "base/videos/clip.mp4").
Proof.
  run_demo (download_media_async_run (demo_env true) ["https://example.com/clip.mp4"]
              (Some "base") true true empty_world) Hrun.
  match type of Hrun with
  | _ = (Ok ?run, ?w') =>
      exists run, w';
      pose proof (downloads_land_by_media_type _ _ _ _ _ _ _ _ Hrun
                    "https://example.com/clip.mp4"
                    (Pathlib.of_string "base/videos/clip.mp4")
                    (list_elem_of_here _ _)) as (Hfile & _)
  end.
  split; [exact Hrun|]. split; [reflexivity|exact Hfile].
Defined.

(** The same call leaves nothing at [base/video/clip.mp4]: the download is
    under [videos]. *)
Lemma clip_is_not_under_video :
  let '(r, w') :=
    download_media_async (demo_env true) ["https://example.com/clip.mp4"]
      (Some "base") true true empty_world in
  r = Ok [("https://example.com/clip.mp4", Pathlib.of_string "base/videos/clip.mp4")]
  ∧ Pathlib.of_string "base/videos/clip.mp4" ≠ Pathlib.of_string "base/video/clip.mp4"
  ∧ fs w' !! Pathlib.of_string "base/video/clip.mp4" = None.
Proof. vm_compute. repeat split. discriminate. Qed.

(** * Further properties of the module *)

(** ** Deleting a storage object *)



(** ** Fetching one file *)

Lemma report_failure_not_true env name wx wy :
  bind (console_print env (MsgDownloadFailed name)) (λ _, ret false) wx ≠ (Ok true, wy).
Proof.
  intros H. by apply report_failure_effect in H as (_ & _ & [=] & _).
Qed.

(** When [download_media_file] returns [True], the file could be opened. *)
Lemma download_media_file_true env url filepath description w w' :
  download_media_file env url filepath description w = (Ok true, w') →
  Pathlib.name filepath ≠ ".." ∧ fs_lookup (fs w) filepath ≠ Some Dir.
Proof.
  intros H. pose proof (download_media_file_cases env url filepath description w) as Hcases.
  cbv zeta in Hcases. cbn [log] in Hcases.
  destruct (session_get env _ url) as [|chunks complete].
  { rewrite Hcases in H. by apply report_failure_not_true in H. }
  destruct (console_error env _ (MsgProgressStart description)).
  { rewrite Hcases in H. by apply report_failure_not_true in H. }
  destruct (open_wb filepath _) as [[[]|e] w1] eqn:Hopen.
  - by apply open_wb_ok in Hopen as (_ & _ & Hdots & Hdir).
  - rewrite Hcases in H. by apply report_failure_not_true in H.
Qed.

(** X2: when [download_media_file] returns [True], the server sent a
    complete body and the file at the target path holds exactly the chunks
    of that body, in the order received, whatever was at the path before.
    The call logged its one fetch and the start and the stop of its progress
    display, and nothing else, and the target path named no directory. *)
Theorem download_media_file_success
    (env : Collaborators) (url : string) (filepath : Path) (description : Description)
    (w w' : World) :
  download_media_file env url filepath description w = (Ok true, w') →
  ∃ chunks,
    session_get env (log w ++ [EvDownload url filepath description]) url
    = ResponseBody chunks true
    ∧ fs w' = <[filepath := File (String.concat "" chunks)]> (fs w)
    ∧ log w'
      = log w ++ [EvDownload url filepath description;
                  EvConsole (MsgProgressStart description);
                  EvConsole (MsgProgressStop description)]
    ∧ Pathlib.name filepath ≠ ".."
    ∧ fs_lookup (fs w) filepath ≠ Some Dir.
Proof.
  intros H. pose proof (download_media_file_cases env url filepath description w) as Hcases.
  cbv zeta in Hcases. cbn [log] in Hcases.
  destruct (session_get env _ url) as [|chunks complete].
  { rewrite Hcases in H. by apply report_failure_not_true in H. }
  destruct (console_error env _ (MsgProgressStart description)).
  { rewrite Hcases in H. by apply report_failure_not_true in H. }
  destruct (open_wb filepath _) as [[[]|e] w1] eqn:Hopen.
  2:{ rewrite Hcases in H. by apply report_failure_not_true in H. }
  apply open_wb_ok in Hopen as (_ & _ & Hdots & Hdir). simpl in Hdir.
  destruct (console_error env _ (MsgProgressStop description)) eqn:Hstop.
  { rewrite Hcases in H. by apply report_failure_not_true in H. }
  destruct complete.
  2:{ rewrite Hcases in H. by apply report_failure_not_true in H. }
  rewrite Hcases in H. unfold console_print, emit in H. cbn [log fs] in H.
  rewrite Hstop in H. simpl in H. simplify_eq. exists chunks. simpl.
  rewrite <- !app_assoc. done.
Qed.

Lemma download_media_file_success_witness :
  ∃ w' chunks,
    download_media_file (demo_env true) "https://example.com/one.mp4"
      (Pathlib.of_string "one.mp4") demo_description empty_world
    = (Ok true, w')
    ∧ fs w' = <[Pathlib.of_string "one.mp4" := File (String.concat "" chunks)]>
                (fs empty_world).
Proof.
  run_demo (download_media_file (demo_env true) "https://example.com/one.mp4"
              (Pathlib.of_string "one.mp4") demo_description empty_world) Hrun.
  match type of Hrun with
  | _ = (_, ?w') =>
      destruct (download_media_file_success _ _ _ _ _ _ Hrun) as (chunks & _ & Hfs & _);
      exists w', chunks
  end.
  split; [exact Hrun|exact Hfs].
Defined.

(** X3: [download_media_file] raises only when it cannot print the line that
    reports a failed fetch.  Whatever the server answers, whatever is in the
    file system and whatever the progress display does, it starts exactly
    one fetch, and it returns a boolean or raises what the console raised
    at that line; when it returns [False] the failure is on the console under
    the name of the target file.  So it returns whenever the console renders
    that line.  When the request itself fails, the call does not return
    [True] and the file system is as before. *)
Theorem download_media_file_raises_only_at_report
    (env : Collaborators) (url : string) (filepath : Path) (description : Description)
    (w : World) :
  let '(r, w') := download_media_file env url filepath description w in
  log_downloads (log w')
  = log_downloads (log w)
    ++ [ {| task_url := url; task_filepath := filepath;
            task_description := description |} ]
  ∧ match r with
    | Ok success =>
        success = false →
        EvConsole (MsgDownloadFailed (Pathlib.name filepath)) ∈ log w'
    | Raise e =>
        ∃ h, console_error env h (MsgDownloadFailed (Pathlib.name filepath)) = Some e
    end
  ∧ (console_renders env (MsgDownloadFailed (Pathlib.name filepath)) →
     ∃ success, r = Ok success)
  ∧ (session_get env (log w ++ [EvDownload url filepath description]) url
     = ResponseError → r ≠ Ok true ∧ fs w' = fs w).
Proof.
  destruct (download_media_file env url filepath description w) as [r w'] eqn:H.
  pose proof (download_media_file_effect env _ _ _ _ _ _ H) as (Hd & _).
  split; [done|].
  assert (∀ wx,
            bind (console_print env (MsgDownloadFailed (Pathlib.name filepath)))
              (λ _, ret false) wx = (r, w') →
            match r with
            | Ok success =>
                success = false →
                EvConsole (MsgDownloadFailed (Pathlib.name filepath)) ∈ log w'
            | Raise e =>
                ∃ h, console_error env h (MsgDownloadFailed (Pathlib.name filepath))
                     = Some e
            end
            ∧ (console_renders env (MsgDownloadFailed (Pathlib.name filepath)) →
               ∃ success, r = Ok success)
            ∧ r ≠ Ok true ∧ fs w' = fs wx) as Hfailed.
  { intros wx Hf. apply report_failure_effect in Hf as (Hfs & _ & Hr).
    destruct r as [success|e].
    - destruct Hr as [-> Hlog]. split; [|by eauto].
      intros _. rewrite Hlog. apply elem_of_app. right. apply list_elem_of_here.
    - destruct Hr as [Herr ->]. split; [by eauto|]. split; [|done].
      intros Hrenders. by rewrite Hrenders in Herr. }
  pose proof (download_media_file_cases env url filepath description w) as Hcases.
  cbv zeta in Hcases. cbn [log] in Hcases.
  destruct (session_get env _ url) as [|chunks complete].
  { rewrite Hcases in H. apply Hfailed in H as (Hr & Hreturns & Hnot & Hfs). done. }
  assert (∀ wx,
            bind (console_print env (MsgDownloadFailed (Pathlib.name filepath)))
              (λ _, ret false) wx = (r, w') →
            match r with
            | Ok success =>
                success = false →
                EvConsole (MsgDownloadFailed (Pathlib.name filepath)) ∈ log w'
            | Raise e =>
                ∃ h, console_error env h (MsgDownloadFailed (Pathlib.name filepath))
                     = Some e
            end
            ∧ (console_renders env (MsgDownloadFailed (Pathlib.name filepath)) →
               ∃ success, r = Ok success)
            ∧ (ResponseBody chunks complete = ResponseError → r ≠ Ok true ∧ fs w' = fs w))
    as Hfailed'.
  { intros wx Hf. apply Hfailed in Hf as (Hr & Hreturns & _). done. }
  destruct (console_error env _ (MsgProgressStart description)).
  { rewrite Hcases in H. by eapply Hfailed'. }
  destruct (open_wb filepath _) as [[[]|e] w1] eqn:Hopen.
  2:{ rewrite Hcases in H. by eapply Hfailed'. }
  destruct (console_error env _ (MsgProgressStop description)).
  { rewrite Hcases in H. by eapply Hfailed'. }
  destruct complete; [|rewrite Hcases in H; by eapply Hfailed'].
  rewrite Hcases in H. simplify_eq. split; [done|]. split; [by eauto|done].
Qed.

Lemma download_media_file_raises_only_at_report_witness :
  let '(r, w') :=
    download_media_file (demo_env true) "https://example.com/broken.png"
      (Pathlib.of_string "broken.png") demo_description empty_world in
  (∃ success, r = Ok success) ∧ fs w' = fs empty_world.
Proof.
  pose proof (download_media_file_raises_only_at_report (demo_env true)
                "https://example.com/broken.png" (Pathlib.of_string "broken.png")
                demo_description empty_world) as H.
  destruct (download_media_file (demo_env true) "https://example.com/broken.png"
              (Pathlib.of_string "broken.png") demo_description empty_world) as [r w'].
  destruct H as (_ & _ & Hreturns & Hrequest).
  split.
  - apply Hreturns. intros h. reflexivity.
  - apply Hrequest. reflexivity.
Defined.

(** X4: a stream that breaks is not cleaned up after.  When the progress
    display has started, the target file could be opened, and the body stops
    with an error after some chunks, [download_media_file] does not return
    [True], and it leaves at the target path a file with the chunks received
    so far; it returns [False] when the console renders the line that
    reports the failure. *)
Theorem download_media_file_broken_stream
    (env : Collaborators) (url : string) (filepath : Path) (description : Description)
    (w : World) (chunks : list string) :
  session_get env (log w ++ [EvDownload url filepath description]) url
  = ResponseBody chunks false →
  console_error env (log w ++ [EvDownload url filepath description])
    (MsgProgressStart description) = None →
  Pathlib.name filepath ≠ ".." →
  ((∃ content, fs_lookup (fs w) filepath = Some (File content))
   ∨ (fs_lookup (fs w) filepath = None
      ∧ fs_lookup (fs w) (Pathlib.parent filepath) = Some Dir)) →
  ∃ r w',
    download_media_file env url filepath description w = (r, w')
    ∧ fs w' = <[filepath := File (String.concat "" chunks)]> (fs w)
    ∧ r ≠ Ok true
    ∧ (console_renders env (MsgDownloadFailed (Pathlib.name filepath)) → r = Ok false).
Proof.
  intros Hget Hstart Hdots Hplace.
  pose proof (download_media_file_cases env url filepath description w) as Hcases.
  cbv zeta in Hcases. cbn [log] in Hcases. rewrite Hget, Hstart in Hcases.
  assert (∃ w1, open_wb filepath
                  {| fs := fs w;
                     log := (log w ++ [EvDownload url filepath description])
                            ++ [EvConsole (MsgProgressStart description)] |}
                = (Ok tt, w1)) as [w1 Hopen].
  { unfold open_wb. apply String.eqb_neq in Hdots. rewrite Hdots. simpl.
    destruct Hplace as [[content ->]|[-> ->]]; eauto. }
  rewrite Hopen in Hcases.
  destruct (download_media_file env url filepath description w) as [r w'] eqn:H.
  exists r, w'. split; [done|].
  assert (bind (console_print env (MsgDownloadFailed (Pathlib.name filepath)))
            (λ _, ret false)
            (console_print env (MsgProgressStop description)
               {| fs := <[filepath := File (String.concat "" chunks)]> (fs w);
                  log := (log w ++ [EvDownload url filepath description])
                         ++ [EvConsole (MsgProgressStart description)] |}).2
          = (r, w')) as Hfailed.
  { by destruct (console_error env _ (MsgProgressStop description)). }
  clear Hcases.
  destruct (progress_stop_effect env description
              {| fs := <[filepath := File (String.concat "" chunks)]> (fs w);
                 log := (log w ++ [EvDownload url filepath description])
                        ++ [EvConsole (MsgProgressStart description)] |})
    as (w2 & Hw2 & Hfs2 & _).
  rewrite Hw2 in Hfailed. simpl in Hfs2.
  apply report_failure_effect in Hfailed as (Hfs & _ & Hr).
  split; [congruence|]. destruct r as [success|e].
  - destruct Hr as [-> _]. split; [done|]. done.
  - destruct Hr as [Herr _]. split; [done|]. intros Hrenders.
    by rewrite Hrenders in Herr.
Qed.

Lemma download_media_file_broken_stream_witness :
  ∃ r w',
    download_media_file demo_broken_env "https://example.com/one.mp4"
      (Pathlib.of_string "one.mp4") demo_description empty_world
    = (r, w')
    ∧ fs w' = <[Pathlib.of_string "one.mp4" := File (String.concat "" ["part"])]>
                (fs empty_world)
    ∧ r ≠ Ok true
    ∧ (console_renders demo_broken_env
         (MsgDownloadFailed (Pathlib.name (Pathlib.of_string "one.mp4")))
       → r = Ok false).
Proof.
  apply (download_media_file_broken_stream demo_broken_env "https://example.com/one.mp4"
           (Pathlib.of_string "one.mp4") demo_description empty_world ["part"]).
  - reflexivity.
  - reflexivity.
  - intros H. vm_compute in H. discriminate H.
  - right. split; vm_compute; reflexivity.
Defined.

(** ** The whole call: edge and error behaviour *)

(** X5: on an empty batch the call prepares the folders, prints the banner
    and nothing else, fetches nothing, asks the storage service for nothing,
    and returns the empty list; when the folders cannot be prepared it raises
    without having printed anything. *)
Theorem download_media_async_empty_batch
    (env : Collaborators) (output_dir : option string)
    (cleanup_gcs organize_by_type : bool) (w : World) :
  let '(r, w') :=
    download_media_async_run env [] output_dir cleanup_gcs organize_by_type w in
  match r with
  | Ok run =>
      run = {| run_download_tasks := []; run_file_mapping := [];
               run_results := []; run_successful_downloads := [] |}
      ∧ log w'
        = log w ++ [EvConsole (MsgBanner organize_by_type (download_dir_of output_dir))]
  | Raise _ => log w' = log w
  end.
Proof.
  unfold download_media_async_run.
  unfold bind at 1.
  destruct (mkdir_exist_ok (download_dir_of output_dir) w) as [[[]|e] w0] eqn:H0;
    apply mkdir_exist_ok_effect in H0 as [Hlog0 _]; [|done].
  unfold bind at 1. destruct organize_by_type.
  - unfold bind at 1.
    destruct (create_media_folders (download_dir_of output_dir) w0) as [[folders|e] w1] eqn:H1;
      apply create_media_folders_spec in H1 as (Hlog1 & _); [|congruence].
    unfold console_print at 1. unfold bind at 1.
    destruct (console_error env (log w1) _) as [e|]; [congruence|].
    unfold emit, bind, ret. cbn -[bool_decide].
    change (filter_successful [] []) with (@nil (string * Path)).
    rewrite bool_decide_eq_true_2 by done. rewrite andb_false_r.
    cbn. split; [done|]. congruence.
  - unfold console_print at 1. unfold bind at 1.
    destruct (console_error env (log w0) _) as [e|]; [congruence|].
    unfold emit, bind, ret. cbn -[bool_decide].
    change (filter_successful [] []) with (@nil (string * Path)).
    rewrite bool_decide_eq_true_2 by done. rewrite andb_false_r.
    cbn. split; [done|]. congruence.
Qed.

Lemma download_media_async_empty_batch_witness :
  let '(r, w') :=
    download_media_async_run (demo_env true) [] None true true empty_world in
  match r with
  | Ok run =>
      run = {| run_download_tasks := []; run_file_mapping := [];
               run_results := []; run_successful_downloads := [] |}
      ∧ log w'
        = log empty_world ++ [EvConsole (MsgBanner true (download_dir_of None))]
  | Raise _ => log w' = log empty_world
  end.
Proof.
  exact (download_media_async_empty_batch (demo_env true) None true true empty_world).
Defined.

(** X9: one plain URL that [urlparse] rejects, such as one with an
    unbalanced bracket in its host, aborts the batch: the call raises, and no
    reference of the batch is fetched or deleted, the well-formed ones
    included. *)
Theorem unparsable_url_aborts_batch
    (env : Collaborators) (media_uris : list string) (output_dir : option string)
    (cleanup_gcs organize_by_type : bool) (w : World) (uri : string) (e : exn) :
  uri ∈ media_uris →
  PyStr.startswith uri "gs://" = false →
  Urllib.urlparse uri = Raise e →
  ∃ e' w',
    download_media_async_run env media_uris output_dir cleanup_gcs organize_by_type w
    = (Raise e', w')
    ∧ log_downloads (log w') = log_downloads (log w)
    ∧ log_deletes (log w') = log_deletes (log w).
Proof.
  intros Hin Hgs Hparse.
  apply download_media_async_run_aborts.
  intros media_folders wx r wy. apply prepare_loop_raises with (uri := uri); [|done].
  intros i w0 r0 w1 Hitem.
  unfold prepare_item, lift_result, bind, derive_filename in Hitem.
  rewrite Hgs, Hparse in Hitem. by simplify_eq.
Qed.

Lemma unparsable_url_aborts_batch_witness :
  ∃ e' w',
    download_media_async_run (demo_env true)
      ["https://example.com/one.mp4"; "http://[::1/x.mp4"] None true true empty_world
    = (Raise e', w')
    ∧ log_downloads (log w') = log_downloads (log empty_world)
    ∧ log_deletes (log w') = log_deletes (log empty_world).
Proof.
  apply (unparsable_url_aborts_batch (demo_env true)
           ["https://example.com/one.mp4"; "http://[::1/x.mp4"] None true true
           empty_world "http://[::1/x.mp4" ValueError).
  - apply list_elem_of_further, list_elem_of_here.
  - reflexivity.
  - vm_compute. reflexivity.
Defined.

(** ** The phases of a call *)

(** [solve_log] closes a goal on the events added to the log. *)
Ltac solve_log :=
  simpl; rewrite <- ?app_assoc;
  first [ by (exists []; rewrite app_nil_r)
        | eexists; split; [reflexivity | by repeat constructor] ].

Lemma console_preparing evs : Forall console_event evs → Forall preparing_event evs.
Proof. intros H. eapply Forall_impl; [done|]. by intros []. Qed.
Lemma console_fetching evs : Forall console_event evs → Forall fetching_event evs.
Proof. intros H. eapply Forall_impl; [done|]. by intros []. Qed.
Lemma console_cleaning evs : Forall console_event evs → Forall cleaning_event evs.
Proof. intros H. eapply Forall_impl; [done|]. by intros []. Qed.

Lemma console_print_log env m w r w' :
  console_print env m w = (r, w') →
  ∃ evs, log w' = log w ++ evs ∧ Forall console_event evs.
Proof.
  unfold console_print, emit. intros H.
  destruct (console_error env (log w) m); simplify_eq; solve_log.
Qed.

Lemma console_print_fs env m w r w' : console_print env m w = (r, w') → fs w' = fs w.
Proof.
  unfold console_print, emit. intros H.
  by destruct (console_error env (log w) m); simplify_eq.
Qed.

Lemma convert_gcs_uri_to_signed_url_log env gcs_uri w r w' :
  convert_gcs_uri_to_signed_url env gcs_uri w = (r, w') →
  ∃ evs, log w' = log w ++ evs ∧ Forall preparing_event evs.
Proof.
  intros H. unfold convert_gcs_uri_to_signed_url, storage_signed_url in H.
  step; solve_log.
Qed.

Lemma prepare_item_log env total organize_by_type media_folders download_dir i uri w r w' :
  prepare_item env total organize_by_type media_folders download_dir i uri w = (r, w') →
  (PyStr.startswith uri "gs://" = false → w' = w)
  ∧ ∃ evs, log w' = log w ++ evs ∧ Forall preparing_event evs.
Proof.
  unfold prepare_item, lift_result, bind.
  destruct (derive_filename i uri) as [filename|e];
    [|intros [= <- <-]; split; [done|]; exists []; by rewrite app_nil_r].
  destruct (target_filepath _ _ _ _) as [filepath|e];
    [|intros [= <- <-]; split; [done|]; exists []; by rewrite app_nil_r].
  destruct (PyStr.startswith uri "gs://").
  - intros H. split; [done|].
    destruct (console_print env MsgConverting w) as [r0 w0] eqn:H0.
    apply console_print_log in H0 as (evs0 & Hlog0 & Hevs0%console_preparing).
    destruct r0 as [[]|e]; [|simplify_eq; eauto].
    destruct (convert_gcs_uri_to_signed_url env uri w0) as [rc wc] eqn:Hconv.
    apply convert_gcs_uri_to_signed_url_log in Hconv as (evs & Hlog & Hevs).
    assert (∃ evs1, log wc = log w ++ evs1 ∧ Forall preparing_event evs1)
      as (evs1 & Hlog1 & Hevs1).
    { exists (evs0 ++ evs). rewrite Hlog, Hlog0, app_assoc. split; [done|].
      by apply Forall_app. }
    destruct rc as [o|e]; [|simplify_eq; eauto].
    destruct (from_option PyStr.truthy false o); unfold ret in H; [simplify_eq; eauto|].
    destruct (console_print env (MsgConvertFailed uri) wc) as [r2 w2] eqn:H2.
    apply console_print_log in H2 as (evs2 & Hlog2 & Hevs2%console_preparing).
    assert (w' = w2) as -> by (destruct r2; by simplify_eq).
    exists (evs1 ++ evs2). rewrite Hlog2, Hlog1, app_assoc. split; [done|].
    by apply Forall_app.
  - unfold ret. intros [= <- <-]. split; [done|]. exists []. by rewrite app_nil_r.
Qed.

Lemma prepare_loop_log env total organize_by_type media_folders download_dir media_uris :
  ∀ i download_tasks file_mapping w r w',
  prepare_loop env total organize_by_type media_folders download_dir i media_uris
    download_tasks file_mapping w = (r, w') →
  (Forall (λ uri, PyStr.startswith uri "gs://" = false) media_uris → w' = w)
  ∧ ∃ evs, log w' = log w ++ evs ∧ Forall preparing_event evs.
Proof.
  induction media_uris as [|uri rest IH]; intros i tasks fm w r w' H; simpl in H.
  - unfold ret in H. simplify_eq. split; [done|]. exists []. by rewrite app_nil_r.
  - unfold bind in H.
    destruct (prepare_item env _ _ _ _ i uri w) as [ri wi] eqn:Hitem.
    apply prepare_item_log in Hitem as (Hplain & evs & Hlog & Hevs).
    assert (∀ w1, (Forall (λ uri, PyStr.startswith uri "gs://" = false) rest → w1 = wi)
                     ∧ (∃ evs1, log w1 = log wi ++ evs1 ∧ Forall preparing_event evs1) →
              (Forall (λ uri, PyStr.startswith uri "gs://" = false) (uri :: rest) → w1 = w)
              ∧ ∃ evs2, log w1 = log w ++ evs2 ∧ Forall preparing_event evs2) as Hstep.
    { intros w1 (Hplain1 & evs1 & Hlog1 & Hevs1). split.
      - intros [Huri Hrest]%Forall_cons. rewrite (Hplain1 Hrest). auto.
      - exists (evs ++ evs1). rewrite Hlog1, Hlog, app_assoc. split; [done|].
        by apply Forall_app. }
    destruct ri as [[[t m]|]|e].
    + apply Hstep. by eapply IH.
    + apply Hstep. by eapply IH.
    + simplify_eq. apply Hstep. split; [done|]. exists []. by rewrite app_nil_r.
Qed.

Lemma download_media_file_log env url filepath description w r w' :
  download_media_file env url filepath description w = (r, w') →
  ∃ evs, log w' = log w ++ evs ∧ Forall fetching_event evs.
Proof.
  intros H. pose proof (download_media_file_cases env url filepath description w) as Hcases.
  cbv zeta in Hcases. cbn [log] in Hcases.
  assert (∀ wx evs rx wx',
            log wx = log w ++ evs → Forall fetching_event evs →
            bind (console_print env (MsgDownloadFailed (Pathlib.name filepath)))
              (λ _, ret false) wx = (rx, wx') →
            ∃ evs', log wx' = log w ++ evs' ∧ Forall fetching_event evs') as Hfailed.
  { intros wx evs rx wx' Hlog Hevs Hf.
    apply report_failure_effect in Hf as (_ & (evs1 & Hlog1 & Hevs1%console_fetching) & _).
    exists (evs ++ evs1). rewrite Hlog1, Hlog, app_assoc. split; [done|].
    by apply Forall_app. }
  assert (∀ wx evs,
            log wx = log w ++ evs → Forall fetching_event evs →
            ∃ evs', log (console_print env (MsgProgressStop description) wx).2
                    = log w ++ evs' ∧ Forall fetching_event evs') as Hstopped.
  { intros wx evs Hlog Hevs.
    destruct (progress_stop_effect env description wx)
      as (w1 & -> & _ & evs1 & Hlog1 & Hevs1%console_fetching).
    exists (evs ++ evs1). rewrite Hlog1, Hlog, app_assoc. split; [done|].
    by apply Forall_app. }
  destruct (session_get env _ url) as [|chunks complete].
  { rewrite Hcases in H. eapply Hfailed in H; [done|done|]. by repeat constructor. }
  destruct (console_error env _ (MsgProgressStart description)) as [e|].
  { rewrite Hcases in H. eapply Hfailed in H; [done|done|]. by repeat constructor. }
  destruct (open_wb filepath _) as [[[]|e] w1]; rewrite Hcases in H; clear Hcases.
  - match type of H with
    | context [console_print env (MsgProgressStop description) ?wx] =>
        destruct (Hstopped wx
                    [EvDownload url filepath description;
                     EvConsole (MsgProgressStart description)])
          as (evs2 & Hlog2 & Hevs2);
          [simpl; by rewrite <- app_assoc|by repeat constructor|]
    end.
    destruct (console_error env _ (MsgProgressStop description)) as [e|];
      [by eapply Hfailed in H|].
    destruct complete; [simplify_eq; eauto|by eapply Hfailed in H].
  - match type of H with
    | context [console_print env (MsgProgressStop description) ?wx] =>
        destruct (Hstopped wx
                    [EvDownload url filepath description;
                     EvConsole (MsgProgressStart description)])
          as (evs2 & Hlog2 & Hevs2);
          [simpl; by rewrite <- app_assoc|by repeat constructor|]
    end.
    by eapply Hfailed in H.
Qed.

Lemma gather_log env download_tasks :
  ∀ w r w', gather env download_tasks w = (r, w') →
  ∃ evs, log w' = log w ++ evs ∧ Forall fetching_event evs.
Proof.
  induction download_tasks as [|task rest IH]; intros w r w' H; simpl in H.
  - unfold ret in H. simplify_eq. exists []. by rewrite app_nil_r.
  - unfold bind in H.
    destruct (download_media_file env _ _ _ w) as [r1 w1] eqn:H1.
    apply download_media_file_log in H1 as (evs1 & Hlog1 & Hevs1).
    destruct r1 as [success|e]; [|simplify_eq; eauto].
    destruct (gather env rest w1) as [r2 w2] eqn:H2.
    apply IH in H2 as (evs2 & Hlog2 & Hevs2).
    assert (w' = w2) as -> by (destruct r2; unfold ret in H; by simplify_eq).
    exists (evs1 ++ evs2).
    rewrite Hlog2, Hlog1, app_assoc. split; [done|]. by apply Forall_app.
Qed.

Lemma delete_gcs_file_log env gcs_uri w r w' :
  delete_gcs_file env gcs_uri w = (r, w') →
  ∃ evs, log w' = log w ++ evs ∧ Forall cleaning_event evs.
Proof.
  intros H. unfold delete_gcs_file, storage_delete in H.
  step; solve_log.
Qed.

Lemma cleanup_loop_log env successful_downloads :
  ∀ cleanup_count w r w',
  cleanup_loop env successful_downloads cleanup_count w = (r, w') →
  ∃ evs, log w' = log w ++ evs ∧ Forall cleaning_event evs.
Proof.
  induction successful_downloads as [|[original_uri local_path] rest IH];
    intros n w r w' H; simpl in H.
  - unfold ret in H. simplify_eq. exists []. by rewrite app_nil_r.
  - destruct (PyStr.startswith original_uri "gs://"); [|by eapply IH].
    unfold bind in H.
    destruct (delete_gcs_file env original_uri w) as [r1 w1] eqn:H1.
    apply delete_gcs_file_log in H1 as (evs1 & Hlog1 & Hevs1).
    destruct r1 as [deleted|e]; [|simplify_eq; eauto].
    apply IH in H as (evs2 & Hlog2 & Hevs2).
    exists (evs1 ++ evs2). rewrite Hlog2, Hlog1, app_assoc. split; [done|].
    by apply Forall_app.
Qed.

Lemma omap_none {A B} (f : A → option B) (l : list A) :
  Forall (λ x, f x = None) l → omap f l = [].
Proof. induction 1 as [|x l Hx _ IH]; [done|]. simpl. by rewrite Hx. Qed.

Lemma download_media_async_run_log
    env media_uris output_dir cleanup_gcs organize_by_type w r w' :
  download_media_async_run env media_uris output_dir cleanup_gcs organize_by_type w
  = (r, w') →
  ∃ preparing fetching cleaning,
    log w' = log w ++ preparing ++ fetching ++ cleaning
    ∧ Forall preparing_event preparing
    ∧ Forall fetching_event fetching
    ∧ Forall cleaning_event cleaning
    ∧ (Forall (λ uri, PyStr.startswith uri "gs://" = false) media_uris →
       Forall console_event preparing).
Proof.
  intros H. unfold download_media_async_run in H.
  unfold bind at 1 in H.
  destruct (mkdir_exist_ok (download_dir_of output_dir) w) as [r0 w0] eqn:H0.
  apply mkdir_exist_ok_effect in H0 as (Hlog0 & _).
  destruct r0 as [[]|e];
    [|simplify_eq; exists [], [], []; rewrite !app_nil_r; by repeat split].
  unfold bind at 1 in H.
  match type of H with
  | (match ?x with pair _ _ => _ end) = _ => destruct x as [r1 w1] eqn:H1
  end.
  assert (∃ evs1, log w1 = log w ++ evs1 ∧ Forall console_event evs1)
    as (evs1 & Hlog1 & Hevs1).
  { rewrite <- Hlog0. destruct organize_by_type.
    - unfold bind at 1 in H1.
      destruct (create_media_folders (download_dir_of output_dir) w0) as [rc wc] eqn:Hc.
      apply create_media_folders_spec in Hc as (Hlogc & _). rewrite <- Hlogc.
      destruct rc as [folders|e]; [|simplify_eq; exists []; by rewrite app_nil_r].
      unfold bind in H1.
      destruct (console_print env _ wc) as [rb wb] eqn:Hb.
      apply console_print_log in Hb.
      assert (w1 = wb) as -> by (destruct rb; unfold ret in H1; by simplify_eq).
      done.
    - unfold bind in H1.
      destruct (console_print env _ w0) as [rb wb] eqn:Hb.
      apply console_print_log in Hb.
      assert (w1 = wb) as -> by (destruct rb; unfold ret in H1; by simplify_eq).
      done. }
  destruct r1 as [folders|e].
  2:{ simplify_eq. exists evs1, [], []. rewrite !app_nil_r.
      split; [done|]. split; [by apply console_preparing|]. by repeat split. }
  unfold bind at 1 in H.
  destruct (prepare_loop env _ _ _ _ 1 media_uris [] [] w1) as [r2 w2] eqn:H2.
  apply prepare_loop_log in H2 as (Hplain & evs2 & Hlog2 & Hevs2).
  assert (Forall preparing_event (evs1 ++ evs2)) as Hpreparing.
  { apply Forall_app. split; [by apply console_preparing|done]. }
  assert (Forall (λ uri, PyStr.startswith uri "gs://" = false) media_uris →
          Forall console_event (evs1 ++ evs2)) as Hconsole.
  { intros Hall. rewrite (Hplain Hall) in Hlog2.
    rewrite <- (app_nil_r (log w1)) in Hlog2 at 1.
    apply app_inv_head in Hlog2 as <-. by rewrite app_nil_r. }
  destruct r2 as [[download_tasks file_mapping]|e].
  2:{ simplify_eq. exists (evs1 ++ evs2), [], []. rewrite !app_nil_r.
      rewrite Hlog2, Hlog1, <- app_assoc. by repeat split. }
  unfold bind at 1 in H.
  destruct (gather env download_tasks w2) as [r3 w3] eqn:H3.
  apply gather_log in H3 as (evs3 & Hlog3 & Hevs3).
  destruct r3 as [results|e].
  2:{ simplify_eq. exists (evs1 ++ evs2), evs3, []. rewrite !app_nil_r.
      rewrite Hlog3, Hlog2, Hlog1, <- !app_assoc. by repeat split. }
  unfold bind at 1 in H.
  match type of H with
  | (match ?x with pair _ _ => _ end) = _ => destruct x as [r4 w4] eqn:H4
  end.
  assert (∃ evs4, log w4 = log w3 ++ evs4 ∧ Forall cleaning_event evs4) as (evs4 & Hlog4 & Hevs4).
  { destruct (cleanup_gcs && _).
    - unfold bind at 1 in H4.
      destruct (console_print env MsgCleaningUp w3) as [ra wa] eqn:Ha.
      apply console_print_log in Ha as (evsa & Hloga & Hevsa%console_cleaning).
      destruct ra as [[]|e]; [|simplify_eq; eauto].
      unfold bind at 1 in H4.
      destruct (cleanup_loop env _ 0 _) as [rc wc] eqn:Hc.
      apply cleanup_loop_log in Hc as (evsc & Hlogc & Hevsc).
      assert (∃ evs, log wc = log w3 ++ evs ∧ Forall cleaning_event evs)
        as (evs & Hlog & Hevs).
      { exists (evsa ++ evsc). rewrite Hlogc, Hloga, app_assoc. split; [done|].
        by apply Forall_app. }
      destruct rc as [n|e]; [|simplify_eq; eauto].
      destruct (0 <? n); [|unfold ret in H4; simplify_eq; eauto].
      apply console_print_log in H4 as (evsb & Hlogb & Hevsb%console_cleaning).
      exists (evs ++ evsb). rewrite Hlogb, Hlog, app_assoc. split; [done|].
      by apply Forall_app.
    - unfold ret in H4. simplify_eq. exists []. by rewrite app_nil_r. }
  exists (evs1 ++ evs2), evs3, evs4.
  assert (log w' = log w4) as ->.
  { destruct r4; unfold ret in H; by simplify_eq. }
  rewrite Hlog4, Hlog3, Hlog2, Hlog1, <- !app_assoc.
  by repeat split.
Qed.

Lemma preparing_no_download e : preparing_event e → download_of e = None.
Proof. by destruct e. Qed.
Lemma cleaning_no_download e : cleaning_event e → download_of e = None.
Proof. by destruct e. Qed.
Lemma console_no_signed_url e : console_event e → signed_url_of e = None.
Proof. by destruct e. Qed.
Lemma fetching_no_signed_url e : fetching_event e → signed_url_of e = None.
Proof. by destruct e. Qed.
Lemma cleaning_no_signed_url e : cleaning_event e → signed_url_of e = None.
Proof. by destruct e. Qed.

(** X10: a call goes through three phases, in this order and without
    overlap: preparing, which prints and asks for signed URLs; fetching,
    which prints and fetches; cleaning up, which prints and deletes.  So
    every signed URL is asked for before the first fetch starts and every
    deletion comes after the last fetch.  The fetches are those of the tasks,
    in their order, and each task has its result. *)
Theorem call_runs_in_three_phases
    (env : Collaborators) (media_uris : list string) (output_dir : option string)
    (cleanup_gcs organize_by_type : bool) (w : World) (r : result Run) (w' : World) :
  download_media_async_run env media_uris output_dir cleanup_gcs organize_by_type w
  = (r, w') →
  ∃ preparing fetching cleaning,
    log w' = log w ++ preparing ++ fetching ++ cleaning
    ∧ Forall preparing_event preparing
    ∧ Forall fetching_event fetching
    ∧ Forall cleaning_event cleaning
    ∧ ∀ run, r = Ok run →
        log_downloads fetching = run_download_tasks run
        ∧ length (run_results run) = length (run_download_tasks run).
Proof.
  intros H.
  destruct (download_media_async_run_log _ _ _ _ _ _ _ _ H)
    as (preparing & fetching & cleaning & Hlog & Hp & Hf & Hc & _).
  exists preparing, fetching, cleaning. repeat split; try done.
  - pose proof (download_media_async_run_spec env _ _ _ _ _ _ _ H) as [_ Hspec].
    subst r. destruct Hspec as (items & failures & _ & _ & _ & _ & _ & Hd & _).
    rewrite Hlog in Hd. unfold log_downloads in *. rewrite !omap_app in Hd.
    apply app_inv_head in Hd.
    rewrite (omap_none download_of preparing) in Hd
      by (eapply Forall_impl; [exact Hp|apply preparing_no_download]).
    rewrite (omap_none download_of cleaning) in Hd
      by (eapply Forall_impl; [exact Hc|apply cleaning_no_download]).
    by rewrite app_nil_r in Hd.
  - pose proof (download_media_async_run_spec env _ _ _ _ _ _ _ H) as [_ Hspec].
    subst r. destruct Hspec as (items & failures & _ & -> & _ & -> & _).
    by rewrite length_fmap.
Qed.

Lemma call_runs_in_three_phases_witness :
  ∃ r w' preparing fetching cleaning,
    download_media_async_run (demo_env true) demo_mixed (Some "out") true true empty_world
    = (r, w')
    ∧ log w' = log empty_world ++ preparing ++ fetching ++ cleaning
    ∧ Forall preparing_event preparing
    ∧ Forall fetching_event fetching
    ∧ Forall cleaning_event cleaning.
Proof.
  run_demo (download_media_async_run (demo_env true) demo_mixed (Some "out") true true
              empty_world) Hrun.
  match type of Hrun with
  | _ = (?r, ?w') =>
      destruct (call_runs_in_three_phases _ _ _ _ _ _ _ _ Hrun)
        as (preparing & fetching & cleaning & Hlog & Hp & Hf & Hc & _);
      exists r, w', preparing, fetching, cleaning
  end.
  split; [exact Hrun|]. split; [exact Hlog|]. split; [exact Hp|]. split; [exact Hf|exact Hc].
Defined.

Lemma loop_trace_plain env total organize_by_type media_folders download_dir
    i media_uris items failures :
  loop_trace env total organize_by_type media_folders download_dir
    i media_uris items failures →
  Forall (λ uri, PyStr.startswith uri "gs://" = false) media_uris →
  failures = [] ∧ task_url <$> items.*1 = media_uris ∧ items.*2.*1 = media_uris.
Proof.
  induction 1 as [|? ? ? ? ? Hgs ? IH|? uri ? t m ? ? Hprep ? IH];
    intros Hall; [done|..]; apply Forall_cons in Hall as [Huri Hall].
  - congruence.
  - destruct (IH Hall) as (-> & Hurls & Huris). split; [done|].
    destruct Hprep as (filename & _ & _ & Hm & _ & _ & Hurl). rewrite Huri in Hurl.
    split; simpl; f_equal; done.
Qed.

(** X6: a batch of plain URLs never involves the storage service: no signed
    URL is asked for and nothing is deleted, also with cleanup on.  Every
    reference gets a task, which fetches the reference itself, and the tasks,
    the pairs and the results follow the order of the batch. *)
Theorem plain_urls_need_no_storage
    (env : Collaborators) (media_uris : list string) (output_dir : option string)
    (cleanup_gcs organize_by_type : bool) (w : World) (r : result Run) (w' : World) :
  Forall (λ uri, PyStr.startswith uri "gs://" = false) media_uris →
  download_media_async_run env media_uris output_dir cleanup_gcs organize_by_type w
  = (r, w') →
  log_signed_urls (log w') = log_signed_urls (log w)
  ∧ log_deletes (log w') = log_deletes (log w)
  ∧ ∀ run, r = Ok run →
      task_url <$> run_download_tasks run = media_uris
      ∧ (run_file_mapping run).*1 = media_uris
      ∧ length (run_results run) = length media_uris.
Proof.
  intros Hplain H.
  destruct (download_media_async_run_log _ _ _ _ _ _ _ _ H)
    as (preparing & fetching & cleaning & Hlog & _ & Hf & Hc & Hp).
  specialize (Hp Hplain).
  pose proof (download_media_async_run_spec env _ _ _ _ _ _ _ H) as [_ Hspec].
  split; [|split].
  - rewrite Hlog. unfold log_signed_urls. rewrite !omap_app.
    rewrite (omap_none signed_url_of preparing)
      by (eapply Forall_impl; [exact Hp|apply console_no_signed_url]).
    rewrite (omap_none signed_url_of fetching)
      by (eapply Forall_impl; [exact Hf|apply fetching_no_signed_url]).
    rewrite (omap_none signed_url_of cleaning)
      by (eapply Forall_impl; [exact Hc|apply cleaning_no_signed_url]).
    by rewrite !app_nil_r.
  - assert (∀ uris : list string,
              uris `sublist_of` media_uris → omap (issued_delete env) uris = [])
      as Hnone.
    { intros uris Hsub. apply omap_none, Forall_forall. intros uri Hin.
      assert (uri ∈ media_uris) as Hin' by (by eapply sublist_subseteq).
      rewrite Forall_forall in Hplain. unfold issued_delete.
      by rewrite (Hplain uri Hin'), andb_false_r. }
    destruct r as [run|e].
    + destruct Hspec as (items & failures & Htrace & _ & Hmap & _ & Hsucc & _ & _ & Hx & _).
      rewrite Hx. destruct cleanup_gcs; [|by rewrite app_nil_r].
      rewrite Hnone; [by rewrite app_nil_r|].
      destruct (loop_trace_plain _ _ _ _ _ _ _ _ _ Htrace Hplain) as (_ & _ & <-).
      rewrite <- Hmap, Hsucc. apply fmap_sublist, filter_successful_sublist.
    + destruct Hspec as (deleted_for & Hsub & _ & Hx & _).
      rewrite Hx. destruct cleanup_gcs; [|by rewrite app_nil_r].
      by rewrite (Hnone _ Hsub), app_nil_r.
  - intros run ->.
    destruct Hspec as (items & failures & Htrace & Htasks & Hmap & Hlen & _).
    destruct (loop_trace_plain _ _ _ _ _ _ _ _ _ Htrace Hplain) as (_ & Hurls & Huris).
    rewrite Htasks, Hmap, Hlen. split; [done|]. split; [done|].
    by rewrite <- Huris, !length_fmap.
Qed.

Lemma plain_urls_need_no_storage_witness :
  ∃ r w',
    download_media_async_run (demo_env true) demo_three None true true empty_world
    = (r, w')
    ∧ log_signed_urls (log w') = log_signed_urls (log empty_world)
    ∧ log_deletes (log w') = log_deletes (log empty_world).
Proof.
  run_demo (download_media_async_run (demo_env true) demo_three None true true
              empty_world) Hrun.
  assert (Forall (λ uri, PyStr.startswith uri "gs://" = false) demo_three) as Hplain.
  { apply Forall_forall. intros uri Hin. unfold demo_three in Hin.
    rewrite !elem_of_cons, elem_of_nil in Hin.
    destruct Hin as [->|[->|[->|[]]]]; reflexivity. }
  match type of Hrun with
  | _ = (?r, ?w') =>
      exists r, w';
      destruct (plain_urls_need_no_storage _ _ _ _ _ _ _ _ Hplain Hrun) as (Hs & Hd & _)
  end.
  split; [exact Hrun|]. split; [exact Hs|exact Hd].
Defined.







(** ** Storage references *)









(** ** Preparing the folders: when it fails *)

Lemma mkdir_exist_ok_raise_kind p w e w1 :
  mkdir_exist_ok p w = (Raise e, w1) →
  fs_lookup (fs w) (Pathlib.parent p) = Some Dir →
  e = FileExistsError ∧ ∃ content, fs_lookup (fs w) p = Some (File content).
Proof.
  unfold mkdir_exist_ok. intros H Hparent.
  destruct (fs_lookup (fs w) p) as [[|content]|]; simplify_eq; [by eauto|].
  by rewrite Hparent in H.
Qed.

Lemma fs_lookup_file_kept (f f1 : gmap Path node) p content :
  (∀ q, is_file f q → is_file f1 q) →
  fs_lookup f p = Some (File content) →
  ∃ content1, fs_lookup f1 p = Some (File content1).
Proof.
  unfold fs_lookup. intros Hkept Hfile.
  destruct (parts p); [done|]. apply Hkept. by exists content.
Qed.

Lemma create_type_folders_raise_kind base_dir media_types :
  Forall (λ name, Pathlib.of_string name = {| anchor := ""; parts := [name] |}) media_types →
  ∀ folders w e w1,
  fs_lookup (fs w) base_dir = Some Dir →
  create_type_folders base_dir media_types folders w = (Raise e, w1) →
  e = FileExistsError.
Proof.
  induction 1 as [|name rest Hname _ IH]; intros folders w e w1 Hbase H; simpl in H.
  - by unfold ret in H.
  - unfold bind in H. destruct (mkdir_exist_ok _ w) as [[[]|e0] wa] eqn:Ha.
    + eapply IH; [|exact H]. by eapply mkdir_exist_ok_keeps_dir.
    + simplify_eq. eapply mkdir_exist_ok_raise_kind; [exact Ha|].
      by rewrite parent_joinpath_component.
Qed.

(** How [create_media_folders] ends on an existing base directory. *)
Lemma create_media_folders_cases (base_dir : Path) (w : World) :
  fs_lookup (fs w) base_dir = Some Dir →
  let '(r, w1) := create_media_folders base_dir w in
  match r with
  | Ok folders =>
      folders = media_folders_of base_dir
      ∧ Forall (λ name, not_a_file (fs w) (base_dir // name))
          ["videos"; "images"; "audios"; "unknown"]
  | Raise e =>
      e = FileExistsError
      ∧ Exists (λ name, ∃ content, fs_lookup (fs w) (base_dir // name) = Some (File content))
          ["videos"; "images"; "audios"; "unknown"]
      ∧ log w1 = log w
  end.
Proof.
  intros Hbase.
  destruct (create_media_folders base_dir w) as [r w1] eqn:H.
  pose proof (create_media_folders_spec _ _ _ _ H) as (Hlog & Hfiles & Hfolders).
  assert (Forall (λ name, not_a_file (fs w) (base_dir // name))
            ["videos"; "images"; "audios"; "unknown"]
          ∨ Exists (λ name, ∃ content,
                      fs_lookup (fs w) (base_dir // name) = Some (File content))
              ["videos"; "images"; "audios"; "unknown"]) as Hcases.
  { assert (∀ name, not_a_file (fs w) (base_dir // name)
                    ∨ ∃ content, fs_lookup (fs w) (base_dir // name) = Some (File content))
      as Hdec.
    { intros name. unfold not_a_file.
      destruct (fs_lookup (fs w) (base_dir // name)) as [[|content]|]; eauto. }
    destruct (Hdec "videos"); [|right; by apply Exists_cons_hd].
    destruct (Hdec "images"); [|right; by apply Exists_cons_tl, Exists_cons_hd].
    destruct (Hdec "audios"); [|right; by do 2 apply Exists_cons_tl; apply Exists_cons_hd].
    destruct (Hdec "unknown"); [|right; by do 3 apply Exists_cons_tl; apply Exists_cons_hd].
    left. by repeat constructor. }
  destruct r as [folders|e].
  - split; [by apply Hfolders|].
    destruct Hcases as [Hfree|Htaken]; [done|]. exfalso.
    apply Exists_exists in Htaken as (name & Hin & content & Hfile).
    destruct (fs_lookup_file_kept _ (fs w1) _ _ Hfiles Hfile) as [content1 Hfile1].
    assert (fs_lookup (fs w1) (base_dir // name) = Some Dir) as Hdir; [|congruence].
    unfold create_media_folders, bind in H.
    destruct (create_type_folders _ _ _ w) as [[folders0|e] wa] eqn:Ha; [|done].
    pose proof (create_type_folders_dirs _ _ _ _ _ _ Ha) as Hdirs.
    destruct (mkdir_exist_ok _ wa) as [[[]|e] wb] eqn:Hb; unfold ret in H; simplify_eq.
    rewrite !elem_of_cons, elem_of_nil in Hin.
    rewrite Forall_forall in Hdirs.
    destruct Hin as [->|[->|[->|[->|[]]]]];
      try exact (mkdir_exist_ok_dir _ _ _ Hb);
      (eapply mkdir_exist_ok_keeps_dir; [exact Hb|]); apply Hdirs; simpl;
      rewrite !elem_of_cons; auto.
  - split; [|split; [|done]].
    + unfold create_media_folders, bind in H.
      destruct (create_type_folders _ _ _ w) as [[folders0|e0] wa] eqn:Ha.
      * destruct (mkdir_exist_ok _ wa) as [[[]|e1] wb] eqn:Hb; unfold ret in H; simplify_eq.
        eapply mkdir_exist_ok_raise_kind; [exact Hb|].
        rewrite parent_joinpath_component by done.
        by eapply create_type_folders_keeps_dir.
      * simplify_eq. eapply (create_type_folders_raise_kind base_dir (MEDIA_TYPES.*1));
          [by repeat constructor|exact Hbase|exact Ha].
    + destruct Hcases as [Hfree|Htaken]; [|done]. exfalso.
      destruct (create_media_folders_succeeds base_dir w Hbase Hfree) as [w2 Hok].
      congruence.
Qed.

(** X17: how [create_media_folders] ends when the base directory exists.
    It returns the dict of the four folders exactly when none of the four
    names under the base directory is taken by a regular file; otherwise it
    raises [FileExistsError], and it has printed nothing. *)
Theorem create_media_folders_outcome (base_dir : Path) (w : World) :
  fs_lookup (fs w) base_dir = Some Dir →
  let '(r, w1) := create_media_folders base_dir w in
  match r with
  | Ok folders =>
      folders = media_folders_of base_dir
      ∧ Forall (λ name, not_a_file (fs w) (base_dir // name))
          ["videos"; "images"; "audios"; "unknown"]
  | Raise e =>
      e = FileExistsError
      ∧ Exists (λ name, ∃ content, fs_lookup (fs w) (base_dir // name) = Some (File content))
          ["videos"; "images"; "audios"; "unknown"]
      ∧ log w1 = log w
  end.
Proof. apply create_media_folders_cases. Qed.

Lemma create_media_folders_outcome_witness :
  let '(r, w1) :=
    create_media_folders (Pathlib.of_string "downloaded_media") demo_world in
  match r with
  | Ok folders =>
      folders = media_folders_of (Pathlib.of_string "downloaded_media")
      ∧ Forall (λ name, not_a_file (fs demo_world)
                          (Pathlib.of_string "downloaded_media" // name))
          ["videos"; "images"; "audios"; "unknown"]
  | Raise e =>
      e = FileExistsError
      ∧ Exists (λ name, ∃ content,
                  fs_lookup (fs demo_world)
                    (Pathlib.of_string "downloaded_media" // name)
                  = Some (File content))
          ["videos"; "images"; "audios"; "unknown"]
      ∧ log w1 = log demo_world
  end.
Proof.
  apply (create_media_folders_outcome (Pathlib.of_string "downloaded_media") demo_world).
  vm_compute. reflexivity.
Defined.

(** X8: a download directory that cannot be prepared is fatal to the whole
    batch.  When a regular file is at the path of the download directory,
    or nothing is there and its parent is no directory, or the call
    organizes by type and one of the four folder names under it is taken by
    a regular file, [download_media] raises [FileExistsError],
    [NotADirectoryError] or [FileNotFoundError], and up to then nothing was
    printed, asked of the storage service or fetched. *)
Theorem directory_failure_is_fatal
    (env : Collaborators) (media_uris : list string) (output_dir : option string)
    (cleanup_gcs organize_by_type : bool) (w : World) :
  let download_dir := download_dir_of output_dir in
  (∃ content, fs_lookup (fs w) download_dir = Some (File content))
  ∨ (fs_lookup (fs w) download_dir = None
     ∧ fs_lookup (fs w) (Pathlib.parent download_dir) ≠ Some Dir)
  ∨ (organize_by_type = true
     ∧ fs_lookup (fs w) download_dir = Some Dir
     ∧ Exists (λ name, ∃ content,
                 fs_lookup (fs w) (download_dir // name) = Some (File content))
         ["videos"; "images"; "audios"; "unknown"]) →
  ∃ e w',
    download_media env media_uris output_dir cleanup_gcs organize_by_type w
    = (Raise e, w')
    ∧ e ∈ [FileExistsError; NotADirectoryError; FileNotFoundError]
    ∧ log w' = log w.
Proof.
  intros download_dir Hcases.
  assert (∀ e w',
            download_media_async_run env media_uris output_dir cleanup_gcs
              organize_by_type w = (Raise e, w') →
            download_media env media_uris output_dir cleanup_gcs organize_by_type w
            = (Raise e, w')) as Hwrap.
  { intros e w' H. unfold download_media, download_media_async, bind. by rewrite H. }
  assert (∀ e, mkdir_exist_ok download_dir w = (Raise e, w) →
               download_media_async_run env media_uris output_dir cleanup_gcs
                 organize_by_type w = (Raise e, w)) as Hmkdir.
  { intros e H. unfold download_media_async_run. fold download_dir.
    unfold bind at 1. by rewrite H. }
  destruct Hcases as [[content Hfile]|[[Hnone Hparent]|(-> & Hdir & Htaken)]].
  - exists FileExistsError, w. split; [|split; [|done]].
    + apply Hwrap, Hmkdir. unfold mkdir_exist_ok. by rewrite Hfile.
    + apply list_elem_of_here.
  - destruct (fs_lookup (fs w) (Pathlib.parent download_dir)) as [[|content]|] eqn:Hp;
      [done| |].
    + exists NotADirectoryError, w. split; [|split; [|done]].
      * apply Hwrap, Hmkdir. unfold mkdir_exist_ok. by rewrite Hnone, Hp.
      * rewrite !elem_of_cons. auto.
    + exists FileNotFoundError, w. split; [|split; [|done]].
      * apply Hwrap, Hmkdir. unfold mkdir_exist_ok. by rewrite Hnone, Hp.
      * rewrite !elem_of_cons. auto.
  - pose proof (create_media_folders_cases download_dir w Hdir) as Hcreate.
    destruct (create_media_folders download_dir w) as [[folders|e] w1] eqn:H1.
    + destruct Hcreate as [_ Hfree]. exfalso.
      apply Exists_exists in Htaken as (name & Hin & content & Hfile).
      rewrite Forall_forall in Hfree. by apply (Hfree name Hin content).
    + destruct Hcreate as (-> & _ & Hlog).
      exists FileExistsError, w1. split; [|split; [|done]].
      * apply Hwrap. unfold download_media_async_run. fold download_dir.
        unfold bind at 1. unfold mkdir_exist_ok at 1. rewrite Hdir.
        unfold bind at 1. unfold bind at 1. by rewrite H1.
      * apply list_elem_of_here.
Qed.

Lemma directory_failure_is_fatal_witness :
  ∃ e w',
    download_media (demo_env true) demo_three None true true demo_taken_world
    = (Raise e, w')
    ∧ e ∈ [FileExistsError; NotADirectoryError; FileNotFoundError]
    ∧ log w' = log demo_taken_world.
Proof.
  apply (directory_failure_is_fatal (demo_env true) demo_three None true true
           demo_taken_world).
  left. exists "notes". vm_compute. reflexivity.
Defined.

(** ** Filenames are single path components *)

Lemma split_without_sep sep s :
  PyStr.contains sep s = false → PyStr.split sep s = [s].
Proof.
  induction s as [|c s IH]; simpl; [done|].
  intros [-> Hs]%orb_false_iff. by rewrite (IH Hs).
Qed.

Lemma split_components sep s :
  Forall (λ c, PyStr.contains sep c = false) (PyStr.split sep s).
Proof.
  induction s as [|c s IH]; simpl; [by repeat constructor|].
  destruct (Ascii.eqb c sep) eqn:Hc; [by constructor|].
  destruct (PyStr.split sep s) as [|h t]; [by repeat constructor; simpl; rewrite Hc|].
  apply Forall_cons in IH as [Hh Ht]. constructor; [|done]. simpl. by rewrite Hc.
Qed.

Lemma count_leading_without c s :
  PyStr.contains c s = false → Pathlib.count_leading c s = 0.
Proof. destruct s as [|a s]; simpl; [done|]. by intros [-> _]%orb_false_iff. Qed.

Lemma of_string_single_component s :
  single_component s → Pathlib.of_string s = {| anchor := ""; parts := [s] |}.
Proof.
  intros [Hslash Hkeep]. unfold Pathlib.of_string, Pathlib.splitroot.
  rewrite count_leading_without, split_without_sep by done. simpl. by rewrite Hkeep.
Qed.

Lemma joinpath_single_component p s :
  single_component s →
  p // s = {| anchor := anchor p; parts := parts p ++ [s] |}.
Proof.
  intros Hs. unfold Pathlib.joinpath. by rewrite of_string_single_component.
Qed.

Lemma name_of_string s :
  Pathlib.name (Pathlib.of_string s) = "" ∨ single_component (Pathlib.name (Pathlib.of_string s)).
Proof.
  unfold Pathlib.name, Pathlib.of_string. simpl.
  pose proof (split_components "/" s) as Hall.
  induction (PyStr.split "/" s) as [|c l IH]; simpl; [by left|].
  apply Forall_cons in Hall as [Hc Hall].
  destruct (Pathlib.keep_component c) eqn:Hkeep; [|by apply IH].
  simpl. destruct (List.filter Pathlib.keep_component l) as [|c' l'] eqn:Hl.
  - right. done.
  - apply IH in Hall. simpl in Hall. done.
Qed.

Lemma pretty_N_go_no_slash x : ∀ s,
  PyStr.contains "/" (pretty_N_go x s) = PyStr.contains "/" s.
Proof.
  induction (N.lt_wf_0 x) as [x _ IH]; intros s.
  destruct (decide (0 < x)%N) as [Hpos|Hzero].
  - rewrite pretty_N_go_step by done. rewrite IH by (by apply N.div_lt).
    simpl. unfold pretty_N_char. by repeat case_match.
  - assert (x = 0%N) as -> by lia. by rewrite pretty_N_go_0.
Qed.

Lemma pretty_nat_no_slash (i : nat) : PyStr.contains "/" (pretty i) = false.
Proof.
  unfold pretty, pretty_nat, pretty, pretty_N.
  destruct (decide _); [done|]. by rewrite pretty_N_go_no_slash.
Qed.

Lemma media_name_single_component (i : nat) : single_component ("media_" +:+ pretty i).
Proof.
  split.
  - change ("media_" +:+ pretty i) with
      (String "m" (String "e" (String "d" (String "i" (String "a" (String "_" (pretty i))))))).
    simpl. apply pretty_nat_no_slash.
  - reflexivity.
Qed.

Lemma derive_filename_component i uri filename :
  derive_filename i uri = Ok filename → filename = "" ∨ single_component filename.
Proof.
  unfold derive_filename.
  destruct (PyStr.startswith uri "gs://").
  - destruct (1 <? _); intros [= <-].
    + apply name_of_string.
    + right. apply media_name_single_component.
  - destruct (Urllib.urlparse uri) as [parsed|]; [|done].
    destruct (PyStr.truthy _) eqn:Htruthy; simpl; intros [= <-].
    + destruct (name_of_string (Urllib.path parsed)) as [Hempty|?]; [|by right].
      by rewrite Hempty in Htruthy.
    + right. apply media_name_single_component.
Qed.

(** ** Where the downloads land *)

Lemma is_dir_insert_file (f : gmap Path node) p content q :
  fs_lookup f p ≠ Some Dir → is_dir f q → is_dir (<[p := File content]> f) q.
Proof.
  unfold is_dir, fs_lookup. intros Hp Hq.
  destruct (parts q) eqn:Hparts; [done|].
  rewrite lookup_insert. case_decide as Heq; [|done].
  subst q. by rewrite Hparts in Hp.
Qed.

Lemma dir_of_insert_file (f : gmap Path node) p content q :
  <[p := File content]> f !! q = Some Dir → f !! q = Some Dir.
Proof. rewrite lookup_insert. by case_decide. Qed.

Lemma download_media_file_dirs env url filepath description w r w' :
  download_media_file env url filepath description w = (r, w') →
  (∀ q, is_dir (fs w) q → is_dir (fs w') q)
  ∧ (∀ q, fs w' !! q = Some Dir → fs w !! q = Some Dir).
Proof.
  intros H.
  assert (fs w' = fs w
          ∨ ∃ content, fs w' = <[filepath := File content]> (fs w)
                       ∧ fs_lookup (fs w) filepath ≠ Some Dir) as Hfs.
  2:{ destruct Hfs as [->|(content & -> & Hdir)]; [done|].
      split; [intros q; by apply is_dir_insert_file|intros q; apply dir_of_insert_file]. }
  pose proof (download_media_file_cases env url filepath description w) as Hcases.
  cbv zeta in Hcases. cbn [log] in Hcases.
  assert (∀ wx rx wx',
            bind (console_print env (MsgDownloadFailed (Pathlib.name filepath)))
              (λ _, ret false) wx = (rx, wx') →
            fs wx' = fs wx) as Hfailed.
  { intros wx rx wx' Hf. by apply report_failure_effect in Hf as (Hfs & _). }
  assert (∀ wx, fs (console_print env (MsgProgressStop description) wx).2 = fs wx)
    as Hstopped.
  { intros wx.
    by destruct (progress_stop_effect env description wx) as (w1 & <- & Hfs & _). }
  destruct (session_get env _ url) as [|chunks complete].
  { rewrite Hcases in H. apply Hfailed in H. by left. }
  destruct (console_error env _ (MsgProgressStart description)).
  { rewrite Hcases in H. apply Hfailed in H. by left. }
  destruct (open_wb filepath _) as [[[]|e] w1] eqn:Hopen; rewrite Hcases in H;
    clear Hcases.
  - apply open_wb_ok in Hopen as (_ & _ & _ & Hdir). simpl in Hdir.
    right. exists (String.concat "" chunks). split; [|done].
    destruct (console_error env _ (MsgProgressStop description));
      [apply Hfailed in H; by rewrite H, Hstopped|].
    destruct complete; [simplify_eq; by rewrite Hstopped|].
    apply Hfailed in H. by rewrite H, Hstopped.
  - left. apply Hfailed in H. by rewrite H, Hstopped.
Qed.

Lemma gather_dirs env download_tasks :
  ∀ w r w', gather env download_tasks w = (r, w') →
  (∀ q, is_dir (fs w) q → is_dir (fs w') q)
  ∧ (∀ q, fs w' !! q = Some Dir → fs w !! q = Some Dir).
Proof.
  induction download_tasks as [|task rest IH]; intros w r w' H; simpl in H.
  - unfold ret in H. by simplify_eq.
  - unfold bind in H.
    destruct (download_media_file env _ _ _ w) as [r1 w1] eqn:H1.
    apply download_media_file_dirs in H1 as [Hkeep1 Hnew1].
    destruct r1 as [success|e]; [|by simplify_eq].
    destruct (gather env rest w1) as [r2 w2] eqn:H2.
    apply IH in H2 as [Hkeep2 Hnew2].
    assert (w' = w2) as -> by (destruct r2; unfold ret in H; by simplify_eq).
    split; eauto.
Qed.

Lemma gather_success_place env download_tasks :
  ∀ w results w', gather env download_tasks w = (Ok results, w') →
  ∀ j t, download_tasks !! j = Some t → results !! j = Some true →
  Pathlib.name (task_filepath t) ≠ ".." ∧ ¬ is_dir (fs w) (task_filepath t).
Proof.
  induction download_tasks as [|task rest IH]; intros w results w' H j t Hj Hr;
    simpl in H; [done|].
  unfold bind in H.
  destruct (download_media_file env _ _ _ w) as [[success|e] w1] eqn:H1; [|done].
  destruct (gather env rest w1) as [[results2|e] w2] eqn:H2; [|done].
  unfold ret in H. simplify_eq. destruct j as [|j]; simplify_eq/=.
  - apply download_media_file_true in H1 as (Hdots & Hdir). done.
  - destruct (IH _ _ _ H2 j t Hj Hr) as [Hdots Hdir]. split; [done|].
    intros Hq. apply Hdir. by apply (proj1 (download_media_file_dirs _ _ _ _ _ _ _ H1)).
Qed.

(** The world in which the fetches of a call start and the one in which they
    end. *)
Lemma download_media_async_run_gather
    env media_uris output_dir cleanup_gcs organize_by_type w run w' :
  download_media_async_run env media_uris output_dir cleanup_gcs organize_by_type w
  = (Ok run, w') →
  ∃ w1 w2,
    gather env (run_download_tasks run) w1 = (Ok (run_results run), w2)
    ∧ fs w' = fs w2
    ∧ is_dir (fs w1) (download_dir_of output_dir)
    ∧ (organize_by_type = true →
       Forall (λ name, is_dir (fs w1) (download_dir_of output_dir // name))
         ["videos"; "images"; "audios"; "unknown"])
    ∧ (∀ q, is_dir (fs w) q → is_dir (fs w1) q)
    ∧ (organize_by_type = false →
       ∀ q, fs w1 !! q = Some Dir → q = download_dir_of output_dir ∨ fs w !! q = Some Dir).
Proof.
  intros H. unfold download_media_async_run in H.
  unfold bind at 1 in H.
  destruct (mkdir_exist_ok (download_dir_of output_dir) w) as [[[]|e] w0] eqn:H0; [|done].
  pose proof (mkdir_exist_ok_dir _ _ _ H0) as Hdir0.
  assert (∀ q, fs w0 !! q = Some Dir → q = download_dir_of output_dir ∨ fs w !! q = Some Dir)
    as Hnew0.
  { intros q. unfold mkdir_exist_ok in H0.
    destruct (fs_lookup (fs w) _) as [[|c]|]; simplify_eq; [by auto|].
    destruct (fs_lookup (fs w) (Pathlib.parent _)) as [[|c]|]; simplify_eq. simpl.
    rewrite lookup_insert. case_decide; auto. }
  unfold bind at 1 in H.
  match type of H with
  | (match ?x with pair _ _ => _ end) = _ => destruct x as [[media_folders|e] w1] eqn:H1
  end; [|done].
  assert (is_dir (fs w1) (download_dir_of output_dir)
          ∧ (organize_by_type = true →
             Forall (λ name, is_dir (fs w1) (download_dir_of output_dir // name))
               ["videos"; "images"; "audios"; "unknown"])
          ∧ (∀ q, is_dir (fs w0) q → is_dir (fs w1) q)
          ∧ (organize_by_type = false → fs w1 = fs w0)) as (Hdir1 & Hdirs1 & Hkeep1 & Hsame1).
  { destruct organize_by_type.
    - unfold bind at 1 in H1.
      destruct (create_media_folders (download_dir_of output_dir) w0)
        as [[folders|e] wc] eqn:Hc; [|done].
      assert (fs w1 = fs wc) as Hfs1.
      { unfold bind in H1. destruct (console_print env _ wc) as [rb wb] eqn:Hb'.
        apply console_print_fs in Hb'.
        destruct rb; unfold ret in H1; by simplify_eq. }
      rewrite Hfs1. clear H1.
      unfold create_media_folders, bind in Hc.
      destruct (create_type_folders _ _ _ w0) as [[folders0|e] wa] eqn:Ha; [|done].
      pose proof (create_type_folders_dirs _ _ _ _ _ _ Ha) as Hdirs.
      destruct (mkdir_exist_ok _ wa) as [[[]|e] wb] eqn:Hb; unfold ret in Hc; simplify_eq.
      assert (∀ q, is_dir (fs w0) q → is_dir (fs wc) q) as Hkeep.
      { intros q Hq. eapply mkdir_exist_ok_keeps_dir; [exact Hb|].
        by eapply create_type_folders_keeps_dir. }
      split; [by apply Hkeep|]. split; [|by split].
      intros _. rewrite Forall_forall in Hdirs.
      repeat constructor; try exact (mkdir_exist_ok_dir _ _ _ Hb);
        (eapply mkdir_exist_ok_keeps_dir; [exact Hb|]); apply Hdirs; simpl;
        rewrite !elem_of_cons; auto.
    - assert (fs w1 = fs w0) as Hfs1.
      { unfold bind in H1. destruct (console_print env _ w0) as [rb wb] eqn:Hb'.
        apply console_print_fs in Hb'.
        destruct rb; unfold ret in H1; by simplify_eq. }
      by rewrite Hfs1. }
  unfold bind at 1 in H.
  destruct (prepare_loop env _ _ _ _ 1 media_uris [] [] w1)
    as [[[download_tasks file_mapping]|e] w2] eqn:H2; [|done].
  apply prepare_loop_spec in H2 as (Hfs2 & _).
  unfold bind at 1 in H.
  destruct (gather env download_tasks w2) as [[results|e] w3] eqn:H3; [|done].
  unfold bind at 1 in H.
  match type of H with
  | (match ?x with pair _ _ => _ end) = _ => destruct x as [r4 w4] eqn:H4
  end.
  assert (fs w4 = fs w3) as Hfs4.
  { destruct (cleanup_gcs && _).
    - unfold bind at 1 in H4.
      destruct (console_print env MsgCleaningUp w3) as [ra wa] eqn:Ha.
      apply console_print_fs in Ha.
      destruct ra as [[]|e]; [|by simplify_eq].
      unfold bind at 1 in H4.
      destruct (cleanup_loop env _ 0 _) as [rc wc] eqn:Hc.
      pose proof (cleanup_loop_spec env _ _ _ _ _ Hc) as (Hfsc & _).
      destruct rc as [n|e]; [|simplify_eq; congruence].
      destruct (0 <? n); [apply console_print_fs in H4|unfold ret in H4; simplify_eq];
        congruence.
    - unfold ret in H4. by simplify_eq. }
  destruct r4 as [[]|e]; unfold ret in H; simplify_eq. simpl.
  exists w2, w3. unfold is_dir in *. rewrite Hfs2.
  split; [done|]. split; [done|]. split; [done|]. split; [done|]. split.
  - intros q Hq. apply Hkeep1. by eapply mkdir_exist_ok_keeps_dir.
  - intros Horg q Hq. apply Hnew0. by rewrite <- (Hsame1 Horg).
Qed.


Lemma joinpath_empty p : p // "" = p.
Proof.
  unfold Pathlib.joinpath. simpl. rewrite app_nil_r. by destruct p.
Qed.

Lemma media_type_component file_extension :
  single_component (get_media_type file_extension).
Proof.
  pose proof (get_media_type_range file_extension) as Hrange.
  rewrite !elem_of_cons, elem_of_nil in Hrange.
  destruct Hrange as [->|[->|[->|[->|[]]]]]; by split.
Qed.

(** The place of a successful download: a file named by the target filename,
    directly inside the download directory or the folder of its media
    type. *)
Lemma successful_download_place
    env media_uris output_dir cleanup_gcs organize_by_type w run w' uri local_path :
  download_media_async_run env media_uris output_dir cleanup_gcs organize_by_type w
  = (Ok run, w') →
  (uri, local_path) ∈ run_successful_downloads run →
  ∃ k filename,
    media_uris !! k = Some uri
    ∧ derive_filename (S k) uri = Ok filename
    ∧ single_component filename ∧ filename ≠ ".."
    ∧ let folder :=
        if organize_by_type
        then download_dir_of output_dir
               // get_media_type (PyStr.lower (Pathlib.suffix (Pathlib.of_string filename)))
        else download_dir_of output_dir in
      local_path = {| anchor := anchor folder; parts := parts folder ++ [filename] |}
      ∧ is_dir (fs w') folder.
Proof.
  intros Hrun Hin.
  pose proof (download_media_async_run_spec env _ _ _ _ _ _ _ Hrun)
    as (_ & items & failures & Htrace & Htasks & Hmap & Hlen & Hsucc & _).
  rewrite Hsucc, Hmap in Hin.
  destruct (successful_prepared env _ _ _ _ _ _ _ _ _ _ Htrace Hin)
    as (j & k & t & Hj & Hr & Hk & Hp).
  simpl in Hk, Hp.
  apply prepared_filepath in Hp as (filename & Hname & Htask & Hpath). simpl in Htask, Hpath.
  destruct (download_media_async_run_gather _ _ _ _ _ _ _ _ Hrun)
    as (w1 & w2 & Hgather & Hfs & Hdir & Hdirs & _).
  destruct (gather_success_place _ _ _ _ _ Hgather j t) as [Hdots Hnodir]; [|done|].
  { by rewrite Htasks, list_lookup_fmap, Hj. }
  apply gather_dirs in Hgather as [Hkeep _].
  set (folder := if organize_by_type
        then download_dir_of output_dir
               // get_media_type (PyStr.lower (Pathlib.suffix (Pathlib.of_string filename)))
        else download_dir_of output_dir).
  assert (local_path = folder // filename) as Hlocal.
  { subst folder. by destruct organize_by_type. }
  assert (is_dir (fs w1) folder) as Hfolder.
  { subst folder. destruct organize_by_type; [|done].
    specialize (Hdirs eq_refl). rewrite Forall_forall in Hdirs.
    apply Hdirs, get_media_type_range. }
  rewrite Htask, Hlocal in Hdots, Hnodir.
  destruct (derive_filename_component _ _ _ Hname) as [->|Hcomponent].
  { by rewrite joinpath_empty in Hnodir. }
  rewrite joinpath_single_component in Hlocal, Hdots by done.
  exists k, filename. split; [done|]. split; [done|]. split; [done|]. split.
  - intros ->. apply Hdots. unfold Pathlib.name. simpl. apply List.last_last.
  - split; [done|]. unfold is_dir. rewrite Hfs. by apply Hkeep.
Qed.

(** X12: a download never leaves its folder.  The name of every path that
    [download_media] returns is the target filename of its reference, and it
    is one path component: not empty, without a slash, neither [.] nor
    [..].  The folder that holds the file is the download directory, or,
    when the call organizes by type, the folder under it of the media type of
    the file's extension; that folder is a directory when the call ends.  A
    reference whose target filename is empty or [..] is thus never among the
    downloads. *)
Theorem downloads_stay_in_their_folder
    (env : Collaborators) (media_uris : list string) (output_dir : option string)
    (cleanup_gcs organize_by_type : bool) (w : World)
    (downloads : list (string * Path)) (w' : World) :
  download_media env media_uris output_dir cleanup_gcs organize_by_type w
  = (Ok downloads, w') →
  ∀ uri local_path, (uri, local_path) ∈ downloads →
    single_component (Pathlib.name local_path)
    ∧ Pathlib.name local_path ≠ ".."
    ∧ (∃ k, media_uris !! k = Some uri
            ∧ derive_filename (S k) uri = Ok (Pathlib.name local_path))
    ∧ is_dir (fs w') (Pathlib.parent local_path)
    ∧ Pathlib.parent local_path
      = (if organize_by_type
         then download_dir_of output_dir
                // get_media_type (PyStr.lower (Pathlib.suffix local_path))
         else download_dir_of output_dir).
Proof.
  unfold download_media, download_media_async, bind. intros H uri local_path Hin.
  destruct (download_media_async_run env _ _ _ _ w) as [[run|e] w1] eqn:Hrun; [|done].
  unfold ret in H. simplify_eq.
  destruct (successful_download_place _ _ _ _ _ _ _ _ _ _ Hrun Hin)
    as (k & filename & Hk & Hname & Hcomponent & Hdots & Hlocal & Hdir).
  cbv zeta in Hlocal, Hdir.
  assert (Pathlib.name local_path = filename) as Hn.
  { rewrite Hlocal. unfold Pathlib.name. simpl. apply List.last_last. }
  assert (Pathlib.suffix local_path = Pathlib.suffix (Pathlib.of_string filename)) as Hsuffix.
  { unfold Pathlib.suffix. rewrite Hn. rewrite of_string_single_component by done.
    done. }
  rewrite Hsuffix, Hn.
  set (folder := if organize_by_type then _ else _) in *.
  assert (Pathlib.parent local_path = folder) as ->.
  { rewrite Hlocal. unfold Pathlib.parent. simpl. rewrite removelast_last. by destruct folder. }
  split; [done|]. split; [done|]. split; [by exists k|]. split; done.
Qed.

Lemma downloads_stay_in_their_folder_witness :
  ∃ downloads w',
    download_media (demo_env true) demo_mixed (Some "out") true true empty_world
    = (Ok downloads, w')
    ∧ ("gs://open/v/x.MP3", Pathlib.of_string "out/audios/x.MP3") ∈ downloads
    ∧ is_dir (fs w') (Pathlib.parent (Pathlib.of_string "out/audios/x.MP3")).
Proof.
  run_demo (download_media (demo_env true) demo_mixed (Some "out") true true
              empty_world) Hrun.
  match type of Hrun with
  | _ = (Ok ?downloads, ?w') =>
      exists downloads, w';
      assert (("gs://open/v/x.MP3", Pathlib.of_string "out/audios/x.MP3") ∈ downloads)
        as Hin by apply list_elem_of_further, list_elem_of_here;
      destruct (downloads_stay_in_their_folder _ _ _ _ _ _ _ _ Hrun _ _ Hin)
        as (_ & _ & _ & Hdir & _)
  end.
  split; [exact Hrun|]. split; [exact Hin|exact Hdir].
Defined.

Lemma download_media_async_run_unorganized env media_uris output_dir cleanup_gcs w r w' :
  download_media_async_run env media_uris output_dir cleanup_gcs false w = (r, w') →
  ∀ q, fs w' !! q = Some Dir → q = download_dir_of output_dir ∨ fs w !! q = Some Dir.
Proof.
  intros H. unfold download_media_async_run in H.
  unfold bind at 1 in H.
  destruct (mkdir_exist_ok (download_dir_of output_dir) w) as [[[]|e] w0] eqn:H0.
  2:{ apply mkdir_exist_ok_raise in H0 as ->. simplify_eq. auto. }
  assert (∀ q, fs w0 !! q = Some Dir → q = download_dir_of output_dir ∨ fs w !! q = Some Dir)
    as Hnew0.
  { intros q. unfold mkdir_exist_ok in H0.
    destruct (fs_lookup (fs w) _) as [[|c]|]; simplify_eq; [by auto|].
    destruct (fs_lookup (fs w) (Pathlib.parent _)) as [[|c]|]; simplify_eq. simpl.
    rewrite lookup_insert. case_decide; auto. }
  unfold bind at 1 in H.
  match type of H with
  | (match ?x with pair _ _ => _ end) = _ => destruct x as [r1 w1] eqn:H1
  end.
  assert (fs w1 = fs w0) as Hfs1.
  { unfold bind in H1. destruct (console_print env _ w0) as [rb wb] eqn:Hb.
    apply console_print_fs in Hb.
    destruct rb; unfold ret in H1; by simplify_eq. }
  destruct r1 as [media_folders|e]; [|simplify_eq; by rewrite Hfs1].
  unfold bind at 1 in H.
  match type of H with
  | (match ?x with pair _ _ => _ end) = _ => destruct x as [r2 w2] eqn:H2
  end.
  apply prepare_loop_spec in H2 as (Hfs2 & _). rewrite Hfs1 in Hfs2.
  destruct r2 as [[download_tasks file_mapping]|e]; [|simplify_eq; by rewrite Hfs2].
  unfold bind at 1 in H.
  destruct (gather env download_tasks w2) as [r3 w3] eqn:H3.
  apply gather_dirs in H3 as [_ Hnew3].
  destruct r3 as [results|e].
  2:{ simplify_eq. intros q Hq. apply Hnew3 in Hq. rewrite Hfs2 in Hq. by apply Hnew0. }
  unfold bind at 1 in H.
  match type of H with
  | (match ?x with pair _ _ => _ end) = _ => destruct x as [r4 w4] eqn:H4
  end.
  assert (fs w4 = fs w3) as Hfs4.
  { destruct (cleanup_gcs && _).
    - unfold bind at 1 in H4.
      destruct (console_print env MsgCleaningUp w3) as [ra wa] eqn:Ha.
      apply console_print_fs in Ha.
      destruct ra as [[]|e]; [|by simplify_eq].
      unfold bind at 1 in H4.
      destruct (cleanup_loop env _ 0 _) as [rc wc] eqn:Hc.
      pose proof (cleanup_loop_spec env _ _ _ _ _ Hc) as (Hfsc & _).
      destruct rc as [n|e]; [|simplify_eq; congruence].
      destruct (0 <? n); [apply console_print_fs in H4|unfold ret in H4; simplify_eq];
        congruence.
    - unfold ret in H4. by simplify_eq. }
  intros q Hq.
  assert (fs w' = fs w4) as Hfs'.
  { destruct r4 as [[]|e]; unfold ret in H; by simplify_eq. }
  rewrite Hfs', Hfs4 in Hq. apply Hnew3 in Hq. rewrite Hfs2 in Hq. by apply Hnew0.
Qed.

(** X16: [download_videos] makes no folders of media types.  The only
    directory that a call may add is the download directory; and every
    download it returns is a regular file directly in the download
    directory. *)
Theorem download_videos_makes_one_folder
    (env : Collaborators) (video_uris : list string) (output_dir : option string)
    (cleanup_gcs : bool) (w : World) (r : result (list (string * Path))) (w' : World) :
  download_videos env video_uris output_dir cleanup_gcs w = (r, w') →
  (∀ q, fs w' !! q = Some Dir → q = download_dir_of output_dir ∨ fs w !! q = Some Dir)
  ∧ (∀ downloads uri local_path,
       r = Ok downloads → (uri, local_path) ∈ downloads →
       is_file (fs w') local_path
       ∧ Pathlib.parent local_path = download_dir_of output_dir).
Proof.
  unfold download_videos, download_media, download_media_async, bind. intros H.
  destruct (download_media_async_run env _ _ _ _ w) as [r1 w1] eqn:Hrun.
  assert (w' = w1) as -> by (destruct r1; unfold ret in H; by simplify_eq).
  split; [by eapply download_media_async_run_unorganized|].
  intros downloads uri local_path -> Hin.
  destruct r1 as [run|e]; [|done]. unfold ret in H. simplify_eq.
  split.
  - pose proof (download_media_async_run_spec env _ _ _ _ _ _ _ Hrun)
      as (_ & items & failures & Htrace & Htasks & Hmap & Hlen & Hsucc & _ & _ & _ & Hfile).
    rewrite Hsucc, Hmap in Hin.
    destruct (successful_prepared env _ _ _ _ _ _ _ _ _ _ Htrace Hin)
      as (j & k & t & Hj & Hr & Hk & Hp).
    destruct Hp as (filename & _ & _ & _ & Htask & _). simpl in Htask.
    rewrite <- Htask. apply (Hfile j); [|done].
    by rewrite Htasks, list_lookup_fmap, Hj.
  - destruct (successful_download_place _ _ _ _ _ _ _ _ _ _ Hrun Hin)
      as (k & filename & _ & _ & _ & _ & Hlocal & _).
    cbv zeta in Hlocal. rewrite Hlocal. unfold Pathlib.parent. simpl.
    rewrite removelast_last. by destruct (download_dir_of output_dir).
Qed.

Lemma download_videos_makes_one_folder_witness :
  ∃ r w',
    download_videos (demo_env true) demo_three None true empty_world = (r, w')
    ∧ ∀ q, fs w' !! q = Some Dir →
           q = download_dir_of None ∨ fs empty_world !! q = Some Dir.
Proof.
  run_demo (download_videos (demo_env true) demo_three None true empty_world) Hrun.
  match type of Hrun with
  | _ = (?r, ?w') =>
      exists r, w';
      destruct (download_videos_makes_one_folder _ _ _ _ _ _ _ Hrun) as (Hdirs & _)
  end.
  split; [exact Hrun|exact Hdirs].
Defined.


(** ** The download summary *)

Lemma summary_group_cases local_path :
  let parent_name := Pathlib.name (Pathlib.parent local_path) in
  (parent_name = "videos" ∧ summary_group local_path = "videos")
  ∨ (parent_name = "images" ∧ summary_group local_path = "images")
  ∨ (parent_name = "audios" ∧ summary_group local_path = "audios")
  ∨ (parent_name = "unknown" ∧ summary_group local_path = "unknown")
  ∨ (by_type_mem by_type_initial parent_name = false
     ∧ summary_group local_path = "unknown").
Proof.
  intros parent_name. unfold summary_group. fold parent_name.
  clearbody parent_name. case_bool_decide as Hin.
  - rewrite !elem_of_cons, elem_of_nil in Hin.
    destruct Hin as [->|[->|[->|[->|[]]]]]; auto 6.
  - right. right. right. right. split; [|done].
    rewrite !elem_of_cons, elem_of_nil in Hin.
    assert (∀ key, parent_name ≠ key → String.eqb key parent_name = false) as Hneq.
    { intros key Hkey. apply String.eqb_neq. congruence. }
    unfold by_type_mem, by_type_initial. cbn [existsb fst].
    rewrite !Hneq by tauto. done.
Qed.

Lemma group_names_cons key uri local_path downloads :
  group_names key ((uri, local_path) :: downloads)
  = if bool_decide (summary_group local_path = key)
    then Pathlib.name local_path :: group_names key downloads
    else group_names key downloads.
Proof.
  unfold group_names. case_bool_decide.
  - by rewrite filter_cons_True.
  - by rewrite filter_cons_False.
Qed.

(** The loop that fills [by_type] sorts the names by [summary_group]. *)
Lemma group_downloads_spec downloads :
  ∀ videos images audios unknown,
  group_downloads downloads
    [("videos", videos); ("images", images); ("audios", audios); ("unknown", unknown)]
  = [("videos", videos ++ group_names "videos" downloads);
     ("images", images ++ group_names "images" downloads);
     ("audios", audios ++ group_names "audios" downloads);
     ("unknown", unknown ++ group_names "unknown" downloads)].
Proof.
  induction downloads as [|[uri local_path] rest IH]; intros videos images audios unknown.
  - unfold group_names. simpl. by rewrite !app_nil_r.
  - cbn [group_downloads]. rewrite !group_names_cons.
    destruct (summary_group_cases local_path)
      as [[Hp ->]|[[Hp ->]|[[Hp ->]|[[Hp ->]|[Hp ->]]]]]; cbv zeta in Hp.
    1-4: rewrite Hp; simpl; rewrite IH; simpl; by rewrite <- !app_assoc.
    assert (by_type_mem
              [("videos", videos); ("images", images); ("audios", audios);
               ("unknown", unknown)] (Pathlib.name (Pathlib.parent local_path))
            = false) as -> by exact Hp.
    simpl. rewrite IH. simpl. by rewrite <- !app_assoc.
Qed.

Lemma print_download_summary_organized downloads total_media download_folder :
  downloads ≠ [] →
  print_download_summary downloads total_media download_folder true
  = SummaryPanel (print_download_summary_panel downloads total_media download_folder)
    :: SummaryByTypeHeading
    :: summary_section "Videos" (group_names "videos" downloads)
    ++ summary_section "Images" (group_names "images" downloads)
    ++ summary_section "Audios" (group_names "audios" downloads)
    ++ summary_section "Unknown" (group_names "unknown" downloads)
    ++ [SummaryReady].
Proof.
  intros Hne. unfold print_download_summary. rewrite bool_decide_eq_false_2 by done.
  unfold by_type_initial. rewrite group_downloads_spec. simpl.
  unfold print_by_type, summary_section. simpl. rewrite app_nil_r.
  by rewrite <- !app_assoc.
Qed.

Lemma listed_files_section title files :
  listed_files (summary_section title files) = files.
Proof.
  unfold summary_section, listed_files. case_bool_decide as Hnil; [by subst|].
  simpl. clear Hnil. induction files as [|f files IH]; simpl; [done|]. by rewrite IH.
Qed.

(** Sorting a list into the four groups keeps every element once. *)
Lemma group_names_permutation downloads :
  group_names "videos" downloads ++ group_names "images" downloads
    ++ group_names "audios" downloads ++ group_names "unknown" downloads
  ≡ₚ (λ d, Pathlib.name d.2) <$> downloads.
Proof.
  induction downloads as [|[uri local_path] rest IH]; [done|].
  rewrite !group_names_cons.
  set (videos := group_names "videos" rest) in *.
  set (images := group_names "images" rest) in *.
  set (audios := group_names "audios" rest) in *.
  set (unknown := group_names "unknown" rest) in *.
  cbn [fmap list_fmap snd].
  change (list_fmap _ _ (λ d : string * Path, Pathlib.name d.2) rest)
    with ((λ d : string * Path, Pathlib.name d.2) <$> rest).
  rewrite <- IH.
  destruct (summary_group_cases local_path)
    as [[_ ->]|[[_ ->]|[[_ ->]|[[_ ->]|[_ ->]]]]]; simpl.
  - done.
  - by rewrite <- Permutation_middle.
  - rewrite (app_assoc videos images (_ :: _)), <- Permutation_middle.
    by rewrite <- app_assoc.
  - rewrite (app_assoc images audios (_ :: _)), (app_assoc videos _ (_ :: _)).
    rewrite <- Permutation_middle. by rewrite <- !app_assoc.
  - rewrite (app_assoc images audios (_ :: _)), (app_assoc videos _ (_ :: _)).
    rewrite <- Permutation_middle. by rewrite <- !app_assoc.
Qed.

(** X13: what the summary lists.  For a non-empty list of downloads the
    organized summary is the status panel, a heading, then the sections
    Videos, Images, Audios and Unknown, in this order and without the empty
    ones, and a closing line.  A section lists the names of the downloads
    whose folder has its name, Unknown also those whose folder has none of
    the four names, in the order of the downloads.  Every download is listed
    exactly once; and [print_video_download_summary] lists the names in the
    order of the downloads. *)
Theorem summary_lists_every_download
    (downloads : list (string * Path)) (total_media : Z) (download_folder : string) :
  downloads ≠ [] →
  print_download_summary downloads total_media download_folder true
  = SummaryPanel (print_download_summary_panel downloads total_media download_folder)
    :: SummaryByTypeHeading
    :: summary_section "Videos" (group_names "videos" downloads)
    ++ summary_section "Images" (group_names "images" downloads)
    ++ summary_section "Audios" (group_names "audios" downloads)
    ++ summary_section "Unknown" (group_names "unknown" downloads)
    ++ [SummaryReady]
  ∧ listed_files (print_download_summary downloads total_media download_folder true)
    ≡ₚ (λ d, Pathlib.name d.2) <$> downloads
  ∧ listed_files (print_video_download_summary downloads total_media download_folder)
    = (λ d, Pathlib.name d.2) <$> downloads.
Proof.
  intros Hne. split; [by apply print_download_summary_organized|]. split.
  - rewrite print_download_summary_organized by done.
    unfold listed_files. simpl. rewrite !omap_app. simpl. rewrite app_nil_r.
    fold (listed_files (summary_section "Videos" (group_names "videos" downloads))).
    fold (listed_files (summary_section "Images" (group_names "images" downloads))).
    fold (listed_files (summary_section "Audios" (group_names "audios" downloads))).
    fold (listed_files (summary_section "Unknown" (group_names "unknown" downloads))).
    rewrite !listed_files_section. apply group_names_permutation.
  - unfold print_video_download_summary, print_download_summary.
    rewrite bool_decide_eq_false_2 by done.
    transitivity
      (listed_files
         (map (λ d : string * Path, SummaryFile (Pathlib.name d.2)) downloads
          ++ [SummaryReady])); [done|].
    unfold listed_files. rewrite omap_app. simpl. rewrite app_nil_r.
    clear Hne. induction downloads as [|d rest IH]; [done|].
    simpl. f_equal. exact IH.
Qed.

Lemma summary_lists_every_download_witness :
  listed_files
    (print_download_summary
       [("u1", Pathlib.of_string "out/videos/a.mp4");
        ("u2", Pathlib.of_string "out/misc/b.bin");
        ("u3", Pathlib.of_string "out/images/c.png")] 3 "out" true)
  ≡ₚ ["a.mp4"; "b.bin"; "c.png"].
Proof.
  destruct (summary_lists_every_download
              [("u1", Pathlib.of_string "out/videos/a.mp4");
               ("u2", Pathlib.of_string "out/misc/b.bin");
               ("u3", Pathlib.of_string "out/images/c.png")] 3 "out")
    as (_ & Hlisted & _); [discriminate|].
  exact Hlisted.
Defined.

Lemma filter_ext_elem {A} (P Q : A → Prop) `{∀ x, Decision (P x)} `{∀ x, Decision (Q x)}
    (l : list A) :
  (∀ x, x ∈ l → P x ↔ Q x) → filter P l = filter Q l.
Proof.
  induction l as [|x l IH]; intros Hext; [done|].
  assert (filter P l = filter Q l) as Hl.
  { apply IH. intros y Hy. apply Hext. by apply list_elem_of_further. }
  destruct (decide (P x)) as [HP|HP].
  - rewrite filter_cons_True by done.
    rewrite filter_cons_True by (by apply Hext; [apply list_elem_of_here|]).
    by rewrite Hl.
  - rewrite filter_cons_False by done.
    rewrite filter_cons_False; [by rewrite Hl|].
    intros HQ. apply HP. by apply Hext; [apply list_elem_of_here|].
Qed.

(** X14: the summary agrees with the classifier.  When the downloads that
    [download_media] returned from a call that organizes by type are given
    to the organized summary, each file is listed under the media type of
    its own extension: the section Videos has the names of the downloads
    whose extension [get_media_type] maps to [videos], and so on for Images,
    Audios and Unknown. *)
Theorem summary_agrees_with_classifier
    (env : Collaborators) (media_uris : list string) (output_dir : option string)
    (cleanup_gcs : bool) (w : World) (downloads : list (string * Path)) (w' : World)
    (download_folder : string) :
  download_media env media_uris output_dir cleanup_gcs true w = (Ok downloads, w') →
  downloads ≠ [] →
  let of_type media_type :=
    (λ d, Pathlib.name d.2)
      <$> filter (λ d, get_media_type (PyStr.lower (Pathlib.suffix d.2)) = media_type)
            downloads in
  print_download_summary downloads (Z.of_nat (length media_uris)) download_folder true
  = SummaryPanel (print_download_summary_panel downloads (Z.of_nat (length media_uris))
                    download_folder)
    :: SummaryByTypeHeading
    :: summary_section "Videos" (of_type "videos")
    ++ summary_section "Images" (of_type "images")
    ++ summary_section "Audios" (of_type "audios")
    ++ summary_section "Unknown" (of_type "unknown")
    ++ [SummaryReady].
Proof.
  intros H Hne of_type.
  rewrite print_download_summary_organized by done.
  assert (∀ key, group_names key downloads = of_type key) as Hgroups.
  { intros key. unfold group_names, of_type. f_equal.
    apply filter_ext_elem. intros [uri local_path] Hin. simpl.
    unfold download_media, download_media_async, bind in H.
    destruct (download_media_async_run env _ _ _ _ w) as [[run|e] w1] eqn:Hrun; [|done].
    unfold ret in H. simplify_eq.
    destruct (successful_download_place _ _ _ _ _ _ _ _ _ _ Hrun Hin)
      as (k & filename & _ & _ & Hcomponent & _ & Hlocal & _).
    cbv zeta in Hlocal.
    assert (Pathlib.suffix local_path = Pathlib.suffix (Pathlib.of_string filename))
      as Hsuffix.
    { unfold Pathlib.suffix, Pathlib.name. rewrite Hlocal.
      rewrite of_string_single_component by done. simpl. by rewrite List.last_last. }
    rewrite Hsuffix.
    set (media_type := get_media_type _) in *.
    pose proof (media_type_component
                  (PyStr.lower (Pathlib.suffix (Pathlib.of_string filename)))) as Hmt.
    fold media_type in Hmt.
    assert (summary_group local_path = media_type) as ->; [|done].
    unfold summary_group.
    assert (Pathlib.name (Pathlib.parent local_path) = media_type) as ->.
    { rewrite Hlocal. unfold Pathlib.parent, Pathlib.name. simpl. rewrite removelast_last.
      rewrite joinpath_single_component by done. simpl. apply List.last_last. }
    rewrite bool_decide_eq_true_2; [done|]. apply get_media_type_range. }
  by rewrite !Hgroups.
Qed.

Lemma summary_agrees_with_classifier_witness :
  ∃ downloads w',
    download_media (demo_env true) demo_mixed (Some "out") true true empty_world
    = (Ok downloads, w')
    ∧ print_download_summary downloads (Z.of_nat (length demo_mixed)) "out" true
      = [SummaryPanel
           (print_download_summary_panel downloads (Z.of_nat (length demo_mixed)) "out");
         SummaryByTypeHeading;
         SummaryTypeHeading "Videos"; SummaryTypeFile "clip.mp4";
         SummaryTypeHeading "Audios"; SummaryTypeFile "x.MP3";
         SummaryReady].
Proof.
  run_demo (download_media (demo_env true) demo_mixed (Some "out") true true
              empty_world) Hrun.
  match type of Hrun with
  | _ = (Ok ?downloads, ?w') =>
      exists downloads, w';
      assert (downloads ≠ []) as Hne by discriminate;
      pose proof (summary_agrees_with_classifier _ _ _ _ _ _ _ "out" Hrun Hne) as Hsummary
  end.
  split; [exact Hrun|]. cbv zeta in Hsummary. rewrite Hsummary. vm_compute. reflexivity.
Defined.

Lemma sublist_same_length {A} (l1 l2 : list A) :
  l1 `sublist_of` l2 → length l2 ≤ length l1 → l1 = l2.
Proof.
  induction 1 as [|x l1 l2 Hsub IH|x l1 l2 Hsub IH]; simpl; intros Hlen; [done| |].
  - f_equal. apply IH. lia.
  - apply sublist_length in Hsub. lia.
Qed.

(** X15: the status of the summary, when it is given what [download_media]
    returned and the size of the batch, as the command [generate] does.  The
    references of the downloads are a subsequence of the batch, so the count
    never exceeds the total; the panel is green exactly when every reference
    of the batch was downloaded, yellow exactly when some but not all were,
    and red exactly when none was and the batch is not empty. *)
Theorem summary_status_of_call
    (env : Collaborators) (media_uris : list string) (output_dir : option string)
    (cleanup_gcs organize_by_type : bool) (w : World)
    (downloads : list (string * Path)) (w' : World) (download_folder : string) :
  download_media env media_uris output_dir cleanup_gcs organize_by_type w
  = (Ok downloads, w') →
  let panel :=
    print_download_summary_panel downloads (Z.of_nat (length media_uris)) download_folder in
  downloads.*1 `sublist_of` media_uris
  ∧ (panel_style panel = "green" ↔ downloads.*1 = media_uris)
  ∧ (panel_style panel = "yellow" ↔ 0 < length downloads < length media_uris)
  ∧ (panel_style panel = "red" ↔ downloads = [] ∧ media_uris ≠ []).
Proof.
  intros H panel. unfold download_media, download_media_async, bind in H.
  destruct (download_media_async_run env _ _ _ _ w) as [[run|e] w1] eqn:Hrun; [|done].
  unfold ret in H. simplify_eq.
  pose proof (download_media_async_run_spec env _ _ _ _ _ _ _ Hrun)
    as (_ & items & failures & Htrace & _ & Hmap & _ & Hsucc & _).
  assert ((run_successful_downloads run).*1 `sublist_of` media_uris) as Hsub.
  { rewrite Hsucc, Hmap. etrans; [|by eapply loop_trace_sublist].
    apply fmap_sublist, filter_successful_sublist. }
  split; [done|].
  pose proof (sublist_length _ _ Hsub) as Hle. rewrite length_fmap in Hle.
  assert ((run_successful_downloads run).*1 = media_uris
          ↔ length (run_successful_downloads run) = length media_uris) as Hall.
  { split; [intros <-; by rewrite length_fmap|].
    intros Hlen. apply sublist_same_length; [done|]. rewrite length_fmap. lia. }
  subst panel.
  unfold print_download_summary_panel, create_download_status_panel, download_status.
  destruct (Z.eqb_spec (Z.of_nat (length (run_successful_downloads run)))
              (Z.of_nat (length media_uris))) as [Heq|Hneq].
  - apply Nat2Z.inj in Heq. simpl.
    split; [by rewrite Hall|]. split; [split; [done|lia]|].
    split; [done|]. intros [Hnil Hne]. rewrite Hnil in Heq. simpl in Heq.
    by destruct media_uris.
  - assert (length (run_successful_downloads run) ≠ length media_uris) as Hneq' by lia.
    destruct (Z.gtb_spec (Z.of_nat (length (run_successful_downloads run))) 0)
      as [Hpos|Hzero]; simpl.
    + split; [split; [done|by rewrite Hall]|]. split; [split; [lia|done]|].
      split; [done|]. intros [Hnil _]. rewrite Hnil in Hpos. simpl in Hpos. lia.
    + assert (run_successful_downloads run = []) as Hnil.
      { destruct (run_successful_downloads run); [done|simpl in Hzero; lia]. }
      split; [split; [done|by rewrite Hall]|]. split; [split; [done|lia]|].
      split; [|done]. intros _. split; [done|]. intros ->. by rewrite Hnil in Hneq'.
Qed.

Lemma summary_status_of_call_witness :
  ∃ downloads w',
    download_media (demo_env true) demo_three None true true empty_world
    = (Ok downloads, w')
    ∧ panel_style
        (print_download_summary_panel downloads (Z.of_nat (length demo_three))
           "downloaded_media")
      = "yellow".
Proof.
  run_demo (download_media (demo_env true) demo_three None true true empty_world) Hrun.
  match type of Hrun with
  | _ = (Ok ?downloads, ?w') =>
      exists downloads, w';
      destruct (summary_status_of_call _ _ _ _ _ _ _ _ "downloaded_media" Hrun)
        as (_ & _ & Hyellow & _)
  end.
  split; [exact Hrun|]. apply Hyellow. simpl. lia.
Defined.
